(** * Meta-tile storage (store.c): shallow embedding and verified properties

    The C file bundles the tiles of one METATILE x METATILE block into a
    single ".meta" container ([process_meta]), reads one tile back out of a
    container ([read_from_meta]) or from a standalone file
    ([read_from_file], [tile_read]) and expands a container into standalone
    files again ([process_unpack]).

    The embedding keeps the C data as the code has it: file contents and
    buffers are byte lists, the struct fields of the container header are
    decoded from and encoded into those bytes (little endian, LP64), the C
    integer conversions are written out, and the system calls act on an
    explicit world (file system, clock, diagnostics) threaded through every
    function. *)

From Stdlib Require Import ZArith List Lia Bool String.
From coqutil Require Import Byte Word.LittleEndianList.
From stdpp Require Import base option list gmap strings.

Local Open Scope Z_scope.

(** ** C integer types (LP64) *)

Abbreviation bytes := (list Byte.byte).

(** [unsigned int] *)
Definition to_uint (v : Z) : Z := v mod 2 ^ 32.
(** [int] *)
Definition to_int (v : Z) : Z := (v + 2 ^ 31) mod 2 ^ 32 - 2 ^ 31.
(** [size_t] *)
Definition to_size_t (v : Z) : Z := v mod 2 ^ 64.
(** [off_t] *)
Definition to_off_t (v : Z) : Z := (v + 2 ^ 63) mod 2 ^ 64 - 2 ^ 63.

Definition UINT_MOD : Z := 2 ^ 32.
Definition SIZE_MOD : Z := 2 ^ 64.

(** ** Buffers

    A [char *] buffer is the list of bytes stored from its first byte on.
    [blit buf pos chunk] is the buffer after [chunk] was stored at
    [buf + pos]. *)

Definition blit (buf : bytes) (pos : Z) (chunk : bytes) : bytes :=
  take (Z.to_nat pos) buf ++ chunk ++ drop (Z.to_nat pos + length chunk) buf.

(** Load and store of a 4-byte [int] at byte offset [off]. *)
Definition get_int (buf : bytes) (off : Z) : Z :=
  to_int (le_combine (take 4 (drop (Z.to_nat off) buf))).

Definition put_int (buf : bytes) (off : Z) (v : Z) : bytes :=
  blit buf off (le_split 4 v).

(** ** Container layout *)

(** Modelled from the spec: store.h (struct meta_layout, struct entry and
    the macro META_MAGIC) is not part of the sources.  The header holds the
    magic marker, then the 4-byte fields count, x, y and z; the index table
    of (offset, size) entries follows the header fields directly, and
    [sizeof(struct meta_layout)] counts the header fields only, as
    [process_meta] adds the size of the index table to it.  The two fields
    of an entry are C ints, as they are upstream; the marker is the four
    ASCII characters of "META". *)
Definition META_MAGIC : bytes := [Byte.x4d; Byte.x45; Byte.x54; Byte.x41].

Definition sizeof_meta_layout : Z := 20.
Definition sizeof_entry : Z := 8.

Definition off_count : Z := 4.
Definition off_x : Z := 8.
Definition off_y : Z := 12.
Definition off_z : Z := 16.
(** [&m->index[i].offset] and [&m->index[i].size] *)
Definition off_index_offset (i : Z) : Z := sizeof_meta_layout + sizeof_entry * i.
Definition off_index_size (i : Z) : Z := sizeof_meta_layout + sizeof_entry * i + 4.

(** [sizeof(header)] in [read_from_meta] *)
Definition HEADER_BUF : Z := 4096.

(** ** The world: file system, clock and diagnostics *)

(** Messages printed on stderr and stdout, one constructor per format. *)
Inductive diag : Type :=
  | MetaTooSmall (path : string)
  | MetaMagicMismatch (path : string)
  | MetaBadCount (path : string) (count : Z)
  | MetaSeekError (path : string) (count : Z)
  | TruncatingTile (tile_size sz : Z)
  | FileTruncated (path : string) (sz : Z)
  | ProblemReadingSubTiles (x y z len : Z)
  | ErrorCreatingFile (path : string)
  | PerrorWritingFile
  | ProducedMeta (path : string)
  | ProducedTile (path : string)
  | FailedToGetTile (x y z : Z)
  | PerrorUnlink (path : string).

Record world : Type := mkWorld {
  w_fs : gmap string bytes;     (* regular files by path *)
  w_clock : nat;                (* number of system calls issued so far *)
  w_log : list diag             (* diagnostics, most recent first *)
}.

(** What the environment decides: whether an allocation or a system call
    fails for a reason outside the program, how many bytes a read or a
    write transfers, and what an uninitialised stack buffer holds.  Every
    decision is indexed by the clock of the call. *)
Record oracle : Type := mkOracle {
  o_malloc : nat -> bool;       (* true: malloc returns a buffer *)
  o_open : nat -> bool;         (* true: open is not refused *)
  o_read : nat -> Z;            (* negative: read fails; else bytes offered *)
  o_write : nat -> Z;           (* negative: write fails; else bytes taken *)
  o_unlink : nat -> bool;       (* true: unlink is not refused *)
  o_stack : nat -> nat -> Byte.byte  (* stale contents of a stack buffer *)
}.

(** An open read-only descriptor: the file's bytes and the file offset. *)
Record rfd : Type := mkRfd { fd_data : bytes; fd_pos : Z }.

Definition tick (w : world) : world :=
  mkWorld (w_fs w) (S (w_clock w)) (w_log w).

Definition set_fs (fs : gmap string bytes) (w : world) : world :=
  mkWorld fs (w_clock w) (w_log w).

(** [fprintf(stderr, ...)], [printf] and [perror] *)
Definition emit (d : diag) (w : world) : world :=
  mkWorld (w_fs w) (w_clock w) (d :: w_log w).

(** The kernel moves at most this many bytes in one read or write, so the
    count always fits the [int] the code assigns it to. *)
Definition MAX_RW_COUNT : Z := 2147479552.

(** [buf_len] of [process_meta] and of [process_unpack] *)
Definition PACK_BUF_LEN : Z := 10 * 1024 * 1024.
Definition UNPACK_BUF_LEN : Z := 1024 * 1024.

(** ** Computations on the world

    A C function that returns an [A] is a function from the world before
    the call to the result and the world after it. *)

Definition M (A : Type) : Type := world -> A * world.

(** [memcmp(a, b, n) == 0] *)
Fixpoint memcmp_eq (a b : bytes) (n : nat) {struct n} : bool :=
  match n with
  | O => true
  | S n' =>
    match a, b with
    | c :: a', d :: b' => Byte.eqb c d && memcmp_eq a' b' n'
    | _, _ => false
    end
  end.

(** The offsets [0 .. n-1] a [for] loop runs through, in order. *)
Definition range (n : Z) : list Z := map Z.of_nat (seq 0 (Z.to_nat n)).

(** The pairs [(ox, oy)] of [for (ox...) for (oy...)], [ox] outer. *)
Definition grid (limit : Z) : list (Z * Z) :=
  flat_map (fun ox => map (fun oy => (ox, oy)) (range limit)) (range limit).

Section Store.

(** render_config.h and dir_utils.h are not part of the sources: the
    block edge and the addressing functions are parameters. *)
Variable METATILE : Z.
(** [xyz_to_meta] fills in the container path and returns the slot. *)
Variable xyz_to_meta : Z -> Z -> Z -> string * Z.
Variable xyz_to_path : Z -> Z -> Z -> string.
(** [path_to_xyz] returns non-zero (here [None]) on a malformed name. *)
Variable path_to_xyz : string -> option (Z * Z * Z).
Variable env : oracle.

(** *** System calls *)

Definition sys_malloc : M bool := fun w =>
  (o_malloc env (w_clock w), tick w).

(** [open(path, O_RDONLY)] *)
Definition sys_open_rd (path : string) : M (option rfd) := fun w =>
  match w_fs w !! path with
  | Some data =>
    if o_open env (w_clock w) then (Some (mkRfd data 0), tick w)
    else (None, tick w)
  | None => (None, tick w)
  end.

(** [open(path, O_WRONLY | O_TRUNC | O_CREAT, 0666)]: the file exists and
    is empty as soon as the call succeeds.  The descriptor is the only
    writer of the file until it is closed, so it is named by its path. *)
Definition sys_open_wr (path : string) : M bool := fun w =>
  if o_open env (w_clock w)
  then (true, set_fs (<[path := []]> (w_fs w)) (tick w))
  else (false, tick w).

(** [read(fd, p, len)]: a negative result on failure, 0 at end of file,
    else between 1 and [len] bytes, which are returned with the count. *)
Definition sys_read (fd : rfd) (len : Z) : M (Z * bytes * rfd) := fun w =>
  let rest := drop (Z.to_nat (fd_pos fd)) (fd_data fd) in
  let n := Z.min (Z.min len (Z.of_nat (length rest))) MAX_RW_COUNT in
  let r := o_read env (w_clock w) in
  if r <? 0 then ((-1, [], fd), tick w)
  else if n <=? 0 then ((0, [], fd), tick w)
  else
    let got := Z.max 1 (Z.min r n) in
    ((got, take (Z.to_nat got) rest, mkRfd (fd_data fd) (fd_pos fd + got)),
     tick w).

(** [lseek(fd, offset, SEEK_SET)] with [offset] a [size_t] converted to
    [off_t]: fails on a negative offset only; the offset may lie beyond
    the end of the file. *)
Definition sys_lseek (fd : rfd) (offset : Z) : Z * rfd :=
  let off := to_off_t offset in
  if off <? 0 then (-1, fd) else (off, mkRfd (fd_data fd) off).

(** [write(fd, p, n)] where [chunk] holds the [n] bytes at [p]: a negative
    result on failure, else the number of bytes appended to the file. *)
Definition sys_write (path : string) (chunk : bytes) : M Z := fun w =>
  let r := o_write env (w_clock w) in
  if r <? 0 then (-1, tick w)
  else
    let n := Z.min (Z.min r (Z.of_nat (length chunk))) MAX_RW_COUNT in
    let old := default [] (w_fs w !! path) in
    (n, set_fs (<[path := old ++ take (Z.to_nat n) chunk]> (w_fs w)) (tick w)).

(** [unlink(path) >= 0] *)
Definition sys_unlink (path : string) : M bool := fun w =>
  match w_fs w !! path with
  | Some _ =>
    if o_unlink env (w_clock w)
    then (true, set_fs (delete path (w_fs w)) (tick w))
    else (false, tick w)
  | None => (false, tick w)
  end.

(** *** The read loop

    [read_from_meta] (twice) and [read_from_file] run the same loop:
<<
    pos = 0;
    while (pos < lim) {
        size_t len = lim - pos;
        int got = read(fd, buf + pos, len);
        if (got < 0) { close(fd); return -N; }
        else if (got > 0) pos += got;
        else break;
    }
>>
    [modulus] is the range of the type of [pos].  The result is whether
    no read failed, the final [pos] and the buffer.  Every turn that goes
    on consumes a byte of the file, so [read_fuel] turns are enough. *)
Fixpoint read_loop (fuel : nat) (modulus lim : Z) (fd : rfd) (buf : bytes)
    (pos : Z) (w : world) : (bool * Z * bytes) * world :=
  match fuel with
  | O => ((true, pos, buf), w)
  | S fuel' =>
    if pos <? lim then
      let len := lim - pos in
      let '((got, chunk, fd'), w1) := sys_read fd len w in
      if got <? 0 then ((false, pos, buf), w1)
      else if 0 <? got then
        read_loop fuel' modulus lim fd' (blit buf pos chunk)
          ((pos + got) mod modulus) w1
      else ((true, pos, buf), w1)
    else ((true, pos, buf), w)
  end.

Definition read_fuel (fd : rfd) : nat := S (length (fd_data fd)).

(** [char header[4096]]: not initialised. *)
Definition stack_buf (t : nat) : bytes :=
  map (o_stack env t) (seq 0 (Z.to_nat HEADER_BUF)).

(** *** read_from_meta (store.c, lines 23-97)

    The [char *buf] argument is returned as the bytes the call stored
    from [buf[0]] on, next to the C return value.  The descriptor is not
    closed on the returns -3 to -6; the model has no descriptor table. *)
Definition read_from_meta (x y z : Z) (sz : Z) : M (Z * bytes) := fun w =>
  let '(path, meta_offset) := xyz_to_meta x y z in
  let header0 := stack_buf (w_clock w) in
  match sys_open_rd path w with
  | (None, w1) => ((-1, []), w1)
  | (Some fd, w1) =>
    match read_loop (read_fuel fd) UINT_MOD HEADER_BUF fd header0 0 w1 with
    | ((false, _, _), w2) => ((-2, []), w2)
    | ((true, pos, header), w2) =>
      if pos <? sizeof_meta_layout then
        ((-3, []), emit (MetaTooSmall path) w2)
      else if negb (memcmp_eq header META_MAGIC (length META_MAGIC)) then
        ((-4, []), emit (MetaMagicMismatch path) w2)
      else
        let count := get_int header off_count in
        if negb (count =? to_int (METATILE * METATILE)) then
          ((-5, []), emit (MetaBadCount path count) w2)
        else
          let file_offset :=
            to_size_t (get_int header (off_index_offset meta_offset)) in
          let tile_size :=
            to_size_t (get_int header (off_index_size meta_offset)) in
          let '(r, fd1) := sys_lseek fd file_offset in
          if r <? 0 then ((-6, []), emit (MetaSeekError path count) w2)
          else
            let '(tile_size, w3) :=
              if sz <? tile_size
              then (sz, emit (TruncatingTile tile_size sz) w2)
              else (tile_size, w2) in
            match read_loop (read_fuel fd1) UINT_MOD tile_size fd1 [] 0 w3 with
            | ((false, _, buf), w4) => ((-7, buf), w4)
            | ((true, pos, buf), w4) => ((to_int pos, buf), w4)
            end
    end
  end.

(** *** read_from_file (lines 99-129) *)
Definition read_from_file (x y z : Z) (sz : Z) : M (Z * bytes) := fun w =>
  let path := xyz_to_path x y z in
  match sys_open_rd path w with
  | (None, w1) => ((-1, []), w1)
  | (Some fd, w1) =>
    match read_loop (read_fuel fd) SIZE_MOD sz fd [] 0 w1 with
    | ((false, _, buf), w2) => ((-2, buf), w2)
    | ((true, pos, buf), w2) =>
      let w3 := if pos =? sz then emit (FileTruncated path sz) w2 else w2 in
      ((to_int pos, buf), w3)
    end
  end.

(** *** tile_read (lines 131-140): [sz] is an [int] here *)
Definition tile_read (x y z : Z) (sz : Z) : M (Z * bytes) := fun w =>
  let '((r, buf1), w1) := read_from_meta x y z (to_size_t sz) w in
  if 0 <=? r then ((r, buf1), w1)
  else
    let '((r2, buf2), w2) := read_from_file x y z (to_size_t sz) w1 in
    ((r2, blit buf1 0 buf2), w2).

(** *** The write loop of [process_meta] and [write_tile]
<<
    pos = 0;
    while (pos < lim) {
        int len = write(fd, buf + pos, lim - pos);
        if (len < 0) { perror("Writing file"); ...; return; }
        else if (len > 0) pos += len;
        else break;
    }
>>
    The result is whether no write failed. *)
Fixpoint write_loop (fuel : nat) (path : string) (buf : bytes)
    (pos lim : Z) (w : world) : bool * world :=
  match fuel with
  | O => (true, w)
  | S fuel' =>
    if pos <? lim then
      let chunk := take (Z.to_nat (lim - pos)) (drop (Z.to_nat pos) buf) in
      let '(len, w1) := sys_write path chunk w in
      if len <? 0 then (false, w1)
      else if 0 <? len then write_loop fuel' path buf (pos + len) lim w1
      else (true, w1)
    else (true, w)
  end.

Definition write_fuel (lim : Z) : nat := S (Z.to_nat lim).

(** *** write_tile (lines 244-272) *)
Definition write_tile (x y z : Z) (buf : bytes) (sz : Z) : M unit := fun w =>
  let path := xyz_to_path x y z in
  match sys_open_wr path w with
  | (false, w1) => (tt, emit (ErrorCreatingFile path) w1)
  | (true, w1) =>
    match write_loop (write_fuel sz) path buf 0 sz w1 with
    | (false, w2) => (tt, emit PerrorWritingFile w2)
    | (true, w2) => (tt, emit (ProducedTile path) w2)
    end
  end.

(** [limit = (1 << z); limit = MIN(limit, METATILE);] where [1 << z] is
    an [int]: 2^z for zoom levels 0 to 30, beyond which C leaves the
    shift undefined. *)
Definition block_limit (z : Z) : Z :=
  Z.min (to_int (Z.shiftl 1 z)) METATILE.

(** The sub-tile offsets both nested loops run through. *)
Definition sub_tiles (z : Z) : list (Z * Z) := grid (block_limit z).

(** *** process_meta (lines 143-225)

    [buf] holds the bytes of the work buffer below the write cursor
    [offset]; the bytes beyond it are never read back.  The tile
    coordinates [x + ox] and [y + oy] are far below the range of [int]. *)

(** [sizeof(struct meta_layout) + sizeof(struct entry) * (METATILE * METATILE)] *)
Definition header_size : Z :=
  sizeof_meta_layout + sizeof_entry * (METATILE * METATILE).

(** The loop that reads the sub-tiles; [None] is the early [return]. *)
Fixpoint pack_loop (x y z : Z) (cs : list (Z * Z)) (buf : bytes)
    (offset : Z) (w : world) : option (bytes * Z) * world :=
  match cs with
  | [] => (Some (buf, offset), w)
  | (ox, oy) :: cs' =>
    let '((len, out), w1) :=
      read_from_file (x + ox) (y + oy) z
        (to_size_t (PACK_BUF_LEN - offset)) w in
    let buf1 := blit buf offset out in
    let mt := snd (xyz_to_meta (x + ox) (y + oy) z) in
    if len <=? 0 then
      (None, emit (ProblemReadingSubTiles x y z len) w1)
    else
      let buf2 := put_int buf1 (off_index_offset mt) offset in
      let buf3 := put_int buf2 (off_index_size mt) len in
      pack_loop x y z cs' buf3 (offset + len) w1
  end.

(** The loop that removes the raw tiles. *)
Fixpoint unlink_loop (x y z : Z) (cs : list (Z * Z)) (w : world) : world :=
  match cs with
  | [] => w
  | (ox, oy) :: cs' =>
    let path := xyz_to_path (x + ox) (y + oy) z in
    let '(ok, w1) := sys_unlink path w in
    let w2 := if ok then w1 else emit (PerrorUnlink path) w1 in
    unlink_loop x y z cs' w2
  end.

(** The header stamped after the loop. *)
Definition stamp_header (x y z : Z) (buf : bytes) : bytes :=
  let buf := put_int buf off_count (METATILE * METATILE) in
  let buf := blit buf 0 META_MAGIC in
  let buf := put_int buf off_x x in
  let buf := put_int buf off_y y in
  put_int buf off_z z.

Definition process_meta (x y z : Z) : M unit := fun w =>
  match sys_malloc w with
  | (false, w0) => (tt, w0)
  | (true, w0) =>
    let offset := header_size in
    let buf := repeat Byte.x00 (Z.to_nat offset) in
    match pack_loop x y z (sub_tiles z) buf offset w0 with
    | (None, w1) => (tt, w1)
    | (Some (buf, offset), w1) =>
      let buf := stamp_header x y z buf in
      let meta_path := fst (xyz_to_meta x y z) in
      match sys_open_wr meta_path w1 with
      | (false, w2) => (tt, emit (ErrorCreatingFile meta_path) w2)
      | (true, w2) =>
        match write_loop (write_fuel offset) meta_path buf 0 offset w2 with
        | (false, w3) => (tt, emit PerrorWritingFile w3)
        | (true, w3) =>
          let w4 := emit (ProducedMeta meta_path) w3 in
          (tt, unlink_loop x y z (sub_tiles z) w4)
        end
      end
    end
  end.

(** *** process_pack (lines 227-242) *)
Definition process_pack (name : string) : M unit := fun w =>
  match path_to_xyz name with
  | None => (tt, w)
  | Some (x, y, z) =>
    let meta_offset := snd (xyz_to_meta x y z) in
    if meta_offset =? 0 then process_meta x y z w else (tt, w)
  end.

(** *** process_unpack (lines 274-307)

    The staging buffer is reused from one sub-tile to the next. *)
Fixpoint unpack_loop (x y z : Z) (cs : list (Z * Z)) (buf : bytes)
    (w : world) : bytes * world :=
  match cs with
  | [] => (buf, w)
  | (ox, oy) :: cs' =>
    let '((len, out), w1) :=
      read_from_meta (x + ox) (y + oy) z (to_size_t UNPACK_BUF_LEN) w in
    let buf1 := blit buf 0 out in
    let w2 :=
      if len <=? 0 then emit (FailedToGetTile (x + ox) (y + oy) z) w1
      else snd (write_tile (x + ox) (y + oy) z buf1 (to_size_t len) w1) in
    unpack_loop x y z cs' buf1 w2
  end.

Definition process_unpack (name : string) : M unit := fun w =>
  match path_to_xyz name with
  | None => (tt, w)
  | Some (x, y, z) =>
    match sys_malloc w with
    | (false, w0) => (tt, w0)
    | (true, w0) =>
      let '(_, w1) := unpack_loop x y z (sub_tiles z) [] w0 in
      let meta_path := fst (xyz_to_meta x y z) in
      let '(ok, w2) := sys_unlink meta_path w1 in
      (tt, if ok then w2 else emit (PerrorUnlink meta_path) w2)
    end
  end.

End Store.

(** ** A closed instance: 8 x 8 blocks, a fault-free environment *)

(** Modelled from the spec: render_config.h (METATILE) and the addressing
    functions of dir_utils.c are not part of the sources.  The block edge
    is 8, as the head of store.c has it.  Every tile of a block lies in the
    container named after the block's top-left tile, and its slot is the
    row-major position within the block; a tile has a path of its own. *)
Definition METATILE8 : Z := 8.

Definition dec (v : Z) : string :=
  DecimalString.NilZero.string_of_int (Z.to_int v).

Definition tile_name (x y z : Z) (ext : string) : string :=
  ("/" ++ dec z ++ "/" ++ dec x ++ "/" ++ dec y ++ ext)%string.

Definition xyz_to_path8 (x y z : Z) : string := tile_name x y z ".png".

Definition xyz_to_meta8 (x y z : Z) : string * Z :=
  let mask := METATILE8 - 1 in
  (tile_name (Z.land x (Z.lnot mask)) (Z.land y (Z.lnot mask)) z ".meta",
   Z.land x mask * METATILE8 + Z.land y mask).

(** Names are looked up among the tiles of the lowest zoom levels. *)
Definition known_tiles : list (Z * Z * Z) :=
  flat_map (fun z => map (fun c => (fst c, snd c, z)) (grid (2 ^ z))) (range 3).

Definition path_to_xyz8 (name : string) : option (Z * Z * Z) :=
  find (fun c => let '(x, y, z) := c in
                 (String.eqb name (xyz_to_path8 x y z)
                  || String.eqb name (fst (xyz_to_meta8 x y z)))%bool)
       known_tiles.

(** No call fails, every read and write moves all it is asked for, and a
    fresh stack buffer holds zeros. *)
Definition quiet : oracle :=
  mkOracle (fun _ => true) (fun _ => true) (fun _ => MAX_RW_COUNT)
           (fun _ => MAX_RW_COUNT) (fun _ => true) (fun _ _ => Byte.x00).

Definition world0 (fs : gmap string bytes) : world := mkWorld fs 0 [].

(** * Vocabulary of the properties *)

(** The [n] bytes of [buf] from byte offset [off] on, or those of them the
    buffer holds. *)
Definition slice (buf : bytes) (off n : Z) : bytes :=
  take (Z.to_nat n) (drop (Z.to_nat off) buf).

(** Environments in which no allocation, open, read, write or unlink fails
    for a reason of its own; a write then takes at least one byte. *)
Definition mallocs_ok (env : oracle) : Prop := forall t, o_malloc env t = true.
Definition opens_ok (env : oracle) : Prop := forall t, o_open env t = true.
Definition reads_ok (env : oracle) : Prop := forall t, 0 <= o_read env t.
Definition writes_ok (env : oracle) : Prop := forall t, 1 <= o_write env t.
Definition unlinks_ok (env : oracle) : Prop := forall t, o_unlink env t = true.

(** The bytes left between the file offset and the end of the file. *)
Definition fd_rest (fd : rfd) : bytes := drop (Z.to_nat (fd_pos fd)) (fd_data fd).

(** Two worlds with the same files and the same diagnostics. *)
Definition same_files (w w' : world) : Prop :=
  w_fs w' = w_fs w /\ w_log w' = w_log w.

(** The number of bytes of the file that reach the header buffer. *)
Definition hdr_len (data : bytes) : Z := Z.min HEADER_BUF (Z.of_nat (length data)).

(** The header buffer once the file's first bytes were read over the stale
    stack contents. *)
Definition header_of (env : oracle) (t : nat) (data : bytes) : bytes :=
  blit (stack_buf env t) 0 (take (Z.to_nat (hdr_len data)) data).

(** The recorded entry of a slot, as [read_from_meta] loads it. *)
Definition recorded_offset (header : bytes) (slot : Z) : Z :=
  get_int header (off_index_offset slot).
Definition recorded_size (header : bytes) (slot : Z) : Z :=
  get_int header (off_index_size slot).

(** How many bytes the payload loop reads for an entry [(off, size)] into a
    buffer of [sz] bytes: the recorded size as a [size_t], clamped to [sz],
    and no more than the file holds from [off] on. *)
Definition payload_len (data : bytes) (off size sz : Z) : Z :=
  Z.max 0 (Z.min (Z.min sz (to_size_t size)) (Z.of_nat (length data) - off)).

(** A container header that passes the three checks of [read_from_meta]. *)
Definition header_valid (METATILE : Z) (data : bytes) : Prop :=
  sizeof_meta_layout <= hdr_len data /\
  take (length META_MAGIC) data = META_MAGIC /\
  get_int data off_count = to_int (METATILE * METATILE).

(** The entry of [slot] lies within the bytes that reach the header buffer. *)
Definition entry_read (data : bytes) (slot : Z) : Prop :=
  0 <= slot /\ off_index_offset slot + sizeof_entry <= hdr_len data.

(** The number of bytes of the tiles [ds] together. *)
Definition total_len (ds : list bytes) : Z :=
  foldr (fun d acc => Z.of_nat (length d) + acc) 0 ds.

(** The buffer after the sub-tile loop stored the tiles [ds] for [slots],
    starting from [buf] with the write cursor at [offset]. *)
Fixpoint assemble (slots : list Z) (ds : list bytes) (buf : bytes) (offset : Z)
    : bytes :=
  match slots, ds with
  | s :: slots', d :: ds' =>
    let len := Z.of_nat (length d) in
    let buf1 := buf ++ d in
    let buf2 := put_int buf1 (off_index_offset s) offset in
    let buf3 := put_int buf2 (off_index_size s) len in
    assemble slots' ds' buf3 (offset + len)
  | _, _ => buf
  end.

(** The slot of every listed tile lies in the index table. *)
Definition slots_in_table (METATILE : Z) (slots : list Z) : Prop :=
  Forall (fun s => 0 <= s < METATILE * METATILE) slots.

(** The standalone paths and the slots of the sub-tiles [cs] of the block
    at [(x, y, z)], in loop order. *)
Definition tile_paths (xyz_to_path : Z -> Z -> Z -> string) (x y z : Z)
    (cs : list (Z * Z)) : list string :=
  map (fun c => xyz_to_path (x + fst c) (y + snd c) z) cs.

Definition tile_slots (xyz_to_meta : Z -> Z -> Z -> string * Z) (x y z : Z)
    (cs : list (Z * Z)) : list Z :=
  map (fun c => snd (xyz_to_meta (x + fst c) (y + snd c) z)) cs.

(** A sub-tile whose standalone file is absent or empty. *)
Definition unreadable (xyz_to_path : Z -> Z -> Z -> string) (w : world)
    (x y z : Z) (c : Z * Z) : Prop :=
  w_fs w !! xyz_to_path (x + fst c) (y + snd c) z = None \/
  w_fs w !! xyz_to_path (x + fst c) (y + snd c) z = Some [].

(** The container [process_meta] builds for the tiles [ds] stored at
    [slots]. *)
Definition container_bytes (METATILE : Z) (slots : list Z) (ds : list bytes)
    (x y z : Z) : bytes :=
  stamp_header METATILE x y z
    (assemble slots ds (repeat Byte.x00 (Z.to_nat (header_size METATILE)))
       (header_size METATILE)).

(** What [process_unpack] writes for a tile of bytes [d]: all of it when it
    fits the staging buffer, else its first [UNPACK_BUF_LEN] bytes. *)
Definition unpacked (d : bytes) : bytes :=
  slice d 0 (Z.min UNPACK_BUF_LEN (Z.of_nat (length d))).

(** The file system after the tiles [ds] were written to [paths] in turn. *)
Fixpoint unpacked_fs (paths : list string) (ds : list bytes)
    (fs : gmap string bytes) : gmap string bytes :=
  match paths, ds with
  | p :: paths', d :: ds' => unpacked_fs paths' ds' (<[p := unpacked d]> fs)
  | _, _ => fs
  end.

(** The container [data] holds the tile [d] at [slot]. *)
Definition holds_tile (data : bytes) (slot : Z) (d : bytes) : Prop :=
  entry_read data slot /\
  0 <= recorded_offset data slot /\
  recorded_size data slot = Z.of_nat (length d) /\
  slice data (recorded_offset data slot) (Z.of_nat (length d)) = d.

(** The diagnostics that report the outcome of one turn of the loop of
    [process_unpack]. *)
Definition is_slot_event (d : diag) : bool :=
  match d with
  | FailedToGetTile _ _ _ | ProducedTile _ | ErrorCreatingFile _
  | PerrorWritingFile => true
  | _ => false
  end.

(** How many such outcomes the diagnostics of [w] hold. *)
Definition slot_events (w : world) : nat :=
  length (filter (fun d => is_slot_event d = true) (w_log w)).

(** The functions of store.c at the closed instance. *)
Definition read_from_meta8 := read_from_meta METATILE8 xyz_to_meta8 quiet.
Definition read_from_file8 := read_from_file xyz_to_path8 quiet.
Definition tile_read8 := tile_read METATILE8 xyz_to_meta8 xyz_to_path8 quiet.
Definition process_meta8 := process_meta METATILE8 xyz_to_meta8 xyz_to_path8 quiet.
Definition process_unpack8 :=
  process_unpack METATILE8 xyz_to_meta8 xyz_to_path8 path_to_xyz8 quiet.

(** A tile of three bytes. *)
Definition demo_tile : bytes := [Byte.x01; Byte.x02; Byte.x03].

(** The only tile of zoom 0 as a standalone file. *)
Definition demo_fs : gmap string bytes := {[ xyz_to_path8 0 0 0 := demo_tile ]}.

(** A container of block (0, 0, 0) with [demo_tile] as its payload, whose
    slot 0 records [(off, size)]. *)
Definition demo_container (off size : Z) : bytes :=
  let hdr := repeat Byte.x00 (Z.to_nat (header_size METATILE8)) in
  let buf := stamp_header METATILE8 0 0 0 (hdr ++ demo_tile) in
  put_int (put_int buf (off_index_offset 0) off) (off_index_size 0) size.

(** The file system that holds [data] at the container path and no tile. *)
Definition meta_fs (data : bytes) : gmap string bytes :=
  {[ fst (xyz_to_meta8 0 0 0) := data ]}.

(** A tile one byte larger than the staging buffer of [process_unpack]. *)
Definition big_tile : bytes := repeat Byte.x01 (Z.to_nat (UNPACK_BUF_LEN + 1)).



(** What the sub-tile loop of [process_meta] stores of the files [fulls],
    in loop order, from the write cursor [offset] on: of each file as much
    as the work buffer still takes beyond the cursor. *)
Fixpoint stored (offset : Z) (fulls : list bytes) : list bytes :=
  match fulls with
  | [] => []
  | f :: fulls' =>
    let d := slice f 0 (Z.min (PACK_BUF_LEN - offset) (Z.of_nat (length f))) in
    d :: stored (offset + Z.of_nat (length d)) fulls'
  end.

Definition process_pack8 :=
  process_pack METATILE8 xyz_to_meta8 xyz_to_path8 path_to_xyz8 quiet.

(** Environments with one kind of fault: every write fails; every write
    takes no byte; every read fails; [open] is refused from the fifth
    call on. *)
Definition no_space : oracle :=
  mkOracle (fun _ => true) (fun _ => true) (fun _ => MAX_RW_COUNT)
           (fun _ => -1) (fun _ => true) (fun _ _ => Byte.x00).

Definition stalled : oracle :=
  mkOracle (fun _ => true) (fun _ => true) (fun _ => MAX_RW_COUNT)
           (fun _ => 0) (fun _ => true) (fun _ _ => Byte.x00).

Definition bad_sectors : oracle :=
  mkOracle (fun _ => true) (fun _ => true) (fun _ => -1)
           (fun _ => MAX_RW_COUNT) (fun _ => true) (fun _ _ => Byte.x00).

Definition locked_dir : oracle :=
  mkOracle (fun _ => true) (fun t => Nat.ltb t 4) (fun _ => MAX_RW_COUNT)
           (fun _ => MAX_RW_COUNT) (fun _ => true) (fun _ _ => Byte.x00).

(** The container of block (0, 0, 0) next to the standalone tile. *)
Definition both_fs (data : bytes) : gmap string bytes :=
  <[ fst (xyz_to_meta8 0 0 0) := data ]> demo_fs.

(** * Properties *)

#[local] Set Default Proof Using "Type".
#[local] Arguments read_loop : simpl never.
#[local] Arguments write_loop : simpl never.

(** ** Integer conversions *)

Lemma to_int_small v : - 2 ^ 31 <= v < 2 ^ 31 -> to_int v = v.
Proof. intros H. unfold to_int. rewrite Z.mod_small; lia. Qed.

Lemma to_int_uint v : to_int (v mod 2 ^ 32) = to_int v.
Proof. unfold to_int. by rewrite Zplus_mod_idemp_l. Qed.

Lemma to_int_le v : 0 <= v -> to_int v <= v.
Proof.
  intros H. unfold to_int.
  assert (Hm := Z.mod_le (v + 2 ^ 31) (2 ^ 32)). lia.
Qed.

Lemma to_int_range v : - 2 ^ 31 <= to_int v < 2 ^ 31.
Proof. unfold to_int. assert (H := Z.mod_pos_bound (v + 2 ^ 31) (2 ^ 32)). lia. Qed.

Lemma to_size_t_small v : 0 <= v < 2 ^ 64 -> to_size_t v = v.
Proof. intros H. unfold to_size_t. by rewrite Z.mod_small. Qed.

Lemma to_size_t_range v : 0 <= to_size_t v < 2 ^ 64.
Proof. unfold to_size_t. apply Z.mod_pos_bound. lia. Qed.

Lemma to_off_t_small v : 0 <= v < 2 ^ 63 -> to_off_t v = v.
Proof. intros H. unfold to_off_t. rewrite Z.mod_small; lia. Qed.

(** A negative [int] stays negative through [size_t] and [off_t]. *)
Lemma to_off_t_neg v : - 2 ^ 31 <= v < 0 -> to_off_t (to_size_t v) = v.
Proof.
  intros H. unfold to_off_t, to_size_t.
  rewrite Zplus_mod_idemp_l.
  replace (v + 2 ^ 63) with (v + 2 ^ 63 + 0 * 2 ^ 64) by lia.
  rewrite Z.mod_small; lia.
Qed.

(** ** Slices of a buffer *)

Lemma lookup_slice (buf : bytes) off n (i : nat) :
  slice buf off n !! i =
  if decide (i < Z.to_nat n)%nat then buf !! (Z.to_nat off + i)%nat else None.
Proof.
  unfold slice. case_decide.
  - rewrite lookup_take_lt by done. by rewrite lookup_drop.
  - rewrite lookup_take_ge; [done | lia].
Qed.

Lemma lookup_blit (buf : bytes) pos (chunk : bytes) (i : nat) :
  (Z.to_nat pos <= length buf)%nat ->
  blit buf pos chunk !! i =
  if decide (i < Z.to_nat pos)%nat then buf !! i
  else if decide (i < Z.to_nat pos + length chunk)%nat
       then chunk !! (i - Z.to_nat pos)%nat
       else buf !! i.
Proof.
  intros Hp. unfold blit.
  assert (Hlt : length (take (Z.to_nat pos) buf) = Z.to_nat pos)
    by (rewrite length_take; lia).
  repeat case_decide.
  - rewrite lookup_app_l by lia. by rewrite lookup_take_lt.
  - rewrite lookup_app_r by lia. rewrite Hlt.
    rewrite lookup_app_l by lia. done.
  - rewrite lookup_app_r by lia. rewrite Hlt.
    rewrite lookup_app_r by lia. rewrite lookup_drop. f_equal. lia.
Qed.

Lemma length_blit (buf : bytes) pos (chunk : bytes) :
  (Z.to_nat pos <= length buf)%nat ->
  length (blit buf pos chunk) = Nat.max (length buf) (Z.to_nat pos + length chunk).
Proof.
  intros Hp. unfold blit.
  rewrite !length_app, length_take, length_drop. lia.
Qed.

Lemma blit_nil (buf : bytes) pos : blit buf pos [] = buf.
Proof. unfold blit. simpl. rewrite Nat.add_0_r. apply take_drop. Qed.

Lemma blit_at_end (buf : bytes) pos (chunk : bytes) :
  pos = Z.of_nat (length buf) -> blit buf pos chunk = buf ++ chunk.
Proof.
  intros ->. unfold blit. rewrite Nat2Z.id.
  rewrite take_ge by lia. rewrite drop_ge by lia. by rewrite app_nil_r.
Qed.

Lemma blit_blit (buf : bytes) pos (c1 c2 : bytes) :
  0 <= pos -> (Z.to_nat pos <= length buf)%nat ->
  blit (blit buf pos c1) (pos + Z.of_nat (length c1)) c2 = blit buf pos (c1 ++ c2).
Proof.
  intros H0 Hp. apply list_eq. intros i.
  assert (Hl := length_blit buf pos c1 Hp).
  rewrite lookup_blit by lia.
  rewrite !lookup_blit by done.
  rewrite length_app.
  replace (Z.to_nat (pos + Z.of_nat (length c1))) with (Z.to_nat pos + length c1)%nat by lia.
  repeat case_decide; try lia; try done.
  - by rewrite lookup_app_l by lia.
  - rewrite lookup_app_r by lia. f_equal. lia.
Qed.

Lemma slice_blit_same (buf : bytes) pos (chunk : bytes) n :
  0 <= pos -> (Z.to_nat pos <= length buf)%nat -> n = Z.of_nat (length chunk) ->
  slice (blit buf pos chunk) pos n = chunk.
Proof.
  intros H0 Hp ->. apply list_eq. intros i.
  rewrite lookup_slice, lookup_blit by done.
  repeat case_decide; try lia.
  - f_equal. lia.
  - symmetry. apply lookup_ge_None. lia.
Qed.

Lemma slice_blit_other (buf : bytes) pos (chunk : bytes) off n :
  0 <= pos -> 0 <= off -> 0 <= n ->
  (Z.to_nat pos <= length buf)%nat ->
  off + n <= pos \/ pos + Z.of_nat (length chunk) <= off ->
  slice (blit buf pos chunk) off n = slice buf off n.
Proof.
  intros H0 H1 H2 Hp Hd. apply list_eq. intros i.
  rewrite !lookup_slice, lookup_blit by done.
  repeat case_decide; try lia; done.
Qed.

Lemma slice_app_l (buf tail : bytes) off n :
  0 <= off -> 0 <= n -> off + n <= Z.of_nat (length buf) ->
  slice (buf ++ tail) off n = slice buf off n.
Proof.
  intros H0 H1 H2. apply list_eq. intros i.
  rewrite !lookup_slice. case_decide; [|done].
  by rewrite lookup_app_l by lia.
Qed.

Lemma slice_all (buf : bytes) n :
  Z.of_nat (length buf) <= n -> slice buf 0 n = buf.
Proof.
  intros H. unfold slice. change (Z.to_nat 0) with 0%nat.
  rewrite drop_0, take_ge; [done | lia].
Qed.

Lemma length_slice (buf : bytes) off n :
  0 <= off -> 0 <= n -> off + n <= Z.of_nat (length buf) ->
  Z.of_nat (length (slice buf off n)) = n.
Proof.
  intros. unfold slice. rewrite length_take, length_drop. lia.
Qed.

(** ** Loads and stores *)

Lemma get_int_slice (buf : bytes) off :
  get_int buf off = to_int (le_combine (slice buf off 4)).
Proof. reflexivity. Qed.

Lemma get_int_ext (b1 b2 : bytes) o1 o2 :
  slice b1 o1 4 = slice b2 o2 4 -> get_int b1 o1 = get_int b2 o2.
Proof. intros H. by rewrite !get_int_slice, H. Qed.

Lemma length_put_int (buf : bytes) off v :
  0 <= off -> off + 4 <= Z.of_nat (length buf) ->
  length (put_int buf off v) = length buf.
Proof.
  intros H0 H1. unfold put_int. rewrite length_blit by lia.
  rewrite length_le_split. lia.
Qed.

Lemma get_put_int_same (buf : bytes) off v :
  0 <= off -> off <= Z.of_nat (length buf) ->
  get_int (put_int buf off v) off = to_int v.
Proof.
  intros H0 H1. rewrite get_int_slice. unfold put_int.
  rewrite slice_blit_same by (rewrite ?length_le_split; lia).
  rewrite le_combine_split. apply to_int_uint.
Qed.

Lemma slice_put_int_other (buf : bytes) off v o n :
  0 <= off -> 0 <= o -> 0 <= n -> off <= Z.of_nat (length buf) ->
  o + n <= off \/ off + 4 <= o ->
  slice (put_int buf off v) o n = slice buf o n.
Proof.
  intros. unfold put_int. apply slice_blit_other; try lia.
  rewrite length_le_split. lia.
Qed.

Lemma memcmp_eq_slice (a b : bytes) n :
  length b = n -> memcmp_eq a b n = true <-> take n a = b.
Proof.
  revert a b. induction n as [|n IH]; intros a b Hb.
  - destruct b; [|done]. rewrite take_0. split; reflexivity.
  - destruct b as [|d b]; [done|]. destruct a as [|c a]; simpl; [done|].
    injection Hb as Hb. rewrite andb_true_iff, IH by done.
    split.
    + intros [Hc ->]. f_equal. by apply Byte.byte_dec_bl.
    + intros [= -> ->]. split; [by apply Byte.byte_dec_lb | done].
Qed.

(** ** Environments without faults *)

Lemma same_files_refl w : same_files w w.
Proof. done. Qed.

Lemma same_files_trans w1 w2 w3 :
  same_files w1 w2 -> same_files w2 w3 -> same_files w1 w3.
Proof. intros [? ?] [? ?]. split; congruence. Qed.

Lemma same_files_tick w : same_files w (tick w).
Proof. done. Qed.

Section SysCalls.

Variable env : oracle.

(** What one [read] can do. *)
Lemma sys_read_cases fd len w :
  0 <= fd_pos fd ->
  exists got chunk fd',
    sys_read env fd len w = ((got, chunk, fd'), tick w) /\
    (got = -1 /\ o_read env (w_clock w) < 0
     \/ got = 0 /\ 0 <= o_read env (w_clock w) /\
        (len <= 0 \/ fd_rest fd = [])
     \/ 1 <= got /\ got <= len /\ got <= Z.of_nat (length (fd_rest fd)) /\
        0 <= o_read env (w_clock w) /\
        chunk = take (Z.to_nat got) (fd_rest fd) /\
        Z.of_nat (length chunk) = got /\
        fd_data fd' = fd_data fd /\ fd_pos fd' = fd_pos fd + got /\
        fd_rest fd' = drop (Z.to_nat got) (fd_rest fd)).
Proof.
  intros Hpos. unfold sys_read. fold (fd_rest fd).
  destruct (Z.ltb_spec (o_read env (w_clock w)) 0) as [Hr|Hr].
  { eexists _, _, _. split; [reflexivity|]. left. split; [reflexivity | lia]. }
  set (n := Z.min (Z.min len (Z.of_nat (length (fd_rest fd)))) MAX_RW_COUNT).
  destruct (Z.leb_spec n 0) as [Hn|Hn].
  { eexists _, _, _. split; [reflexivity|]. right; left.
    split; [reflexivity|]. split; [lia|].
    unfold MAX_RW_COUNT in n.
    destruct (fd_rest fd); [by right|]. left. simpl length in *. lia. }
  eexists _, _, _. split; [reflexivity|]. right; right.
  set (got := Z.max 1 (Z.min (o_read env (w_clock w)) n)).
  assert (1 <= got <= n) by lia.
  assert (got <= Z.of_nat (length (fd_rest fd))) by lia.
  split; [lia|]. split; [lia|]. split; [lia|]. split; [lia|].
  split; [reflexivity|]. split; [rewrite length_take; lia|].
  split; [reflexivity|]. split; [reflexivity|].
  unfold fd_rest. simpl. rewrite drop_drop. f_equal. lia.
Qed.

Lemma read_loop_S fuel modulus lim fd buf pos w :
  read_loop env (S fuel) modulus lim fd buf pos w =
  if pos <? lim then
    let '((got, chunk, fd'), w1) := sys_read env fd (lim - pos) w in
    if got <? 0 then ((false, pos, buf), w1)
    else if 0 <? got then
      read_loop env fuel modulus lim fd' (blit buf pos chunk)
        ((pos + got) mod modulus) w1
    else ((true, pos, buf), w1)
  else ((true, pos, buf), w).
Proof. reflexivity. Qed.

(** Reading changes neither the files nor the diagnostics. *)
Lemma read_loop_world fuel modulus lim fd buf pos w :
  0 <= fd_pos fd ->
  same_files w (snd (read_loop env fuel modulus lim fd buf pos w)).
Proof.
  revert fd buf pos w. induction fuel as [|fuel IH]; intros fd buf pos w Hfd; [done|].
  rewrite read_loop_S. destruct (pos <? lim); [|done].
  destruct (sys_read_cases fd (lim - pos) w Hfd)
    as (got & chunk & fd' & -> & [Hc | [Hc | Hc]]).
  - destruct Hc as [-> _]. done.
  - destruct Hc as [-> _]. done.
  - destruct Hc as (Hg & _ & _ & _ & _ & _ & _ & Hp & _).
    destruct (Z.ltb_spec got 0); [lia|].
    destruct (Z.ltb_spec 0 got); [|lia].
    eapply same_files_trans; [apply same_files_tick|].
    apply IH. lia.
Qed.

(** The loop never stores past [lim], whatever the environment does. *)
Lemma read_loop_bounds fuel modulus lim fd buf pos w :
  0 < modulus -> 0 <= fd_pos fd ->
  0 <= pos <= Z.of_nat (length buf) -> Z.of_nat (length buf) <= lim ->
  let '((_, pos', buf'), _) := read_loop env fuel modulus lim fd buf pos w in
  0 <= pos' <= Z.of_nat (length buf') /\ Z.of_nat (length buf') <= lim /\
  (length buf <= length buf')%nat.
Proof.
  revert fd buf pos w. induction fuel as [|fuel IH];
    intros fd buf pos w Hm Hfd Hpos Hlen; [simpl; lia|].
  rewrite read_loop_S. destruct (Z.ltb_spec pos lim) as [Hlt|Hge]; [|lia].
  destruct (sys_read_cases fd (lim - pos) w Hfd)
    as (got & chunk & fd' & -> & [Hc | [Hc | Hc]]).
  - destruct Hc as [-> _]. simpl. lia.
  - destruct Hc as [-> _]. simpl. lia.
  - destruct Hc as (Hg & Hgl & _ & _ & _ & Hcl & _ & Hp & _).
    destruct (Z.ltb_spec got 0); [lia|].
    destruct (Z.ltb_spec 0 got); [|lia].
    assert (Hb : length (blit buf pos chunk)
                 = Nat.max (length buf) (Z.to_nat pos + length chunk))
      by (apply length_blit; lia).
    assert (Hmod : 0 <= (pos + got) mod modulus <= pos + got).
    { split; [apply Z.mod_pos_bound; lia | apply Z.mod_le; lia]. }
    specialize (IH fd' (blit buf pos chunk) ((pos + got) mod modulus) (tick w)).
    destruct (read_loop env fuel modulus lim fd' (blit buf pos chunk)
                ((pos + got) mod modulus) (tick w)) as [[[ok pos'] buf'] w'].
    assert (Hi : 0 <= pos' <= Z.of_nat (length buf') /\
                 Z.of_nat (length buf') <= lim /\
                 (length (blit buf pos chunk) <= length buf')%nat)
      by (apply IH; lia).
    lia.
Qed.

(** When no read fails the loop returns the next [lim - pos] bytes of the
    file, or all that is left of it. *)
Lemma read_loop_result fuel modulus lim fd buf pos w :
  0 <= fd_pos fd -> 0 <= pos <= Z.of_nat (length buf) ->
  (length (fd_rest fd) < fuel)%nat ->
  let n := Z.max 0 (Z.min (lim - pos) (Z.of_nat (length (fd_rest fd)))) in
  pos + n < modulus ->
  forall pos' buf' w',
    read_loop env fuel modulus lim fd buf pos w = ((true, pos', buf'), w') ->
    pos' = pos + n /\ buf' = blit buf pos (take (Z.to_nat n) (fd_rest fd)).
Proof.
  revert fd buf pos w. induction fuel as [|fuel IH];
    intros fd buf pos w Hfd Hpos Hfuel n Hlim pos' buf' w'; [lia|].
  rewrite read_loop_S. destruct (Z.ltb_spec pos lim) as [Hlt|Hge].
  2:{ intros [= <- <- <-]. subst n.
      replace (Z.max 0 _) with 0 by lia.
      rewrite take_0, blit_nil. split; [lia | done]. }
  destruct (sys_read_cases fd (lim - pos) w Hfd)
    as (got & chunk & fd' & -> & [Hc | [Hc | Hc]]).
  - destruct Hc as [-> _]. simpl. done.
  - destruct Hc as (-> & _ & [Hl | Hnil]); [lia|]. simpl.
    intros [= <- <- <-]. subst n. rewrite Hnil. simpl length.
    replace (Z.max 0 (Z.min (lim - pos) (Z.of_nat 0))) with 0 by lia.
    rewrite take_0, blit_nil. split; [lia | done].
  - destruct Hc as (Hg & Hgl & Hgr & _ & -> & Hcl & _ & Hp & Hrest).
    destruct (Z.ltb_spec got 0); [lia|].
    destruct (Z.ltb_spec 0 got); [|lia].
    rewrite Z.mod_small by lia.
    assert (Hlr : length (fd_rest fd') = (length (fd_rest fd) - Z.to_nat got)%nat)
      by (rewrite Hrest, length_drop; done).
    intros Hrun. apply IH in Hrun;
      [| lia | rewrite length_blit; lia | lia | lia].
    destruct Hrun as [-> ->]. rewrite Hlr. split; [lia|].
    replace (pos + got)
      with (pos + Z.of_nat (length (take (Z.to_nat got) (fd_rest fd)))) by lia.
    rewrite blit_blit by lia. f_equal.
    rewrite Hrest.
    rewrite <- (take_drop (Z.to_nat got) (take (Z.to_nat n) (fd_rest fd))).
    f_equal.
    + rewrite take_take. f_equal. lia.
    + rewrite skipn_firstn_comm. f_equal. lia.
Qed.

(** In an environment whose reads never fail, neither does the loop. *)
Lemma read_loop_no_fault fuel modulus lim fd buf pos w :
  reads_ok env -> 0 <= fd_pos fd ->
  fst (fst (fst (read_loop env fuel modulus lim fd buf pos w))) = true.
Proof.
  intros Hr. revert fd buf pos w. induction fuel as [|fuel IH];
    intros fd buf pos w Hfd; [done|].
  rewrite read_loop_S. destruct (pos <? lim); [|done].
  destruct (sys_read_cases fd (lim - pos) w Hfd)
    as (got & chunk & fd' & -> & [Hc | [Hc | Hc]]).
  - specialize (Hr (w_clock w)). lia.
  - destruct Hc as [-> _]. done.
  - destruct Hc as (Hg & _ & _ & _ & _ & _ & _ & Hp & _).
    destruct (Z.ltb_spec got 0); [lia|].
    destruct (Z.ltb_spec 0 got); [|lia].
    apply IH. lia.
Qed.

(** The fuel given to the loop never decides its result. *)
Lemma read_loop_fuel fuel fuel' modulus lim fd buf pos w :
  0 <= fd_pos fd ->
  (length (fd_rest fd) < fuel)%nat -> (length (fd_rest fd) < fuel')%nat ->
  read_loop env fuel modulus lim fd buf pos w =
  read_loop env fuel' modulus lim fd buf pos w.
Proof.
  revert fuel' fd buf pos w. induction fuel as [|fuel IH];
    intros fuel' fd buf pos w Hfd H1 H2; [lia|].
  destruct fuel' as [|fuel']; [lia|].
  rewrite !read_loop_S. destruct (pos <? lim); [|done].
  destruct (sys_read_cases fd (lim - pos) w Hfd)
    as (got & chunk & fd' & -> & [Hc | [Hc | Hc]]).
  - destruct Hc as [-> _]. done.
  - destruct Hc as [-> _]. done.
  - destruct Hc as (Hg & _ & Hgr & _ & _ & _ & _ & Hp & Hrest).
    destruct (Z.ltb_spec got 0); [lia|].
    destruct (Z.ltb_spec 0 got); [|lia].
    assert (length (fd_rest fd') = (length (fd_rest fd) - Z.to_nat got)%nat)
      by (rewrite Hrest, length_drop; done).
    apply IH; lia.
Qed.

End SysCalls.

Lemma slice_split (buf : bytes) off n m :
  0 <= off -> 0 <= n <= m ->
  slice buf off m = slice buf off n ++ slice buf (off + n) (m - n).
Proof.
  intros H0 Hn. unfold slice.
  rewrite <- (take_drop (Z.to_nat n) (take (Z.to_nat m) (drop (Z.to_nat off) buf))).
  f_equal.
  - rewrite take_take. f_equal. lia.
  - rewrite skipn_firstn_comm, drop_drop. f_equal; [lia | f_equal; lia].
Qed.

Lemma take_slice (buf : bytes) off n m :
  0 <= n <= m -> take (Z.to_nat n) (slice buf off m) = slice buf off n.
Proof. intros H. unfold slice. rewrite take_take. f_equal. lia. Qed.

Section Writing.

Variable env : oracle.

Lemma write_loop_S fuel path buf pos lim w :
  write_loop env (S fuel) path buf pos lim w =
  if pos <? lim then
    let chunk := take (Z.to_nat (lim - pos)) (drop (Z.to_nat pos) buf) in
    let '(len, w1) := sys_write env path chunk w in
    if len <? 0 then (false, w1)
    else if 0 <? len then write_loop env fuel path buf (pos + len) lim w1
    else (true, w1)
  else (true, w).
Proof. reflexivity. Qed.

(** Without a write fault the loop appends [buf[pos .. lim)] to the file. *)
Lemma write_loop_ok fuel path (buf : bytes) pos lim w (old : bytes) :
  writes_ok env ->
  w_fs w !! path = Some old ->
  0 <= pos <= lim -> lim <= Z.of_nat (length buf) ->
  (Z.to_nat (lim - pos) < fuel)%nat ->
  exists w',
    write_loop env fuel path buf pos lim w = (true, w') /\
    w_fs w' = <[path := old ++ slice buf pos (lim - pos)]> (w_fs w) /\
    w_log w' = w_log w.
Proof.
  intros Hw. revert pos w old. induction fuel as [|fuel IH];
    intros pos w old Hold Hpos Hlim Hfuel; [lia|].
  rewrite write_loop_S. destruct (Z.ltb_spec pos lim) as [Hlt|Hge].
  2:{ exists w. replace (lim - pos) with 0 by lia.
      unfold slice. rewrite take_0, app_nil_r, insert_id; done. }
  fold (slice buf pos (lim - pos)).
  assert (Hsl : Z.of_nat (length (slice buf pos (lim - pos))) = lim - pos)
    by (apply length_slice; lia).
  unfold sys_write. specialize (Hw (w_clock w)).
  destruct (Z.ltb_spec (o_write env (w_clock w)) 0); [lia|].
  rewrite Hold. simpl default.
  set (n := Z.min (Z.min (o_write env (w_clock w))
                     (Z.of_nat (length (slice buf pos (lim - pos)))))
                  MAX_RW_COUNT).
  assert (Hn : 1 <= n <= lim - pos) by (unfold MAX_RW_COUNT in n; lia).
  destruct (Z.ltb_spec n 0); [lia|].
  destruct (Z.ltb_spec 0 n); [|lia].
  edestruct (IH (pos + n)) as (w' & -> & Hfs & Hlog);
    [ simpl; apply lookup_insert_eq | lia | lia | lia |].
  exists w'. split; [done|]. split; [|done].
  rewrite Hfs. simpl. rewrite insert_insert_eq. f_equal.
  rewrite <- app_assoc. f_equal.
  rewrite take_slice by lia.
  rewrite (slice_split buf pos n (lim - pos)) by lia.
  f_equal. f_equal. lia.
Qed.

(** The fuel given to the write loop never decides its result. *)
Lemma write_loop_fuel fuel fuel' path buf pos lim w :
  (Z.to_nat (lim - pos) < fuel)%nat -> (Z.to_nat (lim - pos) < fuel')%nat ->
  write_loop env fuel path buf pos lim w =
  write_loop env fuel' path buf pos lim w.
Proof.
  revert fuel' pos w. induction fuel as [|fuel IH];
    intros fuel' pos w H1 H2; [lia|].
  destruct fuel' as [|fuel']; [lia|].
  rewrite !write_loop_S. destruct (Z.ltb_spec pos lim); [|done].
  cbv zeta. destruct (sys_write env path _ w) as [len w1].
  destruct (len <? 0); [done|].
  destruct (Z.ltb_spec 0 len); [|done].
  apply IH; lia.
Qed.

(** [write_tile] leaves exactly the first [sz] bytes of [buf] in the file. *)
Lemma write_tile_ok x y z (buf : bytes) sz w xyz_to_path :
  opens_ok env -> writes_ok env ->
  0 <= sz <= Z.of_nat (length buf) ->
  w_fs (snd (write_tile xyz_to_path env x y z buf sz w)) =
  <[xyz_to_path x y z := slice buf 0 sz]> (w_fs w).
Proof.
  intros Ho Hw Hsz. unfold write_tile, sys_open_wr. rewrite Ho.
  edestruct (write_loop_ok (write_fuel sz) (xyz_to_path x y z) buf 0 sz)
    as (w' & -> & Hfs & Hlog);
    [done | simpl; apply lookup_insert_eq | lia | lia | unfold write_fuel; lia |].
  simpl. rewrite Hfs. simpl. rewrite insert_insert_eq.
  by rewrite Z.sub_0_r.
Qed.

End Writing.

Lemma length_stack_buf env t : Z.of_nat (length (stack_buf env t)) = HEADER_BUF.
Proof. unfold stack_buf. rewrite length_map, length_seq. apply Z2Nat.id. done. Qed.

Lemma hdr_len_bounds data :
  0 <= hdr_len data <= HEADER_BUF /\ hdr_len data <= Z.of_nat (length data).
Proof. unfold hdr_len, HEADER_BUF. lia. Qed.

Lemma slice_header_of env t (data : bytes) off n :
  0 <= off -> 0 <= n -> off + n <= hdr_len data ->
  slice (header_of env t data) off n = slice data off n.
Proof.
  intros H0 H1 H2. destruct (hdr_len_bounds data) as [Hb Hd].
  assert (Hs := length_stack_buf env t).
  apply list_eq. intros i. unfold header_of.
  rewrite !lookup_slice, lookup_blit by (change (Z.to_nat 0) with 0%nat; lia).
  change (Z.to_nat 0) with 0%nat.
  rewrite length_take. repeat case_decide; try lia; try done.
  rewrite lookup_take_lt by lia. f_equal. lia.
Qed.

Lemma int_through_off_t v :
  - 2 ^ 31 <= v < 2 ^ 31 -> to_off_t (to_size_t v) = v.
Proof.
  intros H. destruct (Z.lt_ge_cases v 0).
  - apply to_off_t_neg. lia.
  - rewrite to_size_t_small by lia. apply to_off_t_small. lia.
Qed.

Section Reading.

Variable METATILE : Z.
Variable xyz_to_meta : Z -> Z -> Z -> string * Z.
Variable xyz_to_path : Z -> Z -> Z -> string.
Variable env : oracle.

Local Abbreviation read_from_meta' := (read_from_meta METATILE xyz_to_meta env).
Local Abbreviation read_from_file' := (read_from_file xyz_to_path env).

(** The header loop: whenever no read fails, the buffer holds the first
    [hdr_len data] bytes of the file. *)
Lemma header_loop data t w pos header w' :
  read_loop env (read_fuel (mkRfd data 0)) UINT_MOD HEADER_BUF (mkRfd data 0)
    (stack_buf env t) 0 w = ((true, pos, header), w') ->
  pos = hdr_len data /\ header = header_of env t data.
Proof.
  intros Hrun.
  assert (Hs := length_stack_buf env t). unfold HEADER_BUF in Hs.
  assert (Hrest : fd_rest (mkRfd data 0) = data) by apply drop_0.
  apply read_loop_result in Hrun.
  - rewrite Hrest in Hrun. destruct Hrun as [-> ->].
    unfold header_of, hdr_len, HEADER_BUF. split; [lia|].
    do 2 f_equal. lia.
  - simpl. lia.
  - lia.
  - rewrite Hrest. unfold read_fuel. simpl. lia.
  - rewrite Hrest. unfold HEADER_BUF, UINT_MOD. lia.
Qed.

(** Every way [read_from_meta] can end on an existing container file. *)
Lemma read_from_meta_cases x y z sz w path slot data :
  xyz_to_meta x y z = (path, slot) ->
  w_fs w !! path = Some data ->
  0 <= sz ->
  let header := header_of env (w_clock w) data in
  let off := recorded_offset header slot in
  let size := recorded_size header slot in
  let n := payload_len data off size sz in
  let '((r, out), w') := read_from_meta' x y z sz w in
  w_fs w' = w_fs w /\
  ( r = -1 /\ out = [] /\ ~ opens_ok env
    \/ r = -2 /\ out = [] /\ ~ reads_ok env
    \/ r = -3 /\ out = [] /\ hdr_len data < sizeof_meta_layout
    \/ r = -4 /\ out = [] /\ sizeof_meta_layout <= hdr_len data /\
       take (length META_MAGIC) data <> META_MAGIC
    \/ r = -5 /\ out = [] /\ sizeof_meta_layout <= hdr_len data /\
       take (length META_MAGIC) data = META_MAGIC /\
       get_int data off_count <> to_int (METATILE * METATILE)
    \/ sizeof_meta_layout <= hdr_len data /\
       take (length META_MAGIC) data = META_MAGIC /\
       get_int data off_count = to_int (METATILE * METATILE) /\
       ( r = -6 /\ out = [] /\ off < 0
         \/ 0 <= off /\
            ( r = -7 /\ ~ reads_ok env
              \/ (n < UINT_MOD -> r = to_int n /\ out = slice data off n) ) ) ).
Proof.
  intros Hxyz Hfs Hsz header off size n.
  unfold read_from_meta. rewrite Hxyz. unfold sys_open_rd. rewrite Hfs.
  destruct (o_open env (w_clock w)) eqn:Hopen.
  2:{ split; [done|]. left. split; [done|]. split; [done|].
      intros Ho. rewrite Ho in Hopen. done. }
  destruct (read_loop env _ UINT_MOD HEADER_BUF _ _ 0 (tick w))
    as [[[ok pos] hd] w2] eqn:Hloop.
  assert (Hw2 : same_files (tick w) w2).
  { replace w2 with (snd (read_loop env (read_fuel (mkRfd data 0)) UINT_MOD
      HEADER_BUF (mkRfd data 0) (stack_buf env (w_clock w)) 0 (tick w)))
      by (rewrite Hloop; done).
    apply read_loop_world. simpl. lia. }
  destruct Hw2 as [Hfs2 _]. simpl in Hfs2.
  destruct ok.
  2:{ split; [done|]. right; left. split; [done|]. split; [done|].
      intros Hr. apply (read_loop_no_fault env (read_fuel (mkRfd data 0))
        UINT_MOD HEADER_BUF (mkRfd data 0) (stack_buf env (w_clock w)) 0
        (tick w)) in Hr; [|simpl; lia].
      rewrite Hloop in Hr. done. }
  apply header_loop in Hloop. destruct Hloop as [-> ->]. fold header.
  destruct (Z.ltb_spec (hdr_len data) sizeof_meta_layout) as [Hshort|Hlong].
  { split; [done|]. do 2 right. left. done. }
  unfold sizeof_meta_layout in Hlong.
  assert (Hmagic : memcmp_eq header META_MAGIC (length META_MAGIC) = true
                   <-> take (length META_MAGIC) data = META_MAGIC).
  { rewrite memcmp_eq_slice by done.
    change (take (length META_MAGIC) header) with (slice header 0 4).
    change (take (length META_MAGIC) data) with (slice data 0 4).
    unfold header. rewrite slice_header_of by lia. done. }
  destruct (memcmp_eq header META_MAGIC (length META_MAGIC)); simpl.
  2:{ split; [done|]. do 3 right. left.
      split; [done|]. split; [done|]. split; [done|].
      intros Hm. apply Hmagic in Hm. done. }
  assert (Hcount : get_int header off_count = get_int data off_count).
  { apply get_int_ext. unfold header, off_count.
    apply slice_header_of; lia. }
  rewrite Hcount.
  destruct (Z.eqb_spec (get_int data off_count) (to_int (METATILE * METATILE)))
    as [Hc|Hc]; simpl.
  2:{ split; [done|]. do 4 right. left.
      split; [done|]. split; [done|]. split; [done|].
      split; [by apply Hmagic | done]. }
  fold (recorded_offset header slot). fold (recorded_size header slot).
  fold off. fold size.
  assert (Hoff : to_off_t (to_size_t off) = off)
    by (apply int_through_off_t, to_int_range).
  unfold sys_lseek. rewrite Hoff.
  destruct (Z.ltb_spec off 0) as [Hneg|Hpos]; cbv beta iota.
  { change (-1 <? 0) with true. cbv beta iota. split; [done|]. do 5 right.
    split; [done|]. split; [by apply Hmagic|]. split; [done|]. left. done. }
  destruct (Z.ltb_spec off 0) as [|_]; [lia|].
  set (lim := if sz <? to_size_t size then sz else to_size_t size).
  assert (Hlim : lim = Z.min sz (to_size_t size))
    by (unfold lim; destruct (Z.ltb_spec sz (to_size_t size)); lia).
  set (w3 := if sz <? to_size_t size
             then emit (TruncatingTile (to_size_t size) sz) w2 else w2).
  replace (if sz <? to_size_t size
           then (sz, emit (TruncatingTile (to_size_t size) sz) w2)
           else (to_size_t size, w2)) with (lim, w3)
    by (unfold lim, w3; destruct (sz <? to_size_t size); done).
  assert (Hfs3 : w_fs w3 = w_fs w)
    by (unfold w3; destruct (sz <? to_size_t size); simpl; done).
  cbv beta iota. simpl fd_data.
  destruct (read_loop env (read_fuel (mkRfd data off)) UINT_MOD lim
              (mkRfd data off) [] 0 w3) as [[[ok pos] out] w4] eqn:Hloop.
  assert (Hw4 : same_files w3 w4).
  { replace w4 with (snd (read_loop env (read_fuel (mkRfd data off)) UINT_MOD
      lim (mkRfd data off) [] 0 w3)) by (rewrite Hloop; done).
    apply read_loop_world. simpl. lia. }
  destruct Hw4 as [Hfs4 _].
  assert (Hcases : sizeof_meta_layout <= hdr_len data /\
                   take (length META_MAGIC) data = META_MAGIC /\
                   get_int data off_count = to_int (METATILE * METATILE))
    by (split; [done|]; split; [by apply Hmagic | done]).
  destruct ok; cbv beta iota.
  2:{ split; [congruence|]. do 5 right.
      split; [apply Hcases|]. split; [apply Hcases|]. split; [apply Hcases|].
      right. split; [done|]. left. split; [done|].
      intros Hr. apply (read_loop_no_fault env (read_fuel (mkRfd data off))
        UINT_MOD lim (mkRfd data off) [] 0 w3) in Hr; [|simpl; lia].
      rewrite Hloop in Hr. done. }
  split; [congruence|]. do 5 right.
  split; [apply Hcases|]. split; [apply Hcases|]. split; [apply Hcases|].
  right. split; [done|]. right. intros Hn.
  assert (Hrest : Z.of_nat (length (fd_rest (mkRfd data off)))
                  = Z.max 0 (Z.of_nat (length data) - off)).
  { unfold fd_rest. simpl. rewrite length_drop. lia. }
  assert (Hn' : Z.max 0 (Z.min (lim - 0)
                   (Z.of_nat (length (fd_rest (mkRfd data off))))) = n)
    by (rewrite Hrest; unfold n, payload_len; lia).
  apply read_loop_result in Hloop.
  - rewrite Hn' in Hloop. destruct Hloop as [-> ->].
    split; [done|].
    unfold blit, fd_rest. change (Z.to_nat 0) with 0%nat. rewrite take_0.
    simpl. rewrite drop_nil, app_nil_r. reflexivity.
  - simpl. lia.
  - simpl. lia.
  - unfold read_fuel. simpl fd_data. unfold fd_rest. simpl.
    rewrite length_drop. lia.
  - rewrite Hn'. lia.
Qed.

(** Every way [read_from_file] can end. *)
Lemma read_from_file_cases x y z sz w :
  0 <= sz < SIZE_MOD ->
  let path := xyz_to_path x y z in
  let '((r, out), w') := read_from_file' x y z sz w in
  w_fs w' = w_fs w /\
  match w_fs w !! path with
  | None => r = -1 /\ out = []
  | Some data =>
    r = -1 /\ out = [] /\ ~ opens_ok env
    \/ r = -2 /\ ~ reads_ok env
    \/ let n := Z.min sz (Z.of_nat (length data)) in
       r = to_int n /\ out = slice data 0 n
  end.
Proof.
  intros Hsz path. unfold read_from_file, sys_open_rd. fold path.
  destruct (w_fs w !! path) as [data|]; [|done].
  destruct (o_open env (w_clock w)) eqn:Hopen.
  2:{ split; [done|]. left. split; [done|]. split; [done|].
      intros Ho. rewrite Ho in Hopen. done. }
  destruct (read_loop env (read_fuel (mkRfd data 0)) SIZE_MOD sz
              (mkRfd data 0) [] 0 (tick w)) as [[[ok pos] out] w2] eqn:Hloop.
  assert (Hw2 : same_files (tick w) w2).
  { replace w2 with (snd (read_loop env (read_fuel (mkRfd data 0)) SIZE_MOD
      sz (mkRfd data 0) [] 0 (tick w))) by (rewrite Hloop; done).
    apply read_loop_world. simpl. lia. }
  destruct Hw2 as [Hfs2 _]. simpl in Hfs2.
  destruct ok.
  2:{ split; [done|]. right; left. split; [done|].
      intros Hr. apply (read_loop_no_fault env (read_fuel (mkRfd data 0))
        SIZE_MOD sz (mkRfd data 0) [] 0 (tick w)) in Hr; [|simpl; lia].
      rewrite Hloop in Hr. done. }
  assert (Hrest : fd_rest (mkRfd data 0) = data) by apply drop_0.
  apply read_loop_result in Hloop.
  - rewrite Hrest in Hloop. destruct Hloop as [-> ->].
    split; [by destruct (_ =? _)|]. right; right.
    replace (0 + Z.max 0 (Z.min (sz - 0) (Z.of_nat (length data))))
      with (Z.min sz (Z.of_nat (length data))) by lia.
    split; [done|].
    unfold blit, slice. change (Z.to_nat 0) with 0%nat.
    rewrite take_0, drop_0. simpl. rewrite drop_nil, app_nil_r.
    f_equal. lia.
  - simpl. lia.
  - simpl. lia.
  - rewrite Hrest. unfold read_fuel. simpl. lia.
  - rewrite Hrest. lia.
Qed.

End Reading.

(** Closes a case in which an open or a read failed, in an environment
    whose opens and reads never fail. *)
Ltac no_fault :=
  match goal with
  | H : _ /\ _ /\ ~ opens_ok ?e, Ho : opens_ok ?e |- _ =>
    exfalso; apply (proj2 (proj2 H)); exact Ho
  | H : _ /\ _ /\ ~ reads_ok ?e, Hr : reads_ok ?e |- _ =>
    exfalso; apply (proj2 (proj2 H)); exact Hr
  | H : _ /\ ~ reads_ok ?e, Hr : reads_ok ?e |- _ =>
    exfalso; apply (proj2 H); exact Hr
  end.

(** Closes a case in which the magic or the count was rejected, for a
    header known to carry the right ones. *)
Ltac good_header :=
  match goal with
  | H : _ /\ _ /\ _ /\ ?a <> ?b, E : ?a = ?b |- _ =>
    exfalso; apply (proj2 (proj2 (proj2 H))); exact E
  | H : _ /\ _ /\ _ /\ _ /\ ?a <> ?b, E : ?a = ?b |- _ =>
    exfalso; apply (proj2 (proj2 (proj2 (proj2 H)))); exact E
  end.

Section ReadingTheorems.

Variable METATILE : Z.
Variable xyz_to_meta : Z -> Z -> Z -> string * Z.
Variable xyz_to_path : Z -> Z -> Z -> string.
Variable env : oracle.

Local Abbreviation read_from_meta' := (read_from_meta METATILE xyz_to_meta env).
Local Abbreviation read_from_file' := (read_from_file xyz_to_path env).
Local Abbreviation tile_read' := (tile_read METATILE xyz_to_meta xyz_to_path env).

(** An entry that was read from the file is the entry the file holds. *)
Lemma recorded_entry_of_file t data slot :
  entry_read data slot ->
  recorded_offset (header_of env t data) slot = recorded_offset data slot /\
  recorded_size (header_of env t data) slot = recorded_size data slot.
Proof.
  intros [H0 H1]. unfold recorded_offset, recorded_size.
  unfold off_index_offset, off_index_size, sizeof_entry, sizeof_meta_layout in *.
  split; apply get_int_ext, slice_header_of; lia.
Qed.

(** Whatever the environment does, [read_from_meta] stores at most [sz]
    bytes and returns at most [sz]. *)
Lemma read_from_meta_bounds x y z sz w :
  0 <= sz ->
  Z.of_nat (length (snd (fst (read_from_meta' x y z sz w)))) <= sz /\
  fst (fst (read_from_meta' x y z sz w)) <= sz.
Proof.
  intros Hsz. unfold read_from_meta.
  destruct (xyz_to_meta x y z) as [path slot]. unfold sys_open_rd.
  destruct (w_fs w !! path) as [data|]; [|simpl; lia].
  destruct (o_open env (w_clock w)); [|simpl; lia].
  destruct (read_loop env _ UINT_MOD HEADER_BUF _ _ 0 (tick w))
    as [[[ok pos] hd] w2].
  destruct ok; [|simpl; lia].
  destruct (pos <? sizeof_meta_layout); [simpl; lia|].
  destruct (negb (memcmp_eq _ _ _)); [simpl; lia|].
  destruct (negb (_ =? _)); [simpl; lia|].
  unfold sys_lseek.
  set (off := to_off_t _).
  destruct (Z.ltb_spec off 0) as [Hneg|Hpos]; cbv beta iota.
  { change (-1 <? 0) with true. simpl. lia. }
  destruct (Z.ltb_spec off 0) as [|_]; [lia|].
  set (ts := to_size_t (get_int hd (off_index_size slot))).
  assert (Hts : 0 <= ts) by apply to_size_t_range.
  set (lim := if sz <? ts then sz else ts).
  assert (Hlim : 0 <= lim <= sz)
    by (unfold lim; destruct (Z.ltb_spec sz ts); lia).
  set (w3 := if sz <? ts then emit (TruncatingTile ts sz) w2 else w2).
  replace (if sz <? ts then (sz, emit (TruncatingTile ts sz) w2) else (ts, w2))
    with (lim, w3) by (unfold lim, w3; destruct (sz <? ts); done).
  cbv beta iota. simpl fd_data.
  assert (Hb := read_loop_bounds env (read_fuel (mkRfd data off)) UINT_MOD lim
                  (mkRfd data off) [] 0 w3).
  destruct (read_loop env (read_fuel (mkRfd data off)) UINT_MOD lim
              (mkRfd data off) [] 0 w3) as [[[ok pos'] out] w4].
  assert (Hb' : 0 <= pos' <= Z.of_nat (length out) /\
                Z.of_nat (length out) <= lim /\ (length [] <= length out)%nat)
    by (apply Hb; simpl; unfold UINT_MOD; lia).
  destruct ok; simpl; [|lia].
  assert (Hi := to_int_le pos'). lia.
Qed.

(** C4: a recorded size beyond the caller's capacity is clamped to it:
    [read_from_meta] stores at most [sz] bytes from [buf[0]] on, returns at
    most [sz], and, when the recorded size exceeds [sz], reads exactly as
    if the slot recorded [sz] bytes. *)
Theorem read_from_meta_clamps x y z sz w r out w' :
  0 <= sz ->
  read_from_meta' x y z sz w = ((r, out), w') ->
  Z.of_nat (length out) <= sz /\ r <= sz /\
  (forall path slot data,
     xyz_to_meta x y z = (path, slot) -> w_fs w !! path = Some data ->
     entry_read data slot -> sz < UINT_MOD ->
     sz < to_size_t (recorded_size data slot) -> 0 <= r ->
     let off := recorded_offset data slot in
     let n := Z.max 0 (Z.min sz (Z.of_nat (length data) - off)) in
     r = n /\ out = slice data off n).
Proof.
  intros Hsz Hrun.
  destruct (read_from_meta_bounds x y z sz w Hsz) as [Hlen Hret].
  rewrite Hrun in Hlen, Hret. simpl in Hlen, Hret.
  split; [done|]. split; [done|].
  intros path slot data Hxyz Hfs Hentry Hsmall Hbig Hr off n.
  assert (Hc := read_from_meta_cases METATILE xyz_to_meta env x y z sz w
                  path slot data Hxyz Hfs Hsz).
  rewrite Hrun in Hc. cbv zeta in Hc.
  destruct (recorded_entry_of_file (w_clock w) data slot Hentry) as [Ho Hs].
  rewrite Ho, Hs in Hc. fold off in Hc.
  assert (Hn : payload_len data off (recorded_size data slot) sz = n)
    by (unfold payload_len, n; lia).
  rewrite Hn in Hc.
  destruct Hc as [_ [Hc|[Hc|[Hc|[Hc|[Hc|Hc]]]]]]; try lia.
  destruct Hc as (_ & _ & _ & [Hc|[_ [Hc|Hc]]]); try lia.
  destruct Hc as [-> ->]; [unfold UINT_MOD in *; lia|].
  split; [|done].
  assert (Hrange := to_int_range n).
  destruct (Z.lt_ge_cases n (2 ^ 31)); [apply to_int_small; lia|].
  unfold to_int in Hr. unfold UINT_MOD in Hsmall.
  replace (n + 2 ^ 31) with (n - 2 ^ 31 + 1 * 2 ^ 32) in Hr by lia.
  rewrite Z.mod_add, Z.mod_small in Hr by lia. lia.
Qed.

(** C3: [tile_read] returns what [read_from_meta] returned when that is
    not negative, and otherwise what [read_from_file] returns; a wrong
    magic or a wrong count always makes [read_from_meta] return a negative
    value, so such a file is never used as a container. *)
Theorem tile_read_fallback x y z sz w r out w1 :
  read_from_meta' x y z (to_size_t sz) w = ((r, out), w1) ->
  (0 <= r -> tile_read' x y z sz w = ((r, out), w1)) /\
  (r < 0 ->
   tile_read' x y z sz w =
   (let '((r2, out2), w2) := read_from_file' x y z (to_size_t sz) w1 in
    ((r2, blit out 0 out2), w2))) /\
  (forall path slot data,
     xyz_to_meta x y z = (path, slot) -> w_fs w !! path = Some data ->
     take (length META_MAGIC) data <> META_MAGIC \/
     get_int data off_count <> to_int (METATILE * METATILE) ->
     r < 0) /\
  (forall path slot,
     xyz_to_meta x y z = (path, slot) -> w_fs w !! path = None -> r = -1).
Proof.
  intros Hrun. split; [|split; [|split]].
  - intros Hr. unfold tile_read. rewrite Hrun.
    destruct (Z.leb_spec 0 r); [done | lia].
  - intros Hr. unfold tile_read. rewrite Hrun.
    destruct (Z.leb_spec 0 r); [lia | done].
  - intros path slot data Hxyz Hfs Hbad.
    assert (Hc := read_from_meta_cases METATILE xyz_to_meta env x y z
                    (to_size_t sz) w path slot data Hxyz Hfs
                    (proj1 (to_size_t_range sz))).
    rewrite Hrun in Hc. cbv zeta in Hc.
    destruct Hc as [_ [Hc|[Hc|[Hc|[Hc|[Hc|Hc]]]]]]; try lia.
    destruct Hc as (_ & Hm & Hcnt & _). destruct Hbad; contradiction.
  - intros path slot Hxyz Hfs. revert Hrun.
    unfold read_from_meta, sys_open_rd. rewrite Hxyz, Hfs. congruence.
Qed.

(** C6, as the code has it: [lseek] rejects a negative offset only.  With
    a readable header, a slot that records a negative offset makes
    [read_from_meta] return the seek error; a slot whose offset lies at or
    beyond the end of the file is sought without error and 0 bytes are
    read. *)
Theorem read_from_meta_seek x y z sz w path slot data :
  opens_ok env -> reads_ok env ->
  xyz_to_meta x y z = (path, slot) -> w_fs w !! path = Some data ->
  header_valid METATILE data -> entry_read data slot -> 0 <= sz ->
  (recorded_offset data slot < 0 ->
   fst (read_from_meta' x y z sz w) = (-6, [])) /\
  (Z.of_nat (length data) <= recorded_offset data slot ->
   fst (read_from_meta' x y z sz w) = (0, [])).
Proof.
  intros Ho Hr Hxyz Hfs (Hlen & Hmagic & Hcount) Hentry Hsz.
  assert (Hc := read_from_meta_cases METATILE xyz_to_meta env x y z sz w
                  path slot data Hxyz Hfs Hsz).
  destruct (read_from_meta' x y z sz w) as [[r out] w'].
  cbv zeta in Hc.
  destruct (recorded_entry_of_file (w_clock w) data slot Hentry) as [Hro Hrs].
  rewrite Hro, Hrs in Hc.
  destruct Hc as [_ [Hc|[Hc|[Hc|[Hc|[Hc|Hc]]]]]];
    try no_fault; try good_header; try (exfalso; lia).
  destruct Hc as (_ & _ & _ & [Hc|[Hpos [Hc|Hc]]]); try no_fault.
  - destruct Hc as (-> & -> & Hneg). split; [done | lia].
  - split; [lia|]. intros Hpast. simpl.
    assert (Hn : payload_len data (recorded_offset data slot)
                   (recorded_size data slot) sz = 0)
      by (unfold payload_len; lia).
    rewrite Hn in Hc. destruct Hc as [-> ->]; [done|].
    unfold slice. by rewrite take_0.
Qed.

End ReadingTheorems.

(** ** The work buffer of [process_meta], without the I/O *)

Lemma total_len_nonneg ds : 0 <= total_len ds.
Proof. induction ds; simpl; lia. Qed.

Lemma total_len_app ds1 ds2 : total_len (ds1 ++ ds2) = total_len ds1 + total_len ds2.
Proof. induction ds1; simpl; lia. Qed.

(** Lengths of buffers built from stores and appends. *)
Ltac buf_len :=
  repeat first [rewrite length_app | rewrite length_put_int]; try lia.

Section Assemble.

Variable METATILE : Z.
Local Abbreviation hsz := (header_size METATILE).

Lemma entry_in_header s :
  0 <= s < METATILE * METATILE ->
  sizeof_meta_layout <= off_index_offset s /\
  off_index_size s = off_index_offset s + 4 /\
  off_index_offset s + 8 <= hsz.
Proof.
  unfold off_index_offset, off_index_size, header_size, sizeof_entry,
    sizeof_meta_layout. lia.
Qed.

(** One turn of the loop on the buffer. *)
Lemma assemble_step_length (buf d : bytes) s offset :
  Z.of_nat (length buf) = offset -> hsz <= offset ->
  0 <= s < METATILE * METATILE ->
  Z.of_nat (length (put_int (put_int (buf ++ d) (off_index_offset s) offset)
                      (off_index_size s) (Z.of_nat (length d))))
  = offset + Z.of_nat (length d).
Proof.
  intros Hlen Hh Hs. destruct (entry_in_header s Hs) as (H1 & H2 & H3).
  unfold sizeof_meta_layout in H1.
  buf_len.
Qed.

Lemma assemble_step_slice (buf d : bytes) s offset o n :
  Z.of_nat (length buf) = offset -> hsz <= offset ->
  0 <= s < METATILE * METATILE ->
  0 <= o -> 0 <= n ->
  o + n <= off_index_offset s \/ off_index_offset s + 8 <= o ->
  slice (put_int (put_int (buf ++ d) (off_index_offset s) offset)
           (off_index_size s) (Z.of_nat (length d))) o n
  = slice (buf ++ d) o n.
Proof.
  intros Hlen Hh Hs Ho Hn Hdis. destruct (entry_in_header s Hs) as (H1 & H2 & H3).
  unfold sizeof_meta_layout in H1.
  rewrite !slice_put_int_other; buf_len. done.
Qed.

Lemma length_assemble slots ds (buf : bytes) offset :
  Z.of_nat (length buf) = offset -> hsz <= offset ->
  slots_in_table METATILE slots -> length ds = length slots ->
  Z.of_nat (length (assemble slots ds buf offset)) = offset + total_len ds.
Proof.
  intros Hlen Hh Hs. revert ds buf offset Hlen Hh.
  induction Hs as [|s slots Hs _ IH]; intros ds buf offset Hlen Hh Hl.
  - destruct ds; [simpl; lia | done].
  - destruct ds as [|d ds]; [done|]. simpl.
    rewrite IH; [lia | | | by injection Hl].
    + apply assemble_step_length; done.
    + lia.
Qed.

(** The loop leaves alone whatever lies below the cursor and outside the
    entries it records. *)
Lemma assemble_frame slots ds (buf : bytes) offset o n :
  Z.of_nat (length buf) = offset -> hsz <= offset ->
  slots_in_table METATILE slots ->
  0 <= o -> 0 <= n -> o + n <= offset ->
  Forall (fun s => o + n <= off_index_offset s \/ off_index_offset s + 8 <= o)
    slots ->
  slice (assemble slots ds buf offset) o n = slice buf o n.
Proof.
  intros Hlen Hh Hs. revert ds buf offset Hlen Hh.
  induction Hs as [|s slots Hs _ IH]; intros ds buf offset Hlen Hh Ho Hn Hon Hdis.
  - by destruct ds.
  - destruct ds as [|d ds]; [done|]. simpl.
    inversion Hdis as [|? ? Hd1 Hd2]; subst.
    rewrite IH; [| by apply assemble_step_length | lia | done | done | lia | done].
    rewrite assemble_step_slice by done.
    apply slice_app_l; lia.
Qed.

(** The [k]-th tile of the loop: its entry records the cursor at which it
    was stored and its length, and its bytes lie there. *)
Lemma assemble_entry slots ds (buf : bytes) offset k s d :
  Z.of_nat (length buf) = offset -> hsz <= offset ->
  slots_in_table METATILE slots -> NoDup slots ->
  slots !! k = Some s -> ds !! k = Some d ->
  let data := assemble slots ds buf offset in
  let off := offset + total_len (take k ds) in
  recorded_offset data s = to_int off /\
  recorded_size data s = to_int (Z.of_nat (length d)) /\
  slice data off (Z.of_nat (length d)) = d.
Proof.
  intros Hlen Hh Hs. revert k ds buf offset Hlen Hh.
  induction Hs as [|s0 slots Hs0 Hs IH];
    intros k ds buf offset Hlen Hh Hnd Hk Hd; [done|].
  destruct ds as [|d0 ds]; [done|].
  apply NoDup_cons in Hnd as [Hnotin Hnd].
  destruct (entry_in_header s0 Hs0) as (H1 & H2 & H3).
  unfold sizeof_meta_layout in H1.
  assert (Hlen3 := assemble_step_length buf d0 s0 offset Hlen Hh Hs0).
  destruct k as [|k]; simpl in Hk, Hd.
  - injection Hk as <-. injection Hd as <-. rename s0 into s, d0 into d. simpl.
    rewrite Z.add_0_r.
    assert (Hdis : Forall (fun s' => off_index_offset s + 8 <= off_index_offset s'
                                \/ off_index_offset s' + 8 <= off_index_offset s) slots).
    { rewrite Forall_forall in *. intros s' Hs'.
      assert (s' <> s) by (intros ->; done).
      specialize (Hs s' Hs'). unfold off_index_offset, sizeof_entry. lia. }
    unfold recorded_offset, recorded_size. rewrite !get_int_slice.
    rewrite H2.
    rewrite !assemble_frame; try done; try lia.
    + rewrite slice_put_int_other by buf_len.
      rewrite <- !get_int_slice.
      rewrite get_put_int_same by buf_len.
      split; [done|]. rewrite <- H2.
      rewrite get_put_int_same by buf_len.
      split; [done|].
      rewrite assemble_step_slice by lia.
      rewrite <- (blit_at_end buf offset d) by lia.
      apply slice_blit_same; lia.
    + eapply Forall_impl; [apply Hs|]. intros s' Hs'. simpl.
      destruct (entry_in_header s' Hs'). lia.
    + eapply Forall_impl; [apply Hdis|]. simpl. lia.
    + eapply Forall_impl; [apply Hdis|]. simpl. lia.
  - simpl.
    specialize (IH k ds _ _ Hlen3 ltac:(lia) Hnd Hk Hd).
    replace (offset + (Z.of_nat (length d0) + total_len (take k ds)))
      with (offset + Z.of_nat (length d0) + total_len (take k ds)) by lia.
    apply IH.
Qed.

End Assemble.

Section Stamp.

Variable METATILE : Z.

Lemma length_blit_magic (buf : bytes) :
  4 <= Z.of_nat (length buf) ->
  length (blit buf 0 META_MAGIC) = length buf.
Proof.
  intros H. rewrite length_blit by (change (Z.to_nat 0) with 0%nat; lia).
  change (Z.to_nat 0) with 0%nat. simpl length. lia.
Qed.

Lemma length_stamp_header x y z (buf : bytes) :
  sizeof_meta_layout <= Z.of_nat (length buf) ->
  length (stamp_header METATILE x y z buf) = length buf.
Proof.
  unfold sizeof_meta_layout, stamp_header, off_count, off_x, off_y, off_z.
  intros H.
  repeat first [rewrite length_put_int | rewrite length_blit_magic]; lia.
Qed.

(** Stamping the header changes nothing beyond the header fields. *)
Lemma stamp_header_frame x y z (buf : bytes) o n :
  sizeof_meta_layout <= Z.of_nat (length buf) ->
  sizeof_meta_layout <= o -> 0 <= n ->
  slice (stamp_header METATILE x y z buf) o n = slice buf o n.
Proof.
  unfold sizeof_meta_layout, stamp_header, off_count, off_x, off_y, off_z.
  intros H Ho Hn.
  set (b1 := put_int buf 4 (METATILE * METATILE)).
  set (b2 := blit b1 0 META_MAGIC).
  set (b3 := put_int b2 8 x).
  set (b4 := put_int b3 12 y).
  assert (L1 : length b1 = length buf) by (apply length_put_int; lia).
  assert (L2 : length b2 = length buf)
    by (unfold b2; rewrite length_blit_magic; lia).
  assert (L3 : length b3 = length buf)
    by (unfold b3; rewrite length_put_int; lia).
  assert (L4 : length b4 = length buf)
    by (unfold b4; rewrite length_put_int; lia).
  rewrite slice_put_int_other by lia. unfold b4.
  rewrite slice_put_int_other by lia. unfold b3.
  rewrite slice_put_int_other by lia. unfold b2.
  rewrite slice_blit_other by (simpl; lia). unfold b1.
  apply slice_put_int_other; lia.
Qed.

Lemma stamp_header_fields x y z (buf : bytes) :
  sizeof_meta_layout <= Z.of_nat (length buf) ->
  let data := stamp_header METATILE x y z buf in
  take (length META_MAGIC) data = META_MAGIC /\
  get_int data off_count = to_int (METATILE * METATILE) /\
  get_int data off_x = to_int x /\
  get_int data off_y = to_int y /\
  get_int data off_z = to_int z.
Proof.
  unfold sizeof_meta_layout, stamp_header, off_count, off_x, off_y, off_z.
  intros H. cbv zeta.
  set (b1 := put_int buf 4 (METATILE * METATILE)).
  set (b2 := blit b1 0 META_MAGIC).
  set (b3 := put_int b2 8 x).
  set (b4 := put_int b3 12 y).
  assert (L1 : length b1 = length buf) by (apply length_put_int; lia).
  assert (L2 : length b2 = length buf)
    by (unfold b2; rewrite length_blit_magic; lia).
  assert (L3 : length b3 = length buf)
    by (unfold b3; rewrite length_put_int; lia).
  assert (L4 : length b4 = length buf)
    by (unfold b4; rewrite length_put_int; lia).
  split; [|split; [|split; [|split]]].
  - change (take (length META_MAGIC) ?l) with (slice l 0 4).
    rewrite slice_put_int_other by lia. unfold b4.
    rewrite slice_put_int_other by lia. unfold b3.
    rewrite slice_put_int_other by lia. unfold b2.
    apply slice_blit_same; simpl; lia.
  - rewrite get_int_slice.
    rewrite slice_put_int_other by lia. unfold b4.
    rewrite slice_put_int_other by lia. unfold b3.
    rewrite slice_put_int_other by lia. unfold b2.
    rewrite slice_blit_other by (simpl; lia).
    rewrite <- get_int_slice. unfold b1. apply get_put_int_same; lia.
  - rewrite get_int_slice.
    rewrite slice_put_int_other by lia. unfold b4.
    rewrite slice_put_int_other by lia.
    rewrite <- get_int_slice. unfold b3. apply get_put_int_same; lia.
  - rewrite get_int_slice.
    rewrite slice_put_int_other by lia.
    rewrite <- get_int_slice. unfold b4. apply get_put_int_same; lia.
  - apply get_put_int_same; lia.
Qed.

End Stamp.

(** ** The addressing of a block *)

Lemma pack_buf_room offset :
  0 <= offset <= PACK_BUF_LEN ->
  to_size_t (PACK_BUF_LEN - offset) = PACK_BUF_LEN - offset.
Proof. intros H. apply to_size_t_small. unfold PACK_BUF_LEN in *. lia. Qed.

Section Packing.

Variable METATILE : Z.
Variable xyz_to_meta : Z -> Z -> Z -> string * Z.
Variable xyz_to_path : Z -> Z -> Z -> string.
Variable env : oracle.

Local Abbreviation read_from_file' := (read_from_file xyz_to_path env).
Local Abbreviation pack_loop' := (pack_loop xyz_to_meta xyz_to_path env).
Local Abbreviation hsz := (header_size METATILE).

Lemma pack_loop_cons x y z ox oy cs buf offset w :
  pack_loop' x y z ((ox, oy) :: cs) buf offset w =
  let '((len, out), w1) :=
    read_from_file' (x + ox) (y + oy) z (to_size_t (PACK_BUF_LEN - offset)) w in
  let buf1 := blit buf offset out in
  let mt := snd (xyz_to_meta (x + ox) (y + oy) z) in
  if len <=? 0 then (None, emit (ProblemReadingSubTiles x y z len) w1)
  else
    let buf2 := put_int buf1 (off_index_offset mt) offset in
    let buf3 := put_int buf2 (off_index_size mt) len in
    pack_loop' x y z cs buf3 (offset + len) w1.
Proof. reflexivity. Qed.

(** The sub-tile loop only reads. *)
Lemma pack_loop_fs x y z cs buf offset w :
  w_fs (snd (pack_loop' x y z cs buf offset w)) = w_fs w.
Proof.
  revert buf offset w. induction cs as [|[ox oy] cs IH]; intros buf offset w;
    [done|].
  rewrite pack_loop_cons.
  assert (Hc := read_from_file_cases xyz_to_path env (x + ox) (y + oy) z
                  (to_size_t (PACK_BUF_LEN - offset)) w
                  (to_size_t_range _)).
  destruct (read_from_file' (x + ox) (y + oy) z _ w) as [[len out] w1].
  destruct Hc as [Hfs _]. cbv zeta.
  destruct (len <=? 0); [done|]. rewrite IH. done.
Qed.

(** A sub-tile that is absent or empty stops the loop, if nothing stopped
    it earlier. *)
Lemma pack_loop_abort x y z cs buf offset w :
  Exists (unreadable xyz_to_path w x y z) cs ->
  fst (pack_loop' x y z cs buf offset w) = None.
Proof.
  revert buf offset w. induction cs as [|[ox oy] cs IH]; intros buf offset w Hex.
  { by apply Exists_nil in Hex. }
  rewrite pack_loop_cons.
  assert (Hc := read_from_file_cases xyz_to_path env (x + ox) (y + oy) z
                  (to_size_t (PACK_BUF_LEN - offset)) w
                  (to_size_t_range _)).
  destruct (read_from_file' (x + ox) (y + oy) z _ w) as [[len out] w1].
  destruct Hc as [Hfs Hc]. cbv zeta.
  destruct (Z.leb_spec len 0) as [|Hlen]; [done|].
  apply Exists_cons in Hex as [Hbad|Hex].
  - exfalso. unfold unreadable in Hbad. simpl in Hbad.
    destruct Hbad as [Hbad|Hbad]; rewrite Hbad in Hc.
    + lia.
    + destruct Hc as [Hc|[Hc|Hc]]; [lia | lia |].
      simpl in Hc. destruct Hc as [Hr _].
      assert (H0 := proj1 (to_size_t_range (PACK_BUF_LEN - offset))).
      rewrite Z.min_r in Hr by lia. change (to_int (Z.of_nat 0)) with 0 in Hr. lia.
  - apply IH. eapply Exists_impl; [apply Hex|].
    intros c. unfold unreadable. by rewrite Hfs.
Qed.

(** When the loop runs to its end, the buffer is the assembly of what the
    reads returned, every read returned at least one byte, and the cursor
    stays within the buffer. *)
Lemma pack_loop_some x y z cs (buf : bytes) offset w buf' offset' w' :
  pack_loop' x y z cs buf offset w = (Some (buf', offset'), w') ->
  Z.of_nat (length buf) = offset -> hsz <= offset <= PACK_BUF_LEN ->
  slots_in_table METATILE (tile_slots xyz_to_meta x y z cs) ->
  exists ds,
    length ds = length cs /\
    Forall (fun d => 0 < Z.of_nat (length d)) ds /\
    buf' = assemble (tile_slots xyz_to_meta x y z cs) ds buf offset /\
    offset' = offset + total_len ds /\ offset' <= PACK_BUF_LEN.
Proof.
  revert buf offset w. induction cs as [|[ox oy] cs IH];
    intros buf offset w Hrun Hlen Hoff Hslots.
  { injection Hrun as <- <- <-. exists []. simpl.
    split; [done|]. split; [done|]. split; [done|]. lia. }
  rewrite pack_loop_cons in Hrun.
  assert (Hh : 0 <= hsz)
    by (unfold header_size, sizeof_meta_layout, sizeof_entry; nia).
  assert (Hc := read_from_file_cases xyz_to_path env (x + ox) (y + oy) z
                  (to_size_t (PACK_BUF_LEN - offset)) w
                  (to_size_t_range _)).
  destruct (read_from_file' (x + ox) (y + oy) z _ w) as [[len out] w1].
  destruct Hc as [Hfs Hc]. cbv zeta in Hrun.
  destruct (Z.leb_spec len 0) as [|Hpos]; [done|].
  rewrite pack_buf_room in Hc by lia.
  destruct (w_fs w !! xyz_to_path (x + ox) (y + oy) z) as [data|]; [|lia].
  destruct Hc as [Hc|[Hc|Hc]]; [lia | lia |]. cbv zeta in Hc.
  set (n := Z.min (PACK_BUF_LEN - offset) (Z.of_nat (length data))) in Hc.
  destruct Hc as [-> ->].
  assert (Hn : to_int n = n)
    by (apply to_int_small; unfold PACK_BUF_LEN in *; lia).
  rewrite Hn in Hrun, Hpos.
  assert (Hout : Z.of_nat (length (slice data 0 n)) = n)
    by (apply length_slice; lia).
  rewrite blit_at_end in Hrun by lia.
  inversion Hslots as [|s ss Hs Hss]; subst s ss. simpl in Hs.
  set (d := slice data 0 n) in *. clearbody d.
  assert (Hnle : n <= PACK_BUF_LEN - offset) by (unfold n; lia).
  clearbody n. subst n.
  apply IH in Hrun;
    [| apply (assemble_step_length METATILE); first [done | lia] | lia | done].
  destruct Hrun as (ds & Hl & Hne & -> & -> & Hfit).
  exists (d :: ds). simpl.
  split; [by rewrite Hl|]. split; [constructor; [lia | done]|].
  split; [done | lia].
Qed.

(** With every tile present and no fault, the loop assembles the tiles. *)
Lemma pack_loop_ok x y z cs ds (buf : bytes) offset w :
  opens_ok env -> reads_ok env ->
  Forall2 (fun c d => w_fs w !! xyz_to_path (x + fst c) (y + snd c) z = Some d
                      /\ d <> []) cs ds ->
  Z.of_nat (length buf) = offset -> hsz <= offset ->
  offset + total_len ds <= PACK_BUF_LEN ->
  slots_in_table METATILE (tile_slots xyz_to_meta x y z cs) ->
  fst (pack_loop' x y z cs buf offset w) =
  Some (assemble (tile_slots xyz_to_meta x y z cs) ds buf offset,
        offset + total_len ds).
Proof.
  intros Ho Hr. revert ds buf offset w.
  induction cs as [|[ox oy] cs IH];
    intros ds buf offset w Hall Hlen Hoff Hfit Hslots.
  { apply Forall2_nil_inv_l in Hall as ->. simpl. do 2 f_equal. lia. }
  apply Forall2_cons_inv_l in Hall as (d & ds' & [Hd Hne] & Hall & ->).
  simpl in Hd, Hfit.
  assert (Hh : 0 <= hsz)
    by (unfold header_size, sizeof_meta_layout, sizeof_entry; nia).
  assert (Htl := total_len_nonneg ds').
  rewrite pack_loop_cons.
  assert (Hc := read_from_file_cases xyz_to_path env (x + ox) (y + oy) z
                  (to_size_t (PACK_BUF_LEN - offset)) w
                  (to_size_t_range _)).
  destruct (read_from_file' (x + ox) (y + oy) z _ w) as [[len out] w1].
  destruct Hc as [Hfs Hc]. cbv zeta.
  rewrite pack_buf_room in Hc by lia. rewrite Hd in Hc.
  destruct Hc as [Hc|[Hc|Hc]]; [no_fault | no_fault |]. cbv zeta in Hc.
  rewrite Z.min_r in Hc by lia. destruct Hc as [-> ->].
  rewrite slice_all by lia.
  rewrite to_int_small by (unfold PACK_BUF_LEN in *; lia).
  assert (0 < Z.of_nat (length d)) by (destruct d; [done | simpl; lia]).
  destruct (Z.leb_spec (Z.of_nat (length d)) 0); [lia|].
  rewrite blit_at_end by lia.
  inversion Hslots as [|s ss Hs Hss]; subst. simpl in Hs.
  rewrite IH with (ds := ds'); simpl.
  - do 2 f_equal. lia.
  - eapply Forall2_impl; [apply Hall|]. intros c d'. simpl. by rewrite Hfs.
  - apply (assemble_step_length METATILE); first [done | lia].
  - lia.
  - lia.
  - done.
Qed.

End Packing.

Section Frames.

Variable env : oracle.

(** A write loop touches the file it writes and no other. *)
Lemma write_loop_frame fuel path buf pos lim w p :
  p <> path ->
  w_fs (snd (write_loop env fuel path buf pos lim w)) !! p = w_fs w !! p.
Proof.
  intros Hp. revert pos w. induction fuel as [|fuel IH]; intros pos w; [done|].
  rewrite write_loop_S. destruct (pos <? lim); [|done].
  unfold sys_write. destruct (_ <? 0); [done|].
  match goal with |- context [?n <? 0] => destruct (n <? 0) end; [simpl|].
  { by rewrite lookup_insert_ne. }
  match goal with |- context [0 <? ?n] => destruct (0 <? n) end.
  - rewrite IH. simpl. by rewrite lookup_insert_ne.
  - simpl. by rewrite lookup_insert_ne.
Qed.

Lemma write_tile_frame xyz_to_path x y z buf sz w p :
  p <> xyz_to_path x y z ->
  w_fs (snd (write_tile xyz_to_path env x y z buf sz w)) !! p = w_fs w !! p.
Proof.
  intros Hp. unfold write_tile, sys_open_wr.
  destruct (o_open env (w_clock w)); [|done].
  assert (Hf := write_loop_frame (write_fuel sz) (xyz_to_path x y z) buf 0 sz
                  (set_fs (<[xyz_to_path x y z:=[]]> (w_fs w)) (tick w)) p Hp).
  destruct (write_loop env _ _ buf 0 sz _) as [[] w2]; simpl in *;
    rewrite Hf; by rewrite lookup_insert_ne.
Qed.

Lemma sys_unlink_lookup path w p :
  w_fs (snd (sys_unlink env path w)) !! p =
  if fst (sys_unlink env path w)
  then (if decide (p = path) then None else w_fs w !! p)
  else w_fs w !! p.
Proof.
  unfold sys_unlink. destruct (w_fs w !! path) eqn:Hl; [|done].
  destruct (o_unlink env (w_clock w)); [|done]. simpl.
  case_decide as Hp.
  - subst. apply lookup_delete_eq.
  - by apply lookup_delete_ne.
Qed.

Lemma sys_unlink_ok path w p :
  unlinks_ok env ->
  w_fs (snd (sys_unlink env path w)) !! p =
  if decide (p = path) then None else w_fs w !! p.
Proof.
  intros Hu. unfold sys_unlink. destruct (w_fs w !! path) eqn:Hl.
  - rewrite Hu. simpl. case_decide as Hp.
    + subst. apply lookup_delete_eq.
    + by apply lookup_delete_ne.
  - simpl. case_decide as Hp; [by subst | done].
Qed.

Section Unlink.
Variable xyz_to_path : Z -> Z -> Z -> string.
Local Abbreviation unlink_loop' := (unlink_loop xyz_to_path env).

Lemma unlink_loop_cons x y z ox oy cs w :
  unlink_loop' x y z ((ox, oy) :: cs) w =
  let path := xyz_to_path (x + ox) (y + oy) z in
  let '(ok, w1) := sys_unlink env path w in
  unlink_loop' x y z cs (if ok then w1 else emit (PerrorUnlink path) w1).
Proof. reflexivity. Qed.

(** The removal loop touches the listed tiles and no other file. *)
Lemma unlink_loop_frame x y z cs w p :
  p ∉ tile_paths xyz_to_path x y z cs ->
  w_fs (unlink_loop' x y z cs w) !! p = w_fs w !! p.
Proof.
  revert w. induction cs as [|[ox oy] cs IH]; intros w Hp; [done|].
  simpl in Hp. apply not_elem_of_cons in Hp as [Hne Hp].
  rewrite unlink_loop_cons. cbv zeta.
  assert (Hl := sys_unlink_lookup (xyz_to_path (x + ox) (y + oy) z) w p).
  destruct (sys_unlink env _ w) as [ok w1]. simpl in Hl.
  rewrite IH by done.
  destruct ok; simpl in *; rewrite Hl; [|done].
  case_decide; done.
Qed.

(** Without a fault it removes every listed tile. *)
Lemma unlink_loop_ok x y z cs w p :
  unlinks_ok env ->
  w_fs (unlink_loop' x y z cs w) !! p =
  if decide (p ∈ tile_paths xyz_to_path x y z cs) then None else w_fs w !! p.
Proof.
  intros Hu. revert w. induction cs as [|[ox oy] cs IH]; intros w.
  { rewrite decide_False; [done | apply not_elem_of_nil]. }
  rewrite unlink_loop_cons. cbv zeta.
  assert (Hl := sys_unlink_ok (xyz_to_path (x + ox) (y + oy) z) w p Hu).
  destruct (sys_unlink env _ w) as [ok w1]. simpl in Hl.
  rewrite IH. simpl tile_paths.
  assert (Hw : w_fs (if ok then w1
                     else emit (PerrorUnlink (xyz_to_path (x + ox) (y + oy) z)) w1)
               = w_fs w1) by (by destruct ok).
  rewrite Hw, Hl. clear IH Hl Hw.
  set (path := xyz_to_path (x + ox) (y + oy) z).
  destruct (decide (p ∈ tile_paths xyz_to_path x y z cs)) as [Hin|Hnin].
  { rewrite decide_True; [done | by right]. }
  destruct (decide (p = path)) as [Heq|Hne].
  { rewrite decide_True; [done | subst p; by left]. }
  rewrite decide_False; [done|].
  intros [?|?]%elem_of_cons; done.
Qed.
End Unlink.

End Frames.

Lemma header_size_ge METATILE : sizeof_meta_layout <= header_size METATILE.
Proof. unfold header_size, sizeof_meta_layout, sizeof_entry. nia. Qed.

Lemma total_len_take_le k ds : total_len (take k ds) <= total_len ds.
Proof.
  rewrite <- (take_drop k ds) at 2. rewrite total_len_app.
  assert (H := total_len_nonneg (drop k ds)). lia.
Qed.

Lemma total_len_take_S k ds (d : bytes) :
  ds !! k = Some d ->
  total_len (take (S k) ds) = total_len (take k ds) + Z.of_nat (length d).
Proof.
  intros Hd. rewrite (take_S_r _ _ _ Hd), total_len_app. simpl. lia.
Qed.

Section Layout.

Variable METATILE : Z.
Local Abbreviation hsz := (header_size METATILE).

(** The layout of a container built by [process_meta]. *)
Lemma container_layout slots ds x y z :
  slots_in_table METATILE slots -> NoDup slots ->
  length ds = length slots ->
  hsz + total_len ds <= PACK_BUF_LEN ->
  let data := container_bytes METATILE slots ds x y z in
  Z.of_nat (length data) = hsz + total_len ds /\
  take (length META_MAGIC) data = META_MAGIC /\
  get_int data off_count = to_int (METATILE * METATILE) /\
  get_int data off_x = to_int x /\
  get_int data off_y = to_int y /\
  get_int data off_z = to_int z /\
  (forall k s d, slots !! k = Some s -> ds !! k = Some d ->
     let off := hsz + total_len (take k ds) in
     recorded_offset data s = off /\
     recorded_size data s = Z.of_nat (length d) /\
     slice data off (Z.of_nat (length d)) = d).
Proof.
  intros Hs Hnd Hl Hfit data.
  assert (Hh := header_size_ge METATILE).
  set (buf0 := repeat Byte.x00 (Z.to_nat hsz)).
  assert (Hb0 : Z.of_nat (length buf0) = hsz)
    by (unfold buf0; rewrite repeat_length; unfold sizeof_meta_layout in Hh; lia).
  assert (Hlen := length_assemble METATILE slots ds buf0 hsz Hb0 ltac:(lia) Hs Hl).
  assert (Htl := total_len_nonneg ds).
  assert (Hge : sizeof_meta_layout <= Z.of_nat (length (assemble slots ds buf0 hsz)))
    by lia.
  destruct (stamp_header_fields METATILE x y z _ Hge) as (F1 & F2 & F3 & F4 & F5).
  split; [unfold data, container_bytes; rewrite length_stamp_header; done|].
  do 5 (split; [done|]).
  intros k s d Hk Hd off.
  destruct (assemble_entry METATILE slots ds buf0 hsz k s d Hb0 ltac:(lia)
              Hs Hnd Hk Hd) as (E1 & E2 & E3).
  assert (Hsk : 0 <= s < METATILE * METATILE).
  { unfold slots_in_table in Hs. rewrite Forall_forall in Hs. apply Hs.
    by eapply list_elem_of_lookup_2. }
  destruct (entry_in_header METATILE s Hsk) as (H1 & H2 & H3).
  assert (Htk := total_len_take_le k ds).
  assert (Htk0 := total_len_nonneg (take k ds)).
  assert (Hdk : total_len (take k ds) + Z.of_nat (length d) <= total_len ds).
  { rewrite <- (total_len_take_S k ds d Hd). apply total_len_take_le. }
  unfold recorded_offset, recorded_size, data, container_bytes.
  rewrite !get_int_slice.
  rewrite !stamp_header_frame by (fold buf0; lia).
  rewrite <- !get_int_slice.
  unfold recorded_offset, recorded_size in E1, E2.
  fold buf0. subst off. rewrite E1, E2, E3.
  unfold PACK_BUF_LEN in Hfit.
  rewrite !to_int_small by lia. done.
Qed.

End Layout.

(** ** The iteration space of the nested loops *)

Lemma length_range n : length (range n) = Z.to_nat n.
Proof. unfold range. by rewrite length_map, length_seq. Qed.

Lemma lookup_range n (i : nat) :
  (i < Z.to_nat n)%nat -> range n !! i = Some (Z.of_nat i).
Proof.
  intros H. unfold range. rewrite list_lookup_fmap, lookup_seq_lt by done.
  done.
Qed.




(** The loops run [ox] in the outer loop and [oy] in the inner one: the
    pair [(i, j)] is the [(i * n + j)]-th. *)
Lemma lookup_grid n i j :
  0 <= i < n -> 0 <= j < n -> grid n !! Z.to_nat (i * n + j) = Some (i, j).
Proof.
  intros Hi Hj. unfold grid.
  assert (Hgen : forall (l : list Z) (k : nat) a,
            l !! k = Some a ->
            flat_map (fun ox => map (fun oy => (ox, oy)) (range n)) l
              !! (k * Z.to_nat n + Z.to_nat j)%nat = Some (a, j)).
  { induction l as [|b l IH]; intros k a Hk; [done|]. simpl.
    destruct k as [|k]; simpl in Hk.
    - injection Hk as ->. rewrite lookup_app_l
        by (rewrite length_map, length_range; lia).
      rewrite list_lookup_fmap, lookup_range by lia. simpl.
      do 2 f_equal. lia.
    - rewrite lookup_app_r by (rewrite length_map, length_range; lia).
      rewrite length_map, length_range.
      replace (S k * Z.to_nat n + Z.to_nat j - Z.to_nat n)%nat
        with (k * Z.to_nat n + Z.to_nat j)%nat by lia.
      by apply IH. }
  replace (Z.to_nat (i * n + j))
    with (Z.to_nat i * Z.to_nat n + Z.to_nat j)%nat by nia.
  apply Hgen. rewrite lookup_range by lia. f_equal. lia.
Qed.

Section PackTheorems.

Variable METATILE : Z.
Variable xyz_to_meta : Z -> Z -> Z -> string * Z.
Variable xyz_to_path : Z -> Z -> Z -> string.
Variable env : oracle.

Local Abbreviation pack_loop' := (pack_loop xyz_to_meta xyz_to_path env).
Local Abbreviation process_meta' :=
  (process_meta METATILE xyz_to_meta xyz_to_path env).
Local Abbreviation hsz := (header_size METATILE).
Local Abbreviation buf0 := (repeat Byte.x00 (Z.to_nat (header_size METATILE))).

Lemma length_buf0 : Z.of_nat (length buf0) = hsz.
Proof.
  assert (Hh := header_size_ge METATILE). unfold sizeof_meta_layout in Hh.
  rewrite repeat_length. lia.
Qed.

(** C2: when a sub-tile of the block is absent or empty, or when the
    sub-tile loop takes its early return for any other failed read,
    [process_meta] leaves the file system as it found it: no container is
    written and no standalone tile is removed. *)
Theorem process_meta_fail_closed x y z w :
  Exists (unreadable xyz_to_path w x y z) (sub_tiles METATILE z) \/
  fst (pack_loop' x y z (sub_tiles METATILE z) buf0 hsz
         (snd (sys_malloc env w))) = None ->
  w_fs (snd (process_meta' x y z w)) = w_fs w.
Proof.
  intros Hbad. unfold process_meta, sys_malloc in *. simpl in Hbad.
  destruct (o_malloc env (w_clock w)); [|done].
  assert (Hnone : fst (pack_loop' x y z (sub_tiles METATILE z) buf0 hsz (tick w))
                  = None).
  { destruct Hbad as [Hex|Hnone]; [|done]. by apply pack_loop_abort. }
  assert (Hfs := pack_loop_fs xyz_to_meta xyz_to_path env x y z
                   (sub_tiles METATILE z) buf0 hsz (tick w)).
  destruct (pack_loop' x y z (sub_tiles METATILE z) buf0 hsz (tick w))
    as [[[buf offset]|] w1]; [done|].
  done.
Qed.

(** What a fault-free [process_meta] leaves behind: the container, and
    none of the tiles it packed. *)
Lemma process_meta_ok x y z w ds p :
  mallocs_ok env -> opens_ok env -> reads_ok env -> writes_ok env ->
  unlinks_ok env ->
  Forall2 (fun c d => w_fs w !! xyz_to_path (x + fst c) (y + snd c) z = Some d
                      /\ d <> []) (sub_tiles METATILE z) ds ->
  hsz + total_len ds <= PACK_BUF_LEN ->
  slots_in_table METATILE (tile_slots xyz_to_meta x y z (sub_tiles METATILE z)) ->
  w_fs (snd (process_meta' x y z w)) !! p =
  if decide (p ∈ tile_paths xyz_to_path x y z (sub_tiles METATILE z)) then None
  else if decide (p = fst (xyz_to_meta x y z))
       then Some (container_bytes METATILE
                    (tile_slots xyz_to_meta x y z (sub_tiles METATILE z))
                    ds x y z)
       else w_fs w !! p.
Proof.
  intros Hm Ho Hr Hw Hu Hall Hfit Hslots.
  unfold process_meta, sys_malloc. rewrite Hm.
  assert (Hfs := pack_loop_fs xyz_to_meta xyz_to_path env x y z
                   (sub_tiles METATILE z) buf0 hsz (tick w)).
  assert (Hok := pack_loop_ok METATILE xyz_to_meta xyz_to_path env x y z
                   (sub_tiles METATILE z) ds buf0 hsz (tick w) Ho Hr Hall
                   length_buf0 ltac:(lia) Hfit Hslots).
  destruct (pack_loop' x y z (sub_tiles METATILE z) buf0 hsz (tick w))
    as [res w1]. simpl in Hfs, Hok. subst res.
  fold (container_bytes METATILE
          (tile_slots xyz_to_meta x y z (sub_tiles METATILE z)) ds x y z).
  set (data := container_bytes _ _ ds x y z).
  assert (Hh := header_size_ge METATILE). unfold sizeof_meta_layout in Hh.
  assert (Htl := total_len_nonneg ds).
  assert (Hla : Z.of_nat (length (assemble
                  (tile_slots xyz_to_meta x y z (sub_tiles METATILE z)) ds
                  buf0 hsz)) = hsz + total_len ds).
  { apply (length_assemble METATILE); [apply length_buf0 | lia | done |].
    unfold tile_slots. rewrite length_map. symmetry.
    eapply Forall2_length, Hall. }
  assert (Hlen : Z.of_nat (length data) = hsz + total_len ds).
  { unfold data, container_bytes. rewrite length_stamp_header; [done|].
    unfold sizeof_meta_layout. lia. }
  unfold sys_open_wr. rewrite Ho.
  set (meta := fst (xyz_to_meta x y z)).
  edestruct (write_loop_ok env (write_fuel (hsz + total_len ds)) meta data 0
               (hsz + total_len ds)) as (w3 & -> & Hfs3 & _);
    [done | simpl; apply lookup_insert_eq | lia | lia
    | unfold write_fuel; lia |].
  simpl in Hfs3. rewrite insert_insert_eq in Hfs3.
  rewrite Z.sub_0_r, slice_all in Hfs3 by lia. simpl app in Hfs3.
  cbv beta iota. simpl snd.
  rewrite unlink_loop_ok by done. simpl w_fs. rewrite Hfs3, Hfs.
  destruct (decide (p ∈ _)); [done|].
  destruct (decide (p = meta)) as [->|Hne].
  - apply lookup_insert_eq.
  - by rewrite lookup_insert_ne.
Qed.

(** C7: the layout of every container [process_meta] writes in full.
    The header carries the magic marker, the count METATILE * METATILE and
    the block coordinates; the entry of the first sub-tile in loop order
    records the offset just past the index table; the entry of every
    later sub-tile records the offset plus the size of the entry before
    it; every size is positive and the payload ends with the file.  The
    loop order is row-major: [(i, j)] is the [(i * limit + j)]-th
    sub-tile. *)
Theorem process_meta_layout x y z w buf offset :
  let cs := sub_tiles METATILE z in
  let slot := fun c : Z * Z => snd (xyz_to_meta (x + fst c) (y + snd c) z) in
  let meta := fst (xyz_to_meta x y z) in
  mallocs_ok env -> opens_ok env -> writes_ok env ->
  hsz <= PACK_BUF_LEN ->
  slots_in_table METATILE (tile_slots xyz_to_meta x y z cs) ->
  NoDup (tile_slots xyz_to_meta x y z cs) ->
  meta ∉ tile_paths xyz_to_path x y z cs ->
  fst (pack_loop' x y z cs buf0 hsz (snd (sys_malloc env w)))
    = Some (buf, offset) ->
  exists data,
    w_fs (snd (process_meta' x y z w)) !! meta = Some data /\
    data = stamp_header METATILE x y z buf /\
    Z.of_nat (length data) = offset /\
    take (length META_MAGIC) data = META_MAGIC /\
    get_int data off_count = to_int (METATILE * METATILE) /\
    get_int data off_x = to_int x /\
    get_int data off_y = to_int y /\
    get_int data off_z = to_int z /\
    (forall c, cs !! 0%nat = Some c -> recorded_offset data (slot c) = hsz) /\
    (forall k c c', cs !! k = Some c -> cs !! S k = Some c' ->
       recorded_offset data (slot c') =
       recorded_offset data (slot c) + recorded_size data (slot c)) /\
    (forall k c, cs !! k = Some c ->
       0 < recorded_size data (slot c) /\
       recorded_offset data (slot c) + recorded_size data (slot c) <= offset) /\
    (forall i j,
       0 <= i < block_limit METATILE z -> 0 <= j < block_limit METATILE z ->
       cs !! Z.to_nat (i * block_limit METATILE z + j) = Some (i, j)).
Proof.
  intros cs slot meta Hm Ho Hw Hfit0 Hslots Hnd Hmeta Hrun.
  unfold sys_malloc in Hrun. simpl in Hrun.
  assert (Hh := header_size_ge METATILE). unfold sizeof_meta_layout in Hh.
  destruct (pack_loop' x y z cs buf0 hsz (tick w)) as [res w1] eqn:Hloop.
  simpl in Hrun. subst res.
  destruct (pack_loop_some METATILE xyz_to_meta xyz_to_path env x y z cs buf0
              hsz (tick w) buf offset w1 Hloop length_buf0 ltac:(lia) Hslots)
    as (ds & Hl & Hpos & -> & -> & Hfit).
  assert (Hls : length ds = length (tile_slots xyz_to_meta x y z cs))
    by (unfold tile_slots; rewrite length_map; done).
  destruct (container_layout METATILE _ ds x y z Hslots Hnd Hls Hfit)
    as (L0 & L1 & L2 & L3 & L4 & L5 & L6).
  fold (container_bytes METATILE (tile_slots xyz_to_meta x y z cs) ds x y z).
  set (data := container_bytes _ _ ds x y z) in *.
  assert (Htl := total_len_nonneg ds).
  exists data. split.
  { unfold process_meta, sys_malloc. rewrite Hm. fold cs. rewrite Hloop.
    fold (container_bytes METATILE (tile_slots xyz_to_meta x y z cs) ds x y z).
    fold data. unfold sys_open_wr. rewrite Ho. fold meta.
    edestruct (write_loop_ok env (write_fuel (hsz + total_len ds)) meta data 0
                 (hsz + total_len ds)) as (w3 & -> & Hfs3 & _);
      [done | simpl; apply lookup_insert_eq | lia | lia
      | unfold write_fuel; lia |].
    simpl in Hfs3. rewrite insert_insert_eq in Hfs3.
    rewrite Z.sub_0_r, slice_all in Hfs3 by lia. simpl app in Hfs3.
    cbv beta iota. simpl snd.
    rewrite unlink_loop_frame by done. simpl w_fs. rewrite Hfs3.
    apply lookup_insert_eq. }
  do 7 (split; [done|]).
  assert (Hentry : forall k c, cs !! k = Some c ->
            exists d, ds !! k = Some d /\ 0 < Z.of_nat (length d) /\
              recorded_offset data (slot c) = hsz + total_len (take k ds) /\
              recorded_size data (slot c) = Z.of_nat (length d)).
  { intros k c Hk.
    destruct (lookup_lt_is_Some_2 ds k) as [d Hd].
    { rewrite Hl. by eapply lookup_lt_Some. }
    exists d. split; [done|].
    split; [by eapply (Forall_lookup_1 _ _ _ _ Hpos)|].
    assert (Hsk : tile_slots xyz_to_meta x y z cs !! k = Some (slot c))
      by (unfold tile_slots; rewrite list_lookup_fmap, Hk; done).
    destruct (L6 k (slot c) d Hsk Hd) as (E1 & E2 & _). done. }
  split; [|split; [|split]].
  - intros c Hc. destruct (Hentry 0%nat c Hc) as (d & _ & _ & E1 & _).
    rewrite E1. simpl. lia.
  - intros k c c' Hc Hc'.
    destruct (Hentry k c Hc) as (d & Hd & _ & E1 & E2).
    destruct (Hentry (S k) c' Hc') as (d' & _ & _ & E1' & _).
    rewrite E1', E1, E2, (total_len_take_S k ds d Hd). lia.
  - intros k c Hc.
    destruct (Hentry k c Hc) as (d & Hd & Hp & E1 & E2).
    rewrite E1, E2. split; [done|].
    assert (Hle := total_len_take_le (S k) ds).
    rewrite (total_len_take_S k ds d Hd) in Hle. lia.
  - intros i j Hi Hj. unfold cs, sub_tiles. by apply lookup_grid.
Qed.

End PackTheorems.

(** ** Expanding a container *)

Lemma unpacked_small (d : bytes) :
  Z.of_nat (length d) <= UNPACK_BUF_LEN -> unpacked d = d.
Proof. intros H. unfold unpacked. rewrite Z.min_r by lia. by apply slice_all. Qed.

Lemma unpacked_fs_frame paths ds fs (p : string) :
  p ∉ paths -> unpacked_fs paths ds fs !! p = fs !! p.
Proof.
  revert ds fs. induction paths as [|q paths IH]; intros ds fs Hp; [done|].
  destruct ds as [|d ds]; [done|]. simpl.
  apply not_elem_of_cons in Hp as [Hne Hp].
  rewrite IH by done. by rewrite lookup_insert_ne.
Qed.

Lemma unpacked_fs_lookup paths ds fs (f : string -> option bytes) (p : string) :
  Forall2 (fun q d => f q = Some (unpacked d)) paths ds ->
  p ∈ paths -> unpacked_fs paths ds fs !! p = f p.
Proof.
  intros Hall. revert fs. induction Hall as [|q d paths ds Hq Hall IH];
    intros fs Hp; [by apply elem_of_nil in Hp|].
  simpl. destruct (decide (p ∈ paths)) as [Hin|Hnin]; [by apply IH|].
  apply elem_of_cons in Hp as [->|Hp]; [|done].
  rewrite unpacked_fs_frame by done. by rewrite lookup_insert_eq.
Qed.

Section Unpacking.

Variable METATILE : Z.
Variable xyz_to_meta : Z -> Z -> Z -> string * Z.
Variable xyz_to_path : Z -> Z -> Z -> string.
Variable path_to_xyz : string -> option (Z * Z * Z).
Variable env : oracle.

Local Abbreviation read_from_meta' := (read_from_meta METATILE xyz_to_meta env).
Local Abbreviation unpack_loop' :=
  (unpack_loop METATILE xyz_to_meta xyz_to_path env).
Local Abbreviation process_unpack' :=
  (process_unpack METATILE xyz_to_meta xyz_to_path path_to_xyz env).

Lemma unpack_loop_cons x y z ox oy cs buf w :
  unpack_loop' x y z ((ox, oy) :: cs) buf w =
  let '((len, out), w1) :=
    read_from_meta' (x + ox) (y + oy) z (to_size_t UNPACK_BUF_LEN) w in
  let buf1 := blit buf 0 out in
  let w2 :=
    if len <=? 0 then emit (FailedToGetTile (x + ox) (y + oy) z) w1
    else snd (write_tile xyz_to_path env (x + ox) (y + oy) z buf1
                (to_size_t len) w1) in
  unpack_loop' x y z cs buf1 w2.
Proof. reflexivity. Qed.

(** Reading a tile the container holds returns its bytes, as many as fit. *)
Lemma read_tile_ok x y z sz w path slot data d :
  opens_ok env -> reads_ok env ->
  xyz_to_meta x y z = (path, slot) -> w_fs w !! path = Some data ->
  header_valid METATILE data -> holds_tile data slot d ->
  0 <= sz -> Z.of_nat (length d) < 2 ^ 31 ->
  let n := Z.min sz (Z.of_nat (length d)) in
  fst (read_from_meta' x y z sz w) = (n, slice d 0 n) /\
  w_fs (snd (read_from_meta' x y z sz w)) = w_fs w.
Proof.
  intros Ho Hr Hxyz Hfs (Hlen & Hmagic & Hcount) (Hentry & Hoff & Hsize & Hd)
    Hsz Hsmall n.
  assert (Hc := read_from_meta_cases METATILE xyz_to_meta env x y z sz w
                  path slot data Hxyz Hfs Hsz).
  destruct (read_from_meta' x y z sz w) as [[r out] w'].
  cbv zeta in Hc.
  destruct (recorded_entry_of_file env (w_clock w) data slot Hentry) as [Hro Hrs].
  rewrite Hro, Hrs in Hc.
  destruct Hc as [Hw' [Hc|[Hc|[Hc|[Hc|[Hc|Hc]]]]]];
    try no_fault; try good_header; try (exfalso; lia).
  destruct Hc as (_ & _ & _ & [Hc|[_ [Hc|Hc]]]);
    try no_fault; try (exfalso; lia).
  simpl. split; [|done].
  assert (Hdl : length d = 0%nat \/
                Z.of_nat (length d) <= Z.of_nat (length data) - recorded_offset data slot).
  { assert (Hl : length (slice data (recorded_offset data slot)
                           (Z.of_nat (length d))) = length d) by (by rewrite Hd).
    unfold slice in Hl. rewrite length_take, length_drop in Hl. lia. }
  assert (Hn : payload_len data (recorded_offset data slot)
                 (recorded_size data slot) sz = n).
  { unfold payload_len, n. rewrite Hsize, to_size_t_small by lia. lia. }
  rewrite Hn in Hc. destruct Hc as [-> ->]; [unfold UINT_MOD; lia|].
  rewrite to_int_small by lia. f_equal.
  rewrite <- (take_slice data (recorded_offset data slot) n
                (Z.of_nat (length d))) by lia.
  rewrite Hd. unfold slice. change (Z.to_nat 0) with 0%nat.
  by rewrite drop_0.
Qed.

(** Without a fault the loop writes out every tile the container holds. *)
Lemma unpack_loop_ok x y z cs ds (buf : bytes) w meta data :
  opens_ok env -> reads_ok env -> writes_ok env ->
  w_fs w !! meta = Some data ->
  header_valid METATILE data ->
  Forall2 (fun c d =>
             fst (xyz_to_meta (x + fst c) (y + snd c) z) = meta /\
             xyz_to_path (x + fst c) (y + snd c) z <> meta /\
             holds_tile data (snd (xyz_to_meta (x + fst c) (y + snd c) z)) d /\
             0 < Z.of_nat (length d) < 2 ^ 31) cs ds ->
  w_fs (snd (unpack_loop' x y z cs buf w)) =
  unpacked_fs (tile_paths xyz_to_path x y z cs) ds (w_fs w).
Proof.
  intros Ho Hr Hw Hfs Hv Hall. revert buf w Hfs.
  induction Hall as [|[ox oy] d cs ds (Hpath & Hne & Hhold & Hd) Hall IH];
    intros buf w Hfs; [done|].
  simpl in Hpath, Hne, Hhold.
  rewrite unpack_loop_cons.
  assert (Hsz : to_size_t UNPACK_BUF_LEN = UNPACK_BUF_LEN) by done.
  rewrite Hsz.
  destruct (xyz_to_meta (x + ox) (y + oy) z) as [path slot] eqn:Hxyz.
  simpl in Hpath, Hhold. subst path.
  destruct (read_tile_ok (x + ox) (y + oy) z UNPACK_BUF_LEN w meta slot data d
              Ho Hr Hxyz Hfs Hv Hhold ltac:(done) ltac:(lia)) as [Hres Hw1].
  destruct (read_from_meta' (x + ox) (y + oy) z UNPACK_BUF_LEN w)
    as [[len out] w1].
  simpl in Hres, Hw1. injection Hres as -> ->. cbv zeta.
  set (n := Z.min UNPACK_BUF_LEN (Z.of_nat (length d))).
  assert (Hn : 0 < n <= Z.of_nat (length d)) by (unfold n, UNPACK_BUF_LEN; lia).
  destruct (Z.leb_spec n 0); [lia|].
  assert (Hout : Z.of_nat (length (slice d 0 n)) = n)
    by (apply length_slice; lia).
  rewrite to_size_t_small by lia.
  rewrite IH.
  - simpl. f_equal. rewrite write_tile_ok; [| done | done |].
    + rewrite Hw1. f_equal.
      rewrite slice_blit_same; [done | lia | simpl; lia | lia].
    + rewrite length_blit by (change (Z.to_nat 0) with 0%nat; lia).
      change (Z.to_nat 0) with 0%nat. lia.
  - rewrite write_tile_frame by done. by rewrite Hw1.
Qed.

(** Without a fault [process_unpack] writes every tile and removes the
    container. *)
Lemma process_unpack_ok name x y z w ds data :
  let cs := sub_tiles METATILE z in
  let meta := fst (xyz_to_meta x y z) in
  path_to_xyz name = Some (x, y, z) ->
  mallocs_ok env -> opens_ok env -> reads_ok env -> writes_ok env ->
  unlinks_ok env ->
  w_fs w !! meta = Some data ->
  header_valid METATILE data ->
  Forall2 (fun c d =>
             fst (xyz_to_meta (x + fst c) (y + snd c) z) = meta /\
             xyz_to_path (x + fst c) (y + snd c) z <> meta /\
             holds_tile data (snd (xyz_to_meta (x + fst c) (y + snd c) z)) d /\
             0 < Z.of_nat (length d) < 2 ^ 31) cs ds ->
  w_fs (snd (process_unpack' name w)) =
  delete meta (unpacked_fs (tile_paths xyz_to_path x y z cs) ds (w_fs w)).
Proof.
  intros cs meta Hname Hm Ho Hr Hw Hu Hfs Hv Hall.
  unfold process_unpack. rewrite Hname. unfold sys_malloc. rewrite Hm.
  assert (Hl := unpack_loop_ok x y z cs ds [] (tick w) meta data Ho Hr Hw
                  Hfs Hv Hall).
  fold cs. destruct (unpack_loop' x y z cs [] (tick w)) as [buf w1].
  simpl in Hl. fold meta.
  apply map_eq. intros p.
  assert (Hd := sys_unlink_ok env meta w1 p Hu).
  destruct (sys_unlink env meta w1) as [ok w2]. simpl in Hd.
  replace (w_fs (snd (tt, if ok then w2 else emit (PerrorUnlink meta) w2)))
    with (w_fs w2) by (by destruct ok).
  rewrite Hd, Hl. destruct (decide (p = meta)) as [->|Hne].
  - by rewrite lookup_delete_eq.
  - by rewrite lookup_delete_ne.
Qed.

End Unpacking.

Section RoundTrip.

Variable METATILE : Z.
Variable xyz_to_meta : Z -> Z -> Z -> string * Z.
Variable xyz_to_path : Z -> Z -> Z -> string.
Variable path_to_xyz : string -> option (Z * Z * Z).
Variable env : oracle.

Local Abbreviation process_meta' :=
  (process_meta METATILE xyz_to_meta xyz_to_path env).
Local Abbreviation process_unpack' :=
  (process_unpack METATILE xyz_to_meta xyz_to_path path_to_xyz env).
Local Abbreviation hsz := (header_size METATILE).

(** Packing and then expanding a block writes back every tile, as much of
    it as the staging buffer of [process_unpack] holds, and removes the
    container. *)
Lemma pack_unpack_general name x y z w ds :
  let cs := sub_tiles METATILE z in
  let meta := fst (xyz_to_meta x y z) in
  path_to_xyz name = Some (x, y, z) ->
  mallocs_ok env -> opens_ok env -> reads_ok env -> writes_ok env ->
  unlinks_ok env ->
  hsz <= HEADER_BUF ->
  (forall c, c ∈ cs -> fst (xyz_to_meta (x + fst c) (y + snd c) z) = meta) ->
  slots_in_table METATILE (tile_slots xyz_to_meta x y z cs) ->
  NoDup (tile_slots xyz_to_meta x y z cs) ->
  meta ∉ tile_paths xyz_to_path x y z cs ->
  Forall2 (fun c d => w_fs w !! xyz_to_path (x + fst c) (y + snd c) z = Some d
                      /\ d <> []) cs ds ->
  hsz + total_len ds <= PACK_BUF_LEN ->
  w_fs (snd (process_unpack' name (snd (process_meta' x y z w)))) =
  delete meta (unpacked_fs (tile_paths xyz_to_path x y z cs) ds
                 (w_fs (snd (process_meta' x y z w)))).
Proof.
  intros cs meta. subst cs meta.
  intros Hname Hm Ho Hr Hw Hu Hhdr Hsame Hslots Hnd Hmeta Hall Hfit.
  assert (Hls : length ds
                = length (tile_slots xyz_to_meta x y z (sub_tiles METATILE z))).
  { unfold tile_slots. rewrite length_map. symmetry. eapply Forall2_length, Hall. }
  destruct (container_layout METATILE _ ds x y z Hslots Hnd Hls Hfit)
    as (L0 & L1 & L2 & _ & _ & _ & L6).
  set (data := container_bytes METATILE
                 (tile_slots xyz_to_meta x y z (sub_tiles METATILE z)) ds x y z)
    in *.
  assert (Hh := header_size_ge METATILE). unfold sizeof_meta_layout in Hh.
  assert (Htl := total_len_nonneg ds).
  assert (Hhl : hsz <= hdr_len data) by (unfold hdr_len; lia).
  apply (process_unpack_ok METATILE xyz_to_meta xyz_to_path path_to_xyz env
           name x y z _ ds data); try done.
  - rewrite (process_meta_ok METATILE xyz_to_meta xyz_to_path env x y z w ds)
      by done.
    rewrite decide_False by done. by rewrite decide_True.
  - split; [unfold sizeof_meta_layout; lia | done].
  - apply Forall2_same_length_lookup_2; [eapply Forall2_length, Hall|].
    intros k c d Hc Hd.
    assert (Hsk : tile_slots xyz_to_meta x y z (sub_tiles METATILE z) !! k
                  = Some (snd (xyz_to_meta (x + fst c) (y + snd c) z)))
      by (unfold tile_slots; rewrite list_lookup_fmap, Hc; done).
    destruct (L6 k _ d Hsk Hd) as (E1 & E2 & E3).
    assert (Hin : 0 <= snd (xyz_to_meta (x + fst c) (y + snd c) z)
                  < METATILE * METATILE).
    { unfold slots_in_table in Hslots. rewrite Forall_forall in Hslots.
      apply Hslots. by eapply list_elem_of_lookup_2. }
    destruct (entry_in_header METATILE _ Hin) as (H1 & H2 & H3).
    assert (Htk := total_len_nonneg (take k ds)).
    assert (Hdk : total_len (take k ds) + Z.of_nat (length d) <= total_len ds).
    { rewrite <- (total_len_take_S k ds d Hd). apply total_len_take_le. }
    destruct (Forall2_lookup_lr _ _ _ _ _ _ Hall Hc Hd) as [_ Hne].
    split; [apply Hsame; by eapply list_elem_of_lookup_2|].
    split.
    { intros Heq. apply Hmeta. unfold tile_paths. rewrite <- Heq.
      apply list_elem_of_fmap. exists c. split; [done|].
      by eapply list_elem_of_lookup_2. }
    split.
    { split; [|split; [|split]].
      - split; [lia|]. unfold sizeof_entry. lia.
      - rewrite E1. lia.
      - done.
      - rewrite E1. done. }
    unfold PACK_BUF_LEN in Hfit.
    destruct d; [done|]. simpl length in *. lia.
Qed.

(** C1, as the code has it: for a block whose sub-tiles all exist with
    non-empty contents that each fit the staging buffer of
    [process_unpack] and together, after the header, fit the work buffer
    of [process_meta], packing and then expanding the block leaves every
    standalone file as it was and no container: the file system is the
    one before, without the container path. *)
Theorem pack_unpack_roundtrip name x y z w ds :
  let cs := sub_tiles METATILE z in
  let meta := fst (xyz_to_meta x y z) in
  path_to_xyz name = Some (x, y, z) ->
  mallocs_ok env -> opens_ok env -> reads_ok env -> writes_ok env ->
  unlinks_ok env ->
  hsz <= HEADER_BUF ->
  (forall c, c ∈ cs -> fst (xyz_to_meta (x + fst c) (y + snd c) z) = meta) ->
  slots_in_table METATILE (tile_slots xyz_to_meta x y z cs) ->
  NoDup (tile_slots xyz_to_meta x y z cs) ->
  meta ∉ tile_paths xyz_to_path x y z cs ->
  Forall2 (fun c d => w_fs w !! xyz_to_path (x + fst c) (y + snd c) z = Some d
                      /\ d <> [] /\ Z.of_nat (length d) <= UNPACK_BUF_LEN)
          cs ds ->
  hsz + total_len ds <= PACK_BUF_LEN ->
  w_fs (snd (process_unpack' name (snd (process_meta' x y z w)))) =
  delete meta (w_fs w).
Proof.
  intros cs meta. subst cs meta.
  intros Hname Hm Ho Hr Hw Hu Hhdr Hsame Hslots Hnd Hmeta Hall Hfit.
  assert (Hall' : Forall2 (fun c d =>
            w_fs w !! xyz_to_path (x + fst c) (y + snd c) z = Some d /\ d <> [])
            (sub_tiles METATILE z) ds)
    by (eapply Forall2_impl; [apply Hall|]; simpl; intros ? ? (? & ? & _); done).
  rewrite (pack_unpack_general name x y z w ds) by done.
  apply map_eq. intros p.
  destruct (decide (p = fst (xyz_to_meta x y z))) as [->|Hne].
  { by rewrite !lookup_delete_eq. }
  rewrite !lookup_delete_ne by done.
  destruct (decide (p ∈ tile_paths xyz_to_path x y z (sub_tiles METATILE z)))
    as [Hin|Hnin].
  - apply (unpacked_fs_lookup _ _ _ (fun q => w_fs w !! q)); [|done].
    unfold tile_paths. apply Forall2_fmap_l.
    eapply Forall2_impl; [apply Hall|]. simpl.
    intros c d (Hd & _ & Hlen). by rewrite unpacked_small.
  - rewrite unpacked_fs_frame by done.
    rewrite (process_meta_ok METATILE xyz_to_meta xyz_to_path env x y z w ds)
      by done.
    rewrite !decide_False by done. done.
Qed.

End RoundTrip.

Section UnpackTheorems.

Variable METATILE : Z.
Variable xyz_to_meta : Z -> Z -> Z -> string * Z.
Variable xyz_to_path : Z -> Z -> Z -> string.
Variable path_to_xyz : string -> option (Z * Z * Z).
Variable env : oracle.

Local Abbreviation read_from_meta' := (read_from_meta METATILE xyz_to_meta env).
Local Abbreviation unpack_loop' :=
  (unpack_loop METATILE xyz_to_meta xyz_to_path env).
Local Abbreviation process_unpack' :=
  (process_unpack METATILE xyz_to_meta xyz_to_path path_to_xyz env).

(** A container whose header is not valid yields no tile at all. *)
Lemma unpack_loop_unreadable x y z cs buf w meta data :
  (forall c, c ∈ cs -> fst (xyz_to_meta (x + fst c) (y + snd c) z) = meta) ->
  w_fs w !! meta = Some data ->
  ~ header_valid METATILE data ->
  w_fs (snd (unpack_loop' x y z cs buf w)) = w_fs w.
Proof.
  intros Hsame Hfs Hbad. revert buf w Hfs.
  induction cs as [|[ox oy] cs IH]; intros buf w Hfs; [done|].
  rewrite unpack_loop_cons.
  assert (Hpath := Hsame (ox, oy) ltac:(left)). simpl in Hpath.
  destruct (xyz_to_meta (x + ox) (y + oy) z) as [path slot] eqn:Hxyz.
  simpl in Hpath. subst path.
  assert (Hc := read_from_meta_cases METATILE xyz_to_meta env (x + ox) (y + oy)
                  z (to_size_t UNPACK_BUF_LEN) w meta slot data Hxyz Hfs
                  (proj1 (to_size_t_range _))).
  destruct (read_from_meta' (x + ox) (y + oy) z (to_size_t UNPACK_BUF_LEN) w)
    as [[len out] w1].
  cbv zeta in Hc. destruct Hc as [Hw1 Hc]. cbv zeta.
  assert (Hlen : len < 0).
  { destruct Hc as [Hc|[Hc|[Hc|[Hc|[Hc|Hc]]]]]; try lia.
    destruct Hc as (H1 & H2 & H3 & _). exfalso. apply Hbad. done. }
  destruct (Z.leb_spec len 0); [|lia].
  rewrite IH.
  - simpl. done.
  - intros c Hc'. apply Hsame. by right.
  - simpl. by rewrite Hw1.
Qed.

(** C9: once the sub-tile loop is over, [process_unpack] unlinks the
    container whatever the loop achieved: the container path is free
    afterwards, and a container whose header cannot be read, from which
    every sub-tile read fails, is removed while no standalone file is
    written. *)
Theorem process_unpack_unlinks name x y z w :
  let meta := fst (xyz_to_meta x y z) in
  path_to_xyz name = Some (x, y, z) ->
  mallocs_ok env -> unlinks_ok env ->
  w_fs (snd (process_unpack' name w)) !! meta = None /\
  (forall data,
     w_fs w !! meta = Some data -> ~ header_valid METATILE data ->
     (forall c, c ∈ sub_tiles METATILE z ->
                fst (xyz_to_meta (x + fst c) (y + snd c) z) = meta) ->
     w_fs (snd (process_unpack' name w)) = delete meta (w_fs w)).
Proof.
  intros meta Hname Hm Hu. unfold process_unpack. rewrite Hname.
  unfold sys_malloc. rewrite Hm. fold meta.
  assert (Hl := unpack_loop_unreadable x y z (sub_tiles METATILE z) [] (tick w) meta).
  destruct (unpack_loop' x y z (sub_tiles METATILE z) [] (tick w)) as [buf w1].
  assert (Hd := fun p => sys_unlink_ok env meta w1 p Hu).
  destruct (sys_unlink env meta w1) as [ok w2]. simpl in Hd.
  replace (w_fs (snd (tt, if ok then w2 else emit (PerrorUnlink meta) w2)))
    with (w_fs w2) by (by destruct ok).
  split.
  - rewrite Hd. by rewrite decide_True.
  - intros data Hfs Hbad Hsame. apply map_eq. intros p.
    rewrite Hd. simpl in Hl. rewrite (Hl data) by done. simpl.
    destruct (decide (p = meta)) as [->|Hne].
    + by rewrite lookup_delete_eq.
    + by rewrite lookup_delete_ne.
Qed.

(** C10, as the code has it: for a slot that records size 0 and an offset
    [lseek] accepts, [read_from_meta] returns 0 and stores nothing, and
    the turn of the loop of [process_unpack] for that slot prints the
    failure and writes no file. *)
Theorem zero_size_slot x y z ox oy cs buf w path slot data :
  opens_ok env -> reads_ok env ->
  xyz_to_meta (x + ox) (y + oy) z = (path, slot) ->
  w_fs w !! path = Some data ->
  header_valid METATILE data -> entry_read data slot ->
  recorded_size data slot = 0 -> 0 <= recorded_offset data slot ->
  let w1 := snd (read_from_meta' (x + ox) (y + oy) z (to_size_t UNPACK_BUF_LEN) w) in
  (forall sz, 0 <= sz ->
     fst (read_from_meta' (x + ox) (y + oy) z sz w) = (0, [])) /\
  w_fs w1 = w_fs w /\
  unpack_loop' x y z ((ox, oy) :: cs) buf w =
  unpack_loop' x y z cs buf (emit (FailedToGetTile (x + ox) (y + oy) z) w1).
Proof.
  intros Ho Hr Hxyz Hfs Hv Hentry Hsize Hoff w1.
  assert (Hhold : holds_tile data slot []).
  { split; [done|]. split; [done|]. split; [done|].
    unfold slice. by rewrite take_0. }
  assert (Hread : forall sz, 0 <= sz ->
            fst (read_from_meta' (x + ox) (y + oy) z sz w) = (0, []) /\
            w_fs (snd (read_from_meta' (x + ox) (y + oy) z sz w)) = w_fs w).
  { intros sz Hsz.
    destruct (read_tile_ok METATILE xyz_to_meta env (x + ox) (y + oy) z sz w
                path slot data [] Ho Hr Hxyz Hfs Hv Hhold Hsz ltac:(done))
      as [E1 E2].
    split; [|done]. rewrite E1. simpl length.
    rewrite Z.min_r by lia. unfold slice. by rewrite take_0. }
  split; [intros sz Hsz; by apply Hread|].
  destruct (Hread (to_size_t UNPACK_BUF_LEN) ltac:(done)) as [E1 E2].
  split; [done|].
  rewrite unpack_loop_cons. unfold w1.
  destruct (read_from_meta' (x + ox) (y + oy) z (to_size_t UNPACK_BUF_LEN) w)
    as [[len out] w1'].
  simpl in E1. injection E1 as -> ->. simpl. by rewrite blit_nil.
Qed.

End UnpackTheorems.

Section Iteration.

Variable METATILE : Z.
Variable xyz_to_meta : Z -> Z -> Z -> string * Z.
Variable xyz_to_path : Z -> Z -> Z -> string.
Variable path_to_xyz : string -> option (Z * Z * Z).
Variable env : oracle.

Local Abbreviation read_from_meta' := (read_from_meta METATILE xyz_to_meta env).
Local Abbreviation unpack_loop' :=
  (unpack_loop METATILE xyz_to_meta xyz_to_path env).
Local Abbreviation process_unpack' :=
  (process_unpack METATILE xyz_to_meta xyz_to_path path_to_xyz env).
Local Abbreviation process_meta' :=
  (process_meta METATILE xyz_to_meta xyz_to_path env).

(** [read_from_meta] changes no file and reports no outcome of a turn. *)
Lemma read_from_meta_world x y z sz w :
  w_fs (snd (read_from_meta' x y z sz w)) = w_fs w /\
  slot_events (snd (read_from_meta' x y z sz w)) = slot_events w.
Proof.
  unfold read_from_meta.
  destruct (xyz_to_meta x y z) as [path slot]. unfold sys_open_rd.
  destruct (w_fs w !! path) as [data|]; [|done].
  destruct (o_open env (w_clock w)); [|done].
  assert (Hw2 := read_loop_world env (read_fuel (mkRfd data 0)) UINT_MOD
                   HEADER_BUF (mkRfd data 0) (stack_buf env (w_clock w)) 0
                   (tick w) ltac:(simpl; lia)).
  destruct (read_loop env _ UINT_MOD HEADER_BUF _ _ 0 (tick w))
    as [[[ok pos] hd] w2].
  destruct Hw2 as [Hfs2 Hlog2]. simpl in Hfs2, Hlog2.
  assert (Hev2 : slot_events w2 = slot_events w)
    by (unfold slot_events; by rewrite Hlog2).
  destruct ok; [|done].
  destruct (pos <? sizeof_meta_layout); [done|].
  destruct (negb (memcmp_eq _ _ _)); [done|].
  destruct (negb (_ =? _)); [done|].
  unfold sys_lseek.
  set (off := to_off_t _).
  destruct (Z.ltb_spec off 0) as [Hneg|Hpos]; cbv beta iota.
  { change (-1 <? 0) with true. done. }
  destruct (Z.ltb_spec off 0) as [|_]; [lia|].
  set (ts := to_size_t (get_int hd (off_index_size slot))).
  set (lim := if sz <? ts then sz else ts).
  set (w3 := if sz <? ts then emit (TruncatingTile ts sz) w2 else w2).
  replace (if sz <? ts then (sz, emit (TruncatingTile ts sz) w2) else (ts, w2))
    with (lim, w3) by (unfold lim, w3; destruct (sz <? ts); done).
  assert (Hw3 : w_fs w3 = w_fs w /\ slot_events w3 = slot_events w)
    by (unfold w3; destruct (sz <? ts); done).
  cbv beta iota. simpl fd_data.
  assert (Hw4 := read_loop_world env (read_fuel (mkRfd data off)) UINT_MOD lim
                   (mkRfd data off) [] 0 w3 ltac:(simpl; lia)).
  destruct (read_loop env (read_fuel (mkRfd data off)) UINT_MOD lim
              (mkRfd data off) [] 0 w3) as [[[ok pos'] out] w4].
  destruct Hw4 as [Hfs4 Hlog4]. simpl in Hfs4, Hlog4.
  assert (Hev4 : slot_events w4 = slot_events w3)
    by (unfold slot_events; by rewrite Hlog4).
  destruct ok; simpl; split; destruct Hw3; congruence.
Qed.






End Iteration.

(** ** Closed examples: block (0, 0) of zoom 0 in 8 x 8 blocks *)

(** Decides a closed comparison of integers by evaluation. *)
Ltac closed_arith :=
  vm_compute; repeat split; first [reflexivity | discriminate].

Lemma quiet_mallocs : mallocs_ok quiet.
Proof. intros t. reflexivity. Qed.

Lemma quiet_opens : opens_ok quiet.
Proof. intros t. reflexivity. Qed.

Lemma quiet_reads : reads_ok quiet.
Proof. intros t. simpl. unfold MAX_RW_COUNT. lia. Qed.

Lemma quiet_writes : writes_ok quiet.
Proof. intros t. simpl. unfold MAX_RW_COUNT. lia. Qed.

Lemma quiet_unlinks : unlinks_ok quiet.
Proof. intros t. reflexivity. Qed.

(** The addressing of block (0, 0) of zoom 0: one sub-tile, in slot 0 of
    its container. *)
Lemma block0_tiles : sub_tiles METATILE8 0 = [(0, 0)].
Proof. reflexivity. Qed.

Lemma block0_same_container c :
  c ∈ sub_tiles METATILE8 0 ->
  fst (xyz_to_meta8 (0 + fst c) (0 + snd c) 0) = fst (xyz_to_meta8 0 0 0).
Proof. rewrite block0_tiles. intros ->%list_elem_of_singleton. reflexivity. Qed.

Lemma block0_slots :
  slots_in_table METATILE8 (tile_slots xyz_to_meta8 0 0 0 (sub_tiles METATILE8 0)).
Proof. constructor; [|constructor]. closed_arith. Qed.

Lemma block0_slots_distinct :
  NoDup (tile_slots xyz_to_meta8 0 0 0 (sub_tiles METATILE8 0)).
Proof. apply NoDup_singleton. Qed.

Lemma block0_container_apart :
  fst (xyz_to_meta8 0 0 0) ∉ tile_paths xyz_to_path8 0 0 0 (sub_tiles METATILE8 0).
Proof. intros H%list_elem_of_singleton. discriminate H. Qed.

Lemma header8_fits : header_size METATILE8 <= HEADER_BUF.
Proof. closed_arith. Qed.

(** Tile (9, 10) of zoom 4 lies in slot 1 * 8 + 2 of block (8, 8). *)
Example xyz_to_meta8_slot : xyz_to_meta8 9 10 4 = ("/4/8/8.meta"%string, 10).
Proof. reflexivity. Qed.

(** Packing the tile of zoom 0 leaves the container alone: 532 bytes of
    header and index table, then the three bytes of the tile, which slot 0
    records at offset 532. *)
Example process_meta8_demo :
  let fs := w_fs (snd (process_meta8 0 0 0 (world0 demo_fs))) in
  fs !! xyz_to_path8 0 0 0 = None /\
  (length <$> fs !! fst (xyz_to_meta8 0 0 0)) = Some 535%nat /\
  (fun data => (recorded_offset data 0, recorded_size data 0))
    <$> fs !! fst (xyz_to_meta8 0 0 0) = Some (532, 3).
Proof. vm_compute. repeat split. Qed.

(** C1 at a tile of three bytes. *)
Lemma pack_unpack_roundtrip_witness :
  w_fs (snd (process_unpack8 "/0/0/0.meta"
               (snd (process_meta8 0 0 0 (world0 demo_fs)))))
  = delete (fst (xyz_to_meta8 0 0 0)) demo_fs.
Proof.
  apply (pack_unpack_roundtrip METATILE8 xyz_to_meta8 xyz_to_path8 path_to_xyz8
           quiet "/0/0/0.meta" 0 0 0 (world0 demo_fs) [demo_tile]).
  - reflexivity.
  - exact quiet_mallocs.
  - exact quiet_opens.
  - exact quiet_reads.
  - exact quiet_writes.
  - exact quiet_unlinks.
  - exact header8_fits.
  - exact block0_same_container.
  - exact block0_slots.
  - exact block0_slots_distinct.
  - exact block0_container_apart.
  - constructor; [|constructor].
    split; [reflexivity|]. split; [discriminate|]. closed_arith.
  - closed_arith.
Defined.

(** Packing and expanding a single tile of zoom 0 that is one byte larger
    than the staging buffer leaves its first [UNPACK_BUF_LEN] bytes. *)
Lemma pack_unpack_large_tile (d : bytes) :
  Z.of_nat (length d) = UNPACK_BUF_LEN + 1 ->
  w_fs (snd (process_unpack8 "/0/0/0.meta"
               (snd (process_meta8 0 0 0 (world0 {[ xyz_to_path8 0 0 0 := d ]})))))
    !! xyz_to_path8 0 0 0
  = Some (unpacked d).
Proof.
  intros Hlen. unfold process_unpack8, process_meta8.
  rewrite (pack_unpack_general METATILE8 xyz_to_meta8 xyz_to_path8 path_to_xyz8
             quiet "/0/0/0.meta" 0 0 0 _ [d]).
  - rewrite lookup_delete_ne by discriminate.
    rewrite block0_tiles. unfold tile_paths, unpacked_fs, map.
    apply lookup_insert_eq.
  - reflexivity.
  - exact quiet_mallocs.
  - exact quiet_opens.
  - exact quiet_reads.
  - exact quiet_writes.
  - exact quiet_unlinks.
  - exact header8_fits.
  - exact block0_same_container.
  - exact block0_slots.
  - exact block0_slots_distinct.
  - exact block0_container_apart.
  - rewrite block0_tiles. constructor; [|constructor].
    split; [apply lookup_singleton_eq|].
    intros ->. unfold UNPACK_BUF_LEN in Hlen. simpl in Hlen. lia.
  - unfold total_len, foldr. rewrite Hlen.
    unfold header_size, METATILE8, sizeof_meta_layout, sizeof_entry,
      UNPACK_BUF_LEN, PACK_BUF_LEN. lia.
Qed.

Lemma length_big_tile : Z.of_nat (length big_tile) = UNPACK_BUF_LEN + 1.
Proof.
  unfold big_tile. rewrite repeat_length. apply Z2Nat.id.
  unfold UNPACK_BUF_LEN. lia.
Qed.

(** C1 fails as stated: the only tile of zoom 0, block-aligned, present and
    not empty, does not come back byte-identical when it is larger than the
    staging buffer of [process_unpack]. *)
Lemma large_tile_not_restored :
  snd (xyz_to_meta8 0 0 0) = 0 /\
  w_fs (world0 {[ xyz_to_path8 0 0 0 := big_tile ]}) !! xyz_to_path8 0 0 0
    = Some big_tile /\
  big_tile <> [] /\
  w_fs (snd (process_unpack8 "/0/0/0.meta"
               (snd (process_meta8 0 0 0
                       (world0 {[ xyz_to_path8 0 0 0 := big_tile ]})))))
    !! xyz_to_path8 0 0 0
  <> Some big_tile.
Proof.
  assert (Hlen := length_big_tile).
  split; [reflexivity|]. split; [apply lookup_singleton_eq|]. split.
  - intros Hnil. rewrite Hnil in Hlen. unfold UNPACK_BUF_LEN in Hlen.
    simpl in Hlen. lia.
  - rewrite (pack_unpack_large_tile big_tile Hlen). intros Heq.
    assert (Hl : Z.of_nat (length (unpacked big_tile)) = UNPACK_BUF_LEN).
    { unfold unpacked. rewrite Z.min_l by lia.
      apply length_slice; unfold UNPACK_BUF_LEN in *; lia. }
    apply (f_equal (fun o : option bytes =>
                      match o with
                      | Some l => Z.of_nat (length l)
                      | None => 0
                      end)) in Heq.
    rewrite Hl, Hlen in Heq. lia.
Qed.

(** C2 at an empty directory: nothing is written. *)
Lemma process_meta_fail_closed_witness :
  w_fs (snd (process_meta8 0 0 0 (world0 ∅))) = w_fs (world0 ∅).
Proof.
  apply (process_meta_fail_closed METATILE8 xyz_to_meta8 xyz_to_path8 quiet
           0 0 0 (world0 ∅)).
  left. rewrite block0_tiles. constructor. left. reflexivity.
Defined.

(** C3 where no container exists: the standalone tile is read. *)
Lemma tile_read_fallback_witness :
  fst (tile_read8 0 0 0 16 (world0 demo_fs)) = (3, demo_tile).
Proof.
  destruct (tile_read_fallback METATILE8 xyz_to_meta8 xyz_to_path8 quiet
              0 0 0 16 (world0 demo_fs) (-1) [] (mkWorld demo_fs 1 []))
    as (_ & Hneg & _).
  - vm_compute. reflexivity.
  - unfold tile_read8. rewrite Hneg by lia. vm_compute. reflexivity.
Defined.

(** C4 at a buffer of two bytes for a tile of three. *)
Lemma read_from_meta_clamps_witness :
  fst (read_from_meta8 0 0 0 2 (world0 (meta_fs (demo_container 532 3))))
  = (2, [Byte.x01; Byte.x02]) /\
  Z.of_nat (length [Byte.x01; Byte.x02]) <= 2.
Proof.
  assert (Hrun : read_from_meta8 0 0 0 2 (world0 (meta_fs (demo_container 532 3)))
                 = ((2, [Byte.x01; Byte.x02]),
                    snd (read_from_meta8 0 0 0 2
                           (world0 (meta_fs (demo_container 532 3))))))
    by (vm_compute; reflexivity).
  split; [rewrite Hrun; reflexivity|].
  apply (read_from_meta_clamps METATILE8 xyz_to_meta8 quiet 0 0 0 2 _ _ _ _
           ltac:(lia) Hrun).
Defined.

(** C5 fails on the code: a file that ends right after the header fields,
    with no index table at all, passes the size check; the entry is then
    loaded from the stale bytes of the header buffer. *)
Lemma short_index_table_accepted :
  let data := take 20 (demo_container 532 3) in
  Z.of_nat (length data) < header_size METATILE8 /\
  fst (read_from_meta8 0 0 0 1024 (world0 (meta_fs data))) = (0, []).
Proof. split; [closed_arith | vm_compute; reflexivity]. Qed.

(** The size check of [read_from_meta] is passed by every file that holds
    the header fields, whatever it holds of the index table. *)
Lemma size_check_covers_fields_only METATILE xyz_to_meta env x y z sz w path
    slot data :
  xyz_to_meta x y z = (path, slot) -> w_fs w !! path = Some data ->
  0 <= sz < 2 ^ 31 ->
  fst (fst (read_from_meta METATILE xyz_to_meta env x y z sz w)) = -3 ->
  hdr_len data < sizeof_meta_layout.
Proof.
  intros Hxyz Hfs [Hsz Hsmall] Hret.
  assert (Hc := read_from_meta_cases METATILE xyz_to_meta env x y z sz w
                  path slot data Hxyz Hfs Hsz).
  destruct (read_from_meta METATILE xyz_to_meta env x y z sz w) as [[r out] w'].
  simpl in Hret. subst r. cbv zeta in Hc.
  destruct Hc as [_ [Hc|[Hc|[Hc|[Hc|[Hc|Hc]]]]]]; try (exfalso; lia).
  - apply Hc.
  - destruct Hc as (_ & _ & _ & [Hc|[_ [Hc|Hc]]]); try (exfalso; lia).
    exfalso. unfold payload_len, UINT_MOD in Hc.
    set (n := Z.max 0 _) in Hc.
    assert (Hn : 0 <= n <= sz) by (unfold n; lia).
    destruct Hc as [Hr _]; [lia|].
    rewrite to_int_small in Hr by lia. lia.
Qed.

(** C6 fails as stated: an offset beyond the end of the file is no seek
    error. *)
Lemma seek_past_end_is_no_error :
  let data := demo_container 10000 3 in
  Z.of_nat (length data) < recorded_offset data 0 /\
  fst (fst (read_from_meta8 0 0 0 1024 (world0 (meta_fs data)))) <> -6.
Proof. split; [closed_arith | vm_compute; discriminate]. Qed.

Lemma demo_container_valid off size :
  header_valid METATILE8 (demo_container off size).
Proof.
  unfold demo_container.
  set (buf := stamp_header METATILE8 0 0 0 _).
  assert (Hl : Z.of_nat (length buf) = 535) by (vm_compute; reflexivity).
  assert (Hf := stamp_header_fields METATILE8 0 0 0
                  (repeat Byte.x00 (Z.to_nat (header_size METATILE8)) ++ demo_tile)
                  ltac:(closed_arith)).
  fold buf in Hf. cbv zeta in Hf. destruct Hf as (F1 & F2 & _).
  change (off_index_offset 0) with 20. change (off_index_size 0) with 24.
  assert (L1 : length (put_int buf 20 off) = length buf)
    by (apply length_put_int; lia).
  split; [|split].
  - unfold hdr_len, sizeof_meta_layout, HEADER_BUF.
    rewrite !length_put_int by lia. lia.
  - change (take (length META_MAGIC) ?l) with (slice l 0 4).
    rewrite !slice_put_int_other by lia. exact F1.
  - rewrite get_int_slice. unfold off_count.
    rewrite !slice_put_int_other by lia. exact F2.
Qed.

Lemma demo_container_entry off size :
  entry_read (demo_container off size) 0.
Proof.
  split; [lia|]. destruct (demo_container_valid off size) as [Hv _].
  unfold demo_container in *.
  set (buf := stamp_header METATILE8 0 0 0 _) in *.
  assert (Hl : Z.of_nat (length buf) = 535) by (vm_compute; reflexivity).
  change (off_index_offset 0) with 20 in *. change (off_index_size 0) with 24 in *.
  unfold hdr_len, sizeof_entry, HEADER_BUF.
  rewrite !length_put_int; rewrite ?length_put_int; lia.
Qed.

(** C6 as amended, at an offset beyond the end of the file. *)
Lemma read_from_meta_seek_witness :
  fst (read_from_meta8 0 0 0 1024 (world0 (meta_fs (demo_container 10000 3))))
  = (0, []).
Proof.
  apply (read_from_meta_seek METATILE8 xyz_to_meta8 quiet 0 0 0 1024
           (world0 (meta_fs (demo_container 10000 3)))
           (fst (xyz_to_meta8 0 0 0)) 0 (demo_container 10000 3)
           quiet_opens quiet_reads eq_refl).
  - apply lookup_singleton_eq.
  - apply demo_container_valid.
  - apply demo_container_entry.
  - lia.
  - closed_arith.
Defined.

(** C7 at the block of zoom 0: the container is written and its length
    is the header size plus the three bytes of the tile. *)
Lemma process_meta_layout_witness :
  exists data,
    w_fs (snd (process_meta8 0 0 0 (world0 demo_fs))) !! fst (xyz_to_meta8 0 0 0)
      = Some data /\
    Z.of_nat (length data) = 535 /\
    recorded_offset data 0 = header_size METATILE8.
Proof.
  destruct (process_meta_layout METATILE8 xyz_to_meta8 xyz_to_path8 quiet 0 0 0
              (world0 demo_fs)
              (assemble [0] [demo_tile]
                 (repeat Byte.x00 (Z.to_nat (header_size METATILE8)))
                 (header_size METATILE8))
              535 quiet_mallocs quiet_opens quiet_writes
              ltac:(closed_arith) block0_slots block0_slots_distinct
              block0_container_apart ltac:(vm_compute; reflexivity))
    as (data & H1 & _ & H2 & _ & _ & _ & _ & _ & H3 & _).
  exists data. split; [exact H1|]. split; [exact H2|].
  apply (H3 (0, 0)). reflexivity.
Defined.


(** C9 at a container of one byte: it is removed and nothing is written. *)
Lemma process_unpack_unlinks_witness :
  w_fs (snd (process_unpack8 "/0/0/0.meta" (world0 (meta_fs [Byte.x00]))))
  = delete (fst (xyz_to_meta8 0 0 0)) (meta_fs [Byte.x00]).
Proof.
  destruct (process_unpack_unlinks METATILE8 xyz_to_meta8 xyz_to_path8
              path_to_xyz8 quiet "/0/0/0.meta" 0 0 0
              (world0 (meta_fs [Byte.x00])) eq_refl quiet_mallocs quiet_unlinks)
    as [_ Hgone].
  apply (Hgone [Byte.x00]).
  - apply lookup_singleton_eq.
  - intros [Hlen _]. unfold hdr_len, sizeof_meta_layout, HEADER_BUF in Hlen.
    simpl in Hlen. lia.
  - exact block0_same_container.
Defined.

(** C10 fails as stated: a slot of size 0 whose offset is negative makes
    [read_from_meta] fail. *)
Lemma zero_size_slot_seek_error :
  let data := demo_container (-1) 0 in
  recorded_size data 0 = 0 /\
  fst (read_from_meta8 0 0 0 1024 (world0 (meta_fs data))) = (-6, []).
Proof. split; vm_compute; reflexivity. Qed.

(** C10 as amended, at a slot that records offset 532 and size 0. *)
Lemma zero_size_slot_witness :
  fst (read_from_meta8 0 0 0 1024 (world0 (meta_fs (demo_container 532 0))))
  = (0, []) /\
  w_log (snd (unpack_loop METATILE8 xyz_to_meta8 xyz_to_path8 quiet 0 0 0
                [(0, 0)] [] (world0 (meta_fs (demo_container 532 0)))))
  = [FailedToGetTile 0 0 0].
Proof.
  destruct (zero_size_slot METATILE8 xyz_to_meta8 xyz_to_path8 quiet 0 0 0 0 0
              [] [] (world0 (meta_fs (demo_container 532 0)))
              (fst (xyz_to_meta8 0 0 0)) 0 (demo_container 532 0)
              quiet_opens quiet_reads eq_refl)
    as (Hread & _ & Hloop).
  - apply lookup_singleton_eq.
  - apply demo_container_valid.
  - apply demo_container_entry.
  - vm_compute. reflexivity.
  - closed_arith.
  - split; [apply (Hread 1024); lia|].
    rewrite Hloop. vm_compute. reflexivity.
Defined.

(** ** Reading: results, error codes and diagnostics *)

Section ReadingResults.

Variable METATILE : Z.
Variable xyz_to_meta : Z -> Z -> Z -> string * Z.
Variable xyz_to_path : Z -> Z -> Z -> string.
Variable env : oracle.

Local Abbreviation read_from_meta' := (read_from_meta METATILE xyz_to_meta env).
Local Abbreviation read_from_file' := (read_from_file xyz_to_path env).
Local Abbreviation tile_read' :=
  (tile_read METATILE xyz_to_meta xyz_to_path env).

(** A fault-free run of [read_from_file] on an existing file: the value
    returned, the bytes stored, the files and the diagnostics. *)
Lemma read_from_file_run x y z sz w data :
  opens_ok env -> reads_ok env ->
  w_fs w !! xyz_to_path x y z = Some data ->
  0 <= sz < SIZE_MOD ->
  let n := Z.min sz (Z.of_nat (length data)) in
  exists w',
    read_from_file' x y z sz w = ((to_int n, slice data 0 n), w') /\
    w_fs w' = w_fs w /\
    w_log w' = if sz <=? Z.of_nat (length data)
               then FileTruncated (xyz_to_path x y z) sz :: w_log w
               else w_log w.
Proof.
  intros Ho Hr Hfs Hsz n. unfold read_from_file, sys_open_rd.
  rewrite Hfs, Ho.
  assert (Hw2 := read_loop_world env (read_fuel (mkRfd data 0)) SIZE_MOD sz
                   (mkRfd data 0) [] 0 (tick w) ltac:(simpl; lia)).
  assert (Hok := read_loop_no_fault env (read_fuel (mkRfd data 0)) SIZE_MOD sz
                   (mkRfd data 0) [] 0 (tick w) Hr ltac:(simpl; lia)).
  destruct (read_loop env (read_fuel (mkRfd data 0)) SIZE_MOD sz
              (mkRfd data 0) [] 0 (tick w)) as [[[ok pos] out] w2] eqn:Hloop.
  simpl in Hok. subst ok. destruct Hw2 as [Hfs2 Hlog2]. simpl in Hfs2, Hlog2.
  assert (Hrest : fd_rest (mkRfd data 0) = data) by apply drop_0.
  apply read_loop_result in Hloop.
  - rewrite Hrest in Hloop. destruct Hloop as [-> ->].
    replace (0 + Z.max 0 (Z.min (sz - 0) (Z.of_nat (length data))))
      with n by (unfold n; lia).
    replace (Z.max 0 (Z.min (sz - 0) (Z.of_nat (length data))))
      with n by (unfold n; lia).
    eexists. split; [|split].
    + f_equal. f_equal.
      unfold blit, slice. change (Z.to_nat 0) with 0%nat.
      rewrite take_0, drop_0. simpl. by rewrite drop_nil, app_nil_r.
    + by destruct (n =? sz).
    + destruct (Z.eqb_spec n sz) as [He|He];
        destruct (Z.leb_spec sz (Z.of_nat (length data))) as [Hl|Hl];
        unfold n in He; try lia; simpl; by rewrite Hlog2.
  - simpl. lia.
  - simpl. lia.
  - rewrite Hrest. unfold read_fuel. simpl. lia.
  - rewrite Hrest. unfold SIZE_MOD in *. lia.
Qed.

(** X1: without a failing call [read_from_file] stores the first
    [min sz length] bytes of the file and returns that count converted to
    [int], which is the count itself below 2^31; no file changes. *)
Theorem read_from_file_prefix x y z sz w data :
  opens_ok env -> reads_ok env ->
  w_fs w !! xyz_to_path x y z = Some data ->
  0 <= sz < SIZE_MOD ->
  let n := Z.min sz (Z.of_nat (length data)) in
  fst (read_from_file' x y z sz w) = (to_int n, slice data 0 n) /\
  (n < 2 ^ 31 -> fst (fst (read_from_file' x y z sz w)) = n) /\
  w_fs (snd (read_from_file' x y z sz w)) = w_fs w.
Proof.
  intros Ho Hr Hfs Hsz n.
  destruct (read_from_file_run x y z sz w data Ho Hr Hfs Hsz)
    as (w' & -> & Hfs' & _).
  fold n. simpl. split; [done|]. split; [|done].
  intros Hn. apply to_int_small. unfold n in *. lia.
Qed.

(** X2: [read_from_file] prints its truncation message exactly when the
    capacity [sz] does not exceed the length of the file: also for a file
    of exactly [sz] bytes, all of which were read, and for [sz = 0]. *)
Theorem read_from_file_truncation_report x y z sz w data :
  opens_ok env -> reads_ok env ->
  w_fs w !! xyz_to_path x y z = Some data ->
  0 <= sz < SIZE_MOD ->
  w_log (snd (read_from_file' x y z sz w)) =
  if sz <=? Z.of_nat (length data)
  then FileTruncated (xyz_to_path x y z) sz :: w_log w
  else w_log w.
Proof.
  intros Ho Hr Hfs Hsz.
  destruct (read_from_file_run x y z sz w data Ho Hr Hfs Hsz)
    as (w' & -> & _ & Hlog).
  exact Hlog.
Qed.

(** The result of [read_from_meta] on a container whose header passes
    the checks, for a slot that records a non-negative offset. *)
Lemma read_from_meta_run x y z sz w path slot data :
  opens_ok env -> reads_ok env ->
  xyz_to_meta x y z = (path, slot) -> w_fs w !! path = Some data ->
  header_valid METATILE data -> entry_read data slot ->
  0 <= recorded_offset data slot ->
  0 <= sz < 2 ^ 31 ->
  let off := recorded_offset data slot in
  let n := payload_len data off (recorded_size data slot) sz in
  fst (read_from_meta' x y z sz w) = (n, slice data off n).
Proof.
  intros Ho Hr Hxyz Hfs (Hlen & Hmagic & Hcount) Hentry Hoff Hsz off n.
  assert (Hc := read_from_meta_cases METATILE xyz_to_meta env x y z sz w
                  path slot data Hxyz Hfs (proj1 Hsz)).
  destruct (read_from_meta' x y z sz w) as [[r out] w'].
  cbv zeta in Hc.
  destruct (recorded_entry_of_file env (w_clock w) data slot Hentry) as [Hro Hrs].
  rewrite Hro, Hrs in Hc. fold off in Hc. fold n in Hc.
  assert (Hn : 0 <= n <= sz) by (unfold n, payload_len; lia).
  destruct Hc as [_ [Hc|[Hc|[Hc|[Hc|[Hc|Hc]]]]]];
    try no_fault; try good_header; try (exfalso; lia).
  destruct Hc as (_ & _ & _ & [Hc|[_ [Hc|Hc]]]);
    try no_fault; try (exfalso; unfold off in *; lia).
  destruct Hc as [-> ->]; [unfold UINT_MOD; lia|].
  simpl. by rewrite to_int_small by lia.
Qed.

(** X3: the general result of [read_from_meta] on a container whose
    header passes the checks: for a slot recording a non-negative offset
    [off] and a size [size], the call stores the bytes of the file from
    [off] on, as many as the smallest of [sz], [size] and what the file
    holds beyond [off], and returns their number.  A container cut short
    within the payload of the tile yields a short tile, not an error. *)
Theorem read_from_meta_payload x y z sz w path slot data :
  opens_ok env -> reads_ok env ->
  xyz_to_meta x y z = (path, slot) -> w_fs w !! path = Some data ->
  header_valid METATILE data -> entry_read data slot ->
  0 <= recorded_offset data slot -> 0 <= recorded_size data slot ->
  0 <= sz < 2 ^ 31 ->
  let off := recorded_offset data slot in
  let size := recorded_size data slot in
  let n := Z.max 0 (Z.min (Z.min sz size) (Z.of_nat (length data) - off)) in
  fst (read_from_meta' x y z sz w) = (n, slice data off n) /\
  Z.of_nat (length (slice data off n)) = n.
Proof.
  intros Ho Hr Hxyz Hfs Hv Hentry Hoff Hsize Hsz off size n.
  assert (Hrun := read_from_meta_run x y z sz w path slot data
                    Ho Hr Hxyz Hfs Hv Hentry Hoff Hsz).
  cbv zeta in Hrun. fold off size in Hrun.
  assert (Hs : size < 2 ^ 31) by (apply to_int_range).
  assert (Hn : payload_len data off size sz = n).
  { unfold payload_len, n. rewrite to_size_t_small by lia. done. }
  rewrite Hn in Hrun. split; [done|].
  unfold slice. rewrite length_take, length_drop. unfold off in *. lia.
Qed.

(** X4: the header checks of [read_from_meta] in their order, with the
    value each returns: a file of fewer than 20 bytes gives -3; a longer
    one whose first four bytes are not the magic marker gives -4,
    whatever its count; one with the marker and another count than
    METATILE * METATILE gives -5.  Nothing is stored in the caller's
    buffer in any of these cases. *)
Theorem read_from_meta_header_checks x y z sz w path slot data :
  opens_ok env -> reads_ok env ->
  xyz_to_meta x y z = (path, slot) -> w_fs w !! path = Some data ->
  0 <= sz ->
  (Z.of_nat (length data) < sizeof_meta_layout ->
   fst (read_from_meta' x y z sz w) = (-3, [])) /\
  (sizeof_meta_layout <= Z.of_nat (length data) ->
   take (length META_MAGIC) data <> META_MAGIC ->
   fst (read_from_meta' x y z sz w) = (-4, [])) /\
  (sizeof_meta_layout <= Z.of_nat (length data) ->
   take (length META_MAGIC) data = META_MAGIC ->
   get_int data off_count <> to_int (METATILE * METATILE) ->
   fst (read_from_meta' x y z sz w) = (-5, [])).
Proof.
  intros Ho Hr Hxyz Hfs Hsz.
  assert (Hc := read_from_meta_cases METATILE xyz_to_meta env x y z sz w
                  path slot data Hxyz Hfs Hsz).
  destruct (read_from_meta' x y z sz w) as [[r out] w'].
  cbv zeta in Hc. simpl.
  assert (Hh : hdr_len data = Z.min HEADER_BUF (Z.of_nat (length data)))
    by reflexivity.
  unfold HEADER_BUF, sizeof_meta_layout in *.
  destruct Hc as [_ [Hc|[Hc|[Hc|[Hc|[Hc|Hc]]]]]]; try no_fault.
  - destruct Hc as (-> & -> & Hshort).
    split; [done|]. split; intros; exfalso; lia.
  - destruct Hc as (-> & -> & Hlong & Hbad).
    split; [intros; exfalso; lia|]. split; [done|].
    intros _ Hm. contradiction.
  - destruct Hc as (-> & -> & Hlong & Hm & Hbad).
    split; [intros; exfalso; lia|]. split; [|done].
    intros _ Hm'. contradiction.
  - destruct Hc as (Hlong & Hm & Hcnt & _).
    split; [intros; exfalso; lia|]. split; intros; contradiction.
Qed.

(** X5: [tile_read] changes no file, in any environment and for any
    arguments: reading is free of side effects on the store. *)
Theorem tile_read_changes_no_file x y z sz w :
  w_fs (snd (tile_read METATILE xyz_to_meta xyz_to_path env x y z sz w))
  = w_fs w.
Proof.
  unfold tile_read.
  assert (H1 := read_from_meta_world METATILE xyz_to_meta env x y z
                  (to_size_t sz) w).
  destruct (read_from_meta' x y z (to_size_t sz) w) as [[r buf1] w1].
  simpl in H1. destruct H1 as [H1 _].
  destruct (0 <=? r); [done|].
  assert (H2 := read_from_file_cases xyz_to_path env x y z (to_size_t sz) w1
                  (to_size_t_range _)).
  destruct (read_from_file' x y z (to_size_t sz) w1) as [[r2 buf2] w2].
  cbv zeta in H2. destruct H2 as [H2 _]. simpl. congruence.
Qed.

(** X6: a container with a valid header answers for its slots.  For a
    slot that records a non-negative offset, in any environment, either
    [tile_read] is the call of [read_from_meta] and nothing more, so that
    it returns what the slot's entry yields, also 0 bytes for an entry of
    size 0, and the standalone file of the tile is not even opened,
    whether it exists or not; or [read_from_meta] returned -1, -2 or -7
    because an [open] or a [read] failed.  Where neither fails, the
    container is what is served. *)
Theorem tile_read_container_first x y z sz w path slot data :
  xyz_to_meta x y z = (path, slot) -> w_fs w !! path = Some data ->
  header_valid METATILE data -> entry_read data slot ->
  0 <= recorded_offset data slot ->
  0 <= sz < 2 ^ 31 ->
  let off := recorded_offset data slot in
  let n := payload_len data off (recorded_size data slot) sz in
  let served :=
    tile_read' x y z sz w = read_from_meta' x y z sz w /\
    fst (tile_read' x y z sz w) = (n, slice data off n) in
  let r := fst (fst (read_from_meta' x y z sz w)) in
  (served \/
   r = -1 /\ ~ opens_ok env \/
   (r = -2 \/ r = -7) /\ ~ reads_ok env) /\
  (opens_ok env -> reads_ok env -> served).
Proof.
  intros Hxyz Hfs (Hlen & Hmagic & Hcount) Hentry Hoff Hsz off n served r.
  assert (Hc := read_from_meta_cases METATILE xyz_to_meta env x y z sz w
                  path slot data Hxyz Hfs (proj1 Hsz)).
  unfold served, r, tile_read. rewrite to_size_t_small by lia.
  destruct (read_from_meta' x y z sz w) as [[r0 out] w'].
  cbv zeta in Hc. simpl fst.
  destruct (recorded_entry_of_file env (w_clock w) data slot Hentry)
    as [Hro Hrs].
  rewrite Hro, Hrs in Hc. fold off in Hc. fold n in Hc.
  assert (Hn : 0 <= n <= sz) by (unfold n, payload_len; lia).
  destruct Hc as [_ [Hc|[Hc|[Hc|[Hc|[Hc|Hc]]]]]];
    try good_header; try (exfalso; lia).
  - destruct Hc as (-> & _ & Hbad).
    split; [by right; left | intros Ho; contradiction].
  - destruct Hc as (-> & _ & Hbad).
    split; [right; right; split; [by left | done] | intros _ Hr; contradiction].
  - destruct Hc as (_ & _ & _ & [Hc|[_ [Hc|Hc]]]);
      try (exfalso; unfold off in *; lia).
    + destruct Hc as (-> & Hbad).
      split; [right; right; split; [by right | done]
             | intros _ Hr; contradiction].
    + destruct Hc as [-> ->]; [unfold UINT_MOD; lia|].
      rewrite to_int_small by lia.
      destruct (Z.leb_spec 0 n); [|lia].
      split; [by left | done].
Qed.

(** Without a container [tile_read] is served by the standalone file. *)
Lemma tile_read_without_container x y z sz w :
  opens_ok env -> reads_ok env ->
  w_fs w !! fst (xyz_to_meta x y z) = None ->
  0 <= sz < 2 ^ 31 ->
  fst (tile_read' x y z sz w) =
  match w_fs w !! xyz_to_path x y z with
  | Some data =>
    let n := Z.min sz (Z.of_nat (length data)) in (n, slice data 0 n)
  | None => (-1, [])
  end.
Proof.
  intros Ho Hr Hmeta Hsz. unfold tile_read.
  rewrite to_size_t_small by lia.
  assert (Hm : exists w1, read_from_meta' x y z sz w = ((-1, []), w1) /\
                          w_fs w1 = w_fs w).
  { unfold read_from_meta, sys_open_rd.
    destruct (xyz_to_meta x y z) as [path slot]. simpl in Hmeta.
    rewrite Hmeta. by eexists. }
  destruct Hm as (w1 & -> & Hfs1). change (0 <=? -1) with false.
  cbv beta iota.
  destruct (w_fs w !! xyz_to_path x y z) as [data|] eqn:Hfile.
  - rewrite <- Hfs1 in Hfile.
    destruct (read_from_file_run x y z sz w1 data Ho Hr Hfile)
      as (w2 & -> & _); [unfold SIZE_MOD; lia|].
    cbv zeta. simpl fst. f_equal.
    + apply to_int_small. lia.
    + unfold blit. change (Z.to_nat 0) with 0%nat. rewrite take_0.
      simpl. by rewrite drop_nil, app_nil_r.
  - rewrite <- Hfs1 in Hfile. unfold read_from_file, sys_open_rd.
    rewrite Hfile. reflexivity.
Qed.

(** X7: where no container exists [tile_read] serves the standalone
    file: its first [min sz length] bytes and their number, or -1 with
    nothing stored when the tile has no file either. *)
Theorem tile_read_standalone x y z sz w :
  opens_ok env -> reads_ok env ->
  w_fs w !! fst (xyz_to_meta x y z) = None ->
  0 <= sz < 2 ^ 31 ->
  (forall data,
     w_fs w !! xyz_to_path x y z = Some data ->
     let n := Z.min sz (Z.of_nat (length data)) in
     fst (tile_read' x y z sz w) = (n, slice data 0 n)) /\
  (w_fs w !! xyz_to_path x y z = None ->
   fst (tile_read' x y z sz w) = (-1, [])).
Proof.
  intros Ho Hr Hmeta Hsz.
  assert (Ht := tile_read_without_container x y z sz w Ho Hr Hmeta Hsz).
  split.
  - intros data Hfile n. by rewrite Hfile in Ht.
  - intros Hfile. by rewrite Hfile in Ht.
Qed.

(** X8: a failing [read] is reported by both readers as -2, with nothing
    stored: by [read_from_meta] for every container file, since its
    header loop always reads, and by [read_from_file] for every capacity
    above 0. *)
Theorem read_fault_codes x y z sz w :
  opens_ok env -> (forall t, o_read env t < 0) ->
  (forall data, w_fs w !! fst (xyz_to_meta x y z) = Some data ->
                fst (read_from_meta' x y z sz w) = (-2, [])) /\
  (forall data, w_fs w !! xyz_to_path x y z = Some data -> 0 < sz ->
                fst (read_from_file' x y z sz w) = (-2, [])).
Proof.
  intros Ho Hr. split.
  - intros data Hfs. unfold read_from_meta, sys_open_rd.
    destruct (xyz_to_meta x y z) as [path slot]. simpl in Hfs.
    rewrite Hfs, Ho. unfold read_fuel. rewrite read_loop_S.
    change (0 <? HEADER_BUF) with true. cbv beta iota.
    unfold sys_read.
    destruct (Z.ltb_spec (o_read env (w_clock (tick w))) 0) as [_|Hge];
      [|specialize (Hr (w_clock (tick w))); lia].
    change (-1 <? 0) with true. done.
  - intros data Hfs Hsz. unfold read_from_file, sys_open_rd.
    rewrite Hfs, Ho. unfold read_fuel. rewrite read_loop_S.
    destruct (Z.ltb_spec 0 sz); [|lia]. unfold sys_read.
    destruct (Z.ltb_spec (o_read env (w_clock (tick w))) 0) as [_|Hge];
      [|specialize (Hr (w_clock (tick w))); lia].
    change (-1 <? 0) with true. done.
Qed.

End ReadingResults.

(** ** Packing: what is left behind, with and without faults *)

(** A container built by [process_meta] has a header that passes the
    checks of [read_from_meta] and holds every tile at its slot. *)
Lemma packed_container_holds METATILE slots ds x y z :
  header_size METATILE <= HEADER_BUF ->
  slots_in_table METATILE slots -> NoDup slots ->
  length ds = length slots ->
  header_size METATILE + total_len ds <= PACK_BUF_LEN ->
  let data := container_bytes METATILE slots ds x y z in
  header_valid METATILE data /\
  (forall k s d, slots !! k = Some s -> ds !! k = Some d ->
                 holds_tile data s d).
Proof.
  intros Hhdr Hslots Hnd Hls Hfit data.
  destruct (container_layout METATILE slots ds x y z Hslots Hnd Hls Hfit)
    as (L0 & L1 & L2 & _ & _ & _ & L6).
  fold data in L0, L1, L2, L6.
  assert (Hh := header_size_ge METATILE). unfold sizeof_meta_layout in Hh.
  assert (Htl := total_len_nonneg ds).
  assert (Hhl : header_size METATILE <= hdr_len data) by (unfold hdr_len; lia).
  split.
  { split; [unfold sizeof_meta_layout; lia | done]. }
  intros k s d Hs Hd.
  destruct (L6 k s d Hs Hd) as (E1 & E2 & E3).
  assert (Hin : 0 <= s < METATILE * METATILE).
  { unfold slots_in_table in Hslots. rewrite Forall_forall in Hslots.
    apply Hslots. by eapply list_elem_of_lookup_2. }
  destruct (entry_in_header METATILE _ Hin) as (H1 & H2 & H3).
  assert (Htk := total_len_nonneg (take k ds)).
  split; [|split; [|split]].
  - split; [lia|]. unfold sizeof_entry. lia.
  - rewrite E1. lia.
  - done.
  - rewrite E1. done.
Qed.

Section PackingResults.

Variable METATILE : Z.
Variable xyz_to_meta : Z -> Z -> Z -> string * Z.
Variable xyz_to_path : Z -> Z -> Z -> string.
Variable path_to_xyz : string -> option (Z * Z * Z).
Variable env : oracle.

Local Abbreviation read_from_meta' := (read_from_meta METATILE xyz_to_meta env).
Local Abbreviation tile_read' :=
  (tile_read METATILE xyz_to_meta xyz_to_path env).
Local Abbreviation pack_loop' := (pack_loop xyz_to_meta xyz_to_path env).
Local Abbreviation process_meta' :=
  (process_meta METATILE xyz_to_meta xyz_to_path env).
Local Abbreviation process_pack' :=
  (process_pack METATILE xyz_to_meta xyz_to_path path_to_xyz env).
Local Abbreviation hsz := (header_size METATILE).
Local Abbreviation buf0 := (repeat Byte.x00 (Z.to_nat hsz)).

Lemma length_work_buffer : Z.of_nat (length buf0) = hsz.
Proof.
  assert (Hh := header_size_ge METATILE). unfold sizeof_meta_layout in Hh.
  rewrite repeat_length. lia.
Qed.

(** A block with an absent or empty sub-tile is left as it is. *)
Lemma process_meta_gives_up x y z w :
  Exists (unreadable xyz_to_path w x y z) (sub_tiles METATILE z) ->
  w_fs (snd (process_meta' x y z w)) = w_fs w.
Proof.
  intros Hbad. unfold process_meta, sys_malloc.
  destruct (o_malloc env (w_clock w)); [|done].
  assert (Hnone := pack_loop_abort xyz_to_meta xyz_to_path env x y z
                     (sub_tiles METATILE z) buf0 hsz (tick w) Hbad).
  assert (Hfs := pack_loop_fs xyz_to_meta xyz_to_path env x y z
                   (sub_tiles METATILE z) buf0 hsz (tick w)).
  destruct (pack_loop' x y z (sub_tiles METATILE z) buf0 hsz (tick w))
    as [[[buf offset]|] w1]; [done|].
  done.
Qed.

(** Once every sub-tile was read, [process_meta] opens the container and
    hands the assembled bytes to the write loop; what follows depends on
    the writes alone. *)
Lemma process_meta_reaches_write x y z w ds :
  mallocs_ok env -> opens_ok env -> reads_ok env ->
  Forall2 (fun c d => w_fs w !! xyz_to_path (x + fst c) (y + snd c) z = Some d
                      /\ d <> []) (sub_tiles METATILE z) ds ->
  hsz + total_len ds <= PACK_BUF_LEN ->
  slots_in_table METATILE (tile_slots xyz_to_meta x y z (sub_tiles METATILE z)) ->
  let meta := fst (xyz_to_meta x y z) in
  let data := container_bytes METATILE
                (tile_slots xyz_to_meta x y z (sub_tiles METATILE z)) ds x y z in
  let len := hsz + total_len ds in
  exists w1,
    w_fs w1 = w_fs w /\
    Z.of_nat (length data) = len /\
    process_meta' x y z w =
    match write_loop env (write_fuel len) meta data 0 len
            (set_fs (<[meta := []]> (w_fs w1)) (tick w1)) with
    | (false, w3) => (tt, emit PerrorWritingFile w3)
    | (true, w3) =>
      (tt, unlink_loop xyz_to_path env x y z (sub_tiles METATILE z)
             (emit (ProducedMeta meta) w3))
    end.
Proof.
  intros Hm Ho Hr Hall Hfit Hslots meta data len.
  unfold process_meta, sys_malloc. rewrite Hm.
  assert (Hfs := pack_loop_fs xyz_to_meta xyz_to_path env x y z
                   (sub_tiles METATILE z) buf0 hsz (tick w)).
  assert (Hh := header_size_ge METATILE). unfold sizeof_meta_layout in Hh.
  assert (Hok := pack_loop_ok METATILE xyz_to_meta xyz_to_path env x y z
                   (sub_tiles METATILE z) ds buf0 hsz (tick w) Ho Hr Hall
                   length_work_buffer ltac:(lia) Hfit Hslots).
  destruct (pack_loop' x y z (sub_tiles METATILE z) buf0 hsz (tick w))
    as [res w1]. simpl in Hfs, Hok. subst res.
  exists w1. split; [done|].
  assert (Hla : Z.of_nat (length (assemble
                  (tile_slots xyz_to_meta x y z (sub_tiles METATILE z)) ds
                  buf0 hsz)) = hsz + total_len ds).
  { apply (length_assemble METATILE); [apply length_work_buffer | lia | done |].
    unfold tile_slots. rewrite length_map. symmetry.
    eapply Forall2_length, Hall. }
  assert (Htl := total_len_nonneg ds).
  split.
  { unfold data, container_bytes. rewrite length_stamp_header; [done|].
    unfold sizeof_meta_layout. lia. }
  unfold sys_open_wr. rewrite Ho. reflexivity.
Qed.

(** X9: packing is invisible to [tile_read]: after a fault-free
    [process_meta] every sub-tile of the block is served from the
    container with the bytes its standalone file held, cut to the
    caller's capacity; where no container existed beforehand, this is
    what [tile_read] returned before the block was packed. *)
Theorem tile_read_after_pack x y z w ds k c d sz :
  let cs := sub_tiles METATILE z in
  let meta := fst (xyz_to_meta x y z) in
  mallocs_ok env -> opens_ok env -> reads_ok env -> writes_ok env ->
  unlinks_ok env ->
  hsz <= HEADER_BUF ->
  (forall c, c ∈ cs -> fst (xyz_to_meta (x + fst c) (y + snd c) z) = meta) ->
  slots_in_table METATILE (tile_slots xyz_to_meta x y z cs) ->
  NoDup (tile_slots xyz_to_meta x y z cs) ->
  meta ∉ tile_paths xyz_to_path x y z cs ->
  Forall2 (fun c d => w_fs w !! xyz_to_path (x + fst c) (y + snd c) z = Some d
                      /\ d <> []) cs ds ->
  hsz + total_len ds <= PACK_BUF_LEN ->
  cs !! k = Some c -> ds !! k = Some d ->
  0 <= sz < 2 ^ 31 ->
  let n := Z.min sz (Z.of_nat (length d)) in
  fst (tile_read' (x + fst c) (y + snd c) z sz (snd (process_meta' x y z w)))
    = (n, slice d 0 n) /\
  (w_fs w !! meta = None ->
   fst (tile_read' (x + fst c) (y + snd c) z sz w) = (n, slice d 0 n)).
Proof.
  intros cs meta Hm Ho Hr Hw Hu Hhdr Hsame Hslots Hnd Hmeta Hall Hfit
    Hc Hd Hsz n.
  assert (Hin : c ∈ cs) by (by eapply list_elem_of_lookup_2).
  assert (Hpath := Hsame c Hin).
  destruct (Forall2_lookup_lr _ _ _ _ _ _ Hall Hc Hd) as [Hfile Hne].
  assert (Htl := total_len_nonneg (take k ds)).
  assert (Hdk : total_len (take k ds) + Z.of_nat (length d) <= total_len ds).
  { rewrite <- (total_len_take_S k ds d Hd). apply total_len_take_le. }
  assert (Hh := header_size_ge METATILE). unfold sizeof_meta_layout in Hh.
  assert (Hsmall : Z.of_nat (length d) < 2 ^ 31)
    by (unfold PACK_BUF_LEN in Hfit; lia).
  split.
  - set (w1 := snd (process_meta' x y z w)).
    assert (Hls : length ds = length (tile_slots xyz_to_meta x y z cs)).
    { unfold tile_slots. rewrite length_map. symmetry.
      eapply Forall2_length, Hall. }
    destruct (packed_container_holds METATILE _ ds x y z Hhdr Hslots Hnd Hls
                Hfit) as [Hvalid Hholds].
    assert (Hfs1 : w_fs w1 !! meta
                   = Some (container_bytes METATILE
                             (tile_slots xyz_to_meta x y z cs) ds x y z)).
    { unfold w1.
      rewrite (process_meta_ok METATILE xyz_to_meta xyz_to_path env x y z w ds)
        by done.
      rewrite decide_False by done. by rewrite decide_True. }
    destruct (xyz_to_meta (x + fst c) (y + snd c) z) as [path slot] eqn:Hxyz.
    simpl in Hpath. subst path.
    assert (Hsk : tile_slots xyz_to_meta x y z cs !! k = Some slot)
      by (unfold tile_slots; rewrite list_lookup_fmap, Hc; simpl;
          by rewrite Hxyz).
    destruct (read_tile_ok METATILE xyz_to_meta env (x + fst c) (y + snd c) z
                sz w1 meta slot _ d Ho Hr Hxyz Hfs1 Hvalid
                (Hholds k slot d Hsk Hd) (proj1 Hsz) Hsmall) as [Hres _].
    fold n in Hres. unfold tile_read. rewrite to_size_t_small by lia.
    destruct (read_from_meta' (x + fst c) (y + snd c) z sz w1)
      as [[r b] w2]. simpl in Hres. injection Hres as -> ->.
    destruct (Z.leb_spec 0 n); [done | lia].
  - intros Habsent. rewrite <- Hpath in Habsent.
    rewrite (tile_read_without_container METATILE xyz_to_meta xyz_to_path env
               _ _ _ sz w Ho Hr Habsent Hsz).
    by rewrite Hfile.
Qed.

(** X10: [process_meta] changes no file when the work buffer cannot be
    allocated or when the container cannot be created: the tiles it read
    stay where they are. *)
Theorem process_meta_refused x y z w :
  let w1 := snd (pack_loop' x y z (sub_tiles METATILE z) buf0 hsz
                   (snd (sys_malloc env w))) in
  o_malloc env (w_clock w) = false \/ o_open env (w_clock w1) = false ->
  w_fs (snd (process_meta' x y z w)) = w_fs w.
Proof.
  intros w1 Hbad. unfold process_meta. unfold sys_malloc in *. simpl in w1.
  assert (Hfs := pack_loop_fs xyz_to_meta xyz_to_path env x y z
                   (sub_tiles METATILE z) buf0 hsz (tick w)).
  destruct (o_malloc env (w_clock w)) eqn:Hmalloc; [|done].
  destruct Hbad as [Hbad|Hbad]; [done|]. subst w1.
  destruct (pack_loop' x y z (sub_tiles METATILE z) buf0 hsz (tick w))
    as [[[buf offset]|] w2]; [|done].
  simpl in Hbad, Hfs. unfold sys_open_wr. rewrite Hbad. done.
Qed.

(** X11: when the writes to the container fail, [process_meta] stops
    before the removal loop: every standalone tile is still there, and the
    container, created and truncated by [open], is left empty. *)
Theorem process_meta_write_error_keeps_tiles x y z w ds :
  mallocs_ok env -> opens_ok env -> reads_ok env ->
  (forall t, o_write env t < 0) ->
  Forall2 (fun c d => w_fs w !! xyz_to_path (x + fst c) (y + snd c) z = Some d
                      /\ d <> []) (sub_tiles METATILE z) ds ->
  hsz + total_len ds <= PACK_BUF_LEN ->
  slots_in_table METATILE (tile_slots xyz_to_meta x y z (sub_tiles METATILE z)) ->
  w_fs (snd (process_meta' x y z w)) = <[fst (xyz_to_meta x y z) := []]> (w_fs w).
Proof.
  intros Hm Ho Hr Hw Hall Hfit Hslots.
  destruct (process_meta_reaches_write x y z w ds Hm Ho Hr Hall Hfit Hslots)
    as (w1 & Hfs1 & _ & ->).
  assert (Hh := header_size_ge METATILE). unfold sizeof_meta_layout in Hh.
  assert (Htl := total_len_nonneg ds).
  unfold write_fuel. rewrite write_loop_S.
  destruct (Z.ltb_spec 0 (hsz + total_len ds)); [|lia].
  cbv zeta. unfold sys_write. simpl w_clock.
  destruct (Z.ltb_spec (o_write env (S (w_clock w1))) 0) as [_|Hge];
    [|specialize (Hw (S (w_clock w1))); lia].
  change (-1 <? 0) with true. cbv beta iota. simpl. by rewrite Hfs1.
Qed.

(** X12: a write that takes no byte ends the write loop without an
    error, and [process_meta] goes on as after a complete write: it
    reports the container as produced and removes the standalone tiles.
    The container is then empty and the tiles of the block are gone. *)
Theorem process_meta_zero_write_drops_tiles x y z w ds p :
  mallocs_ok env -> opens_ok env -> reads_ok env -> unlinks_ok env ->
  (forall t, o_write env t = 0) ->
  Forall2 (fun c d => w_fs w !! xyz_to_path (x + fst c) (y + snd c) z = Some d
                      /\ d <> []) (sub_tiles METATILE z) ds ->
  hsz + total_len ds <= PACK_BUF_LEN ->
  slots_in_table METATILE (tile_slots xyz_to_meta x y z (sub_tiles METATILE z)) ->
  w_fs (snd (process_meta' x y z w)) !! p =
  if decide (p ∈ tile_paths xyz_to_path x y z (sub_tiles METATILE z)) then None
  else if decide (p = fst (xyz_to_meta x y z)) then Some []
       else w_fs w !! p.
Proof.
  intros Hm Ho Hr Hu Hw Hall Hfit Hslots.
  destruct (process_meta_reaches_write x y z w ds Hm Ho Hr Hall Hfit Hslots)
    as (w1 & Hfs1 & _ & ->).
  assert (Hh := header_size_ge METATILE). unfold sizeof_meta_layout in Hh.
  assert (Htl := total_len_nonneg ds).
  unfold write_fuel. rewrite write_loop_S.
  destruct (Z.ltb_spec 0 (hsz + total_len ds)); [|lia].
  cbv zeta. unfold sys_write. simpl w_clock. rewrite Hw.
  change (0 <? 0) with false. cbv beta iota.
  replace (Z.min (Z.min 0 _) MAX_RW_COUNT) with 0
    by (unfold MAX_RW_COUNT; lia).
  change (0 <? 0) with false. cbv beta iota. simpl snd.
  rewrite unlink_loop_ok by done. simpl w_fs.
  rewrite lookup_insert_eq. simpl default. rewrite take_0.
  rewrite insert_insert_eq. rewrite Hfs1.
  destruct (decide (p ∈ _)); [done|].
  destruct (decide (p = _)) as [->|Hne].
  - apply lookup_insert_eq.
  - by rewrite lookup_insert_ne.
Qed.

(** X13: the sub-tile loop of [process_meta] never fills the work buffer
    beyond its 10 MiB, in any environment and whatever the sizes of the
    tiles: whenever the loop completes, the bytes gathered are exactly
    those below the write cursor, and the cursor lies within the
    buffer. *)
Theorem pack_loop_within_buffer x y z w buf offset w' :
  hsz <= PACK_BUF_LEN ->
  slots_in_table METATILE (tile_slots xyz_to_meta x y z (sub_tiles METATILE z)) ->
  pack_loop' x y z (sub_tiles METATILE z) buf0 hsz w = (Some (buf, offset), w') ->
  Z.of_nat (length buf) = offset /\ hsz <= offset <= PACK_BUF_LEN.
Proof.
  intros Hfit Hslots Hrun.
  assert (Hh := header_size_ge METATILE). unfold sizeof_meta_layout in Hh.
  destruct (pack_loop_some METATILE xyz_to_meta xyz_to_path env x y z _ buf0
              hsz w buf offset w' Hrun length_work_buffer ltac:(lia) Hslots)
    as (ds & Hl & Hpos & -> & -> & Hle).
  assert (Htl := total_len_nonneg ds).
  split; [|lia].
  apply (length_assemble METATILE); [apply length_work_buffer | lia | done |].
  unfold tile_slots. by rewrite length_map.
Qed.

(** X14: [process_pack] packs a block once.  Run again on the same name
    after a fault-free pack it changes no file: the tiles are gone, so
    the second run gives up at the first of them and the container
    stays. *)
Theorem process_pack_twice name x y z w ds :
  path_to_xyz name = Some (x, y, z) ->
  snd (xyz_to_meta x y z) = 0 ->
  mallocs_ok env -> opens_ok env -> reads_ok env -> writes_ok env ->
  unlinks_ok env ->
  Forall2 (fun c d => w_fs w !! xyz_to_path (x + fst c) (y + snd c) z = Some d
                      /\ d <> []) (sub_tiles METATILE z) ds ->
  hsz + total_len ds <= PACK_BUF_LEN ->
  slots_in_table METATILE (tile_slots xyz_to_meta x y z (sub_tiles METATILE z)) ->
  process_pack' name w = process_meta' x y z w /\
  w_fs (snd (process_pack' name (snd (process_pack' name w)))) =
  w_fs (snd (process_pack' name w)).
Proof.
  intros Hname Hslot Hm Ho Hr Hw Hu Hall Hfit Hslots.
  assert (Hpack : forall w0, process_pack' name w0 = process_meta' x y z w0).
  { intros w0. unfold process_pack. rewrite Hname, Hslot. reflexivity. }
  split; [apply Hpack|]. rewrite !Hpack.
  set (w1 := snd (process_meta' x y z w)).
  assert (Hok := fun p => process_meta_ok METATILE xyz_to_meta xyz_to_path env
                            x y z w ds p Hm Ho Hr Hw Hu Hall Hfit Hslots).
  fold w1 in Hok.
  destruct (sub_tiles METATILE z) as [|c cs] eqn:Hcs.
  - apply Forall2_nil_inv_l in Hall as Hds. subst ds.
    apply map_eq. intros p.
    rewrite (process_meta_ok METATILE xyz_to_meta xyz_to_path env x y z w1 [] p);
      rewrite ?Hcs; try done.
    rewrite Hok. unfold tile_paths. simpl.
    destruct (decide (p ∈ [])) as [Hin|_]; [by apply elem_of_nil in Hin|].
    by destruct (decide (p = _)).
  - apply process_meta_gives_up. rewrite Hcs. apply Exists_cons_hd. left.
    rewrite Hok. rewrite decide_True; [done|].
    unfold tile_paths. simpl. left.
Qed.

End PackingResults.

(** ** Writing a tile and expanding a container, with and without faults *)

(** Tiles written to distinct paths are all there afterwards. *)
Lemma unpacked_fs_at paths ds fs (k : nat) (p : string) (d : bytes) :
  NoDup paths -> paths !! k = Some p -> ds !! k = Some d ->
  unpacked_fs paths ds fs !! p = Some (unpacked d).
Proof.
  intros Hnd. revert ds fs k.
  induction Hnd as [|q paths Hq Hnd IH]; intros ds fs k Hp Hd; [done|].
  destruct ds as [|e ds]; [done|]. simpl.
  destruct k as [|k]; simpl in Hp, Hd.
  - injection Hp as ->. injection Hd as ->.
    rewrite unpacked_fs_frame by done. apply lookup_insert_eq.
  - by eapply IH.
Qed.

Section WritingResults.

Variable xyz_to_path : Z -> Z -> Z -> string.
Variable env : oracle.

(** Whatever the environment does, the write loop appends to the file a
    part of [buf[pos .. lim)] that starts at [pos]. *)
Lemma write_loop_prefix fuel path (buf : bytes) pos lim w (old : bytes) :
  w_fs w !! path = Some old -> 0 <= pos ->
  exists k,
    0 <= k <= Z.max 0 (lim - pos) /\
    w_fs (snd (write_loop env fuel path buf pos lim w)) =
    <[path := old ++ slice buf pos k]> (w_fs w).
Proof.
  revert pos w old. induction fuel as [|fuel IH]; intros pos w old Hold Hpos.
  { exists 0. split; [lia|]. simpl. unfold slice. rewrite take_0, app_nil_r.
    by rewrite insert_id. }
  rewrite write_loop_S. destruct (Z.ltb_spec pos lim) as [Hlt|Hge].
  2:{ exists 0. split; [lia|]. simpl. unfold slice.
      rewrite take_0, app_nil_r. by rewrite insert_id. }
  fold (slice buf pos (lim - pos)). cbv zeta.
  unfold sys_write.
  destruct (Z.ltb_spec (o_write env (w_clock w)) 0) as [Hneg|Hnn].
  { change (-1 <? 0) with true. cbv beta iota.
    exists 0. split; [lia|]. simpl. unfold slice.
    rewrite take_0, app_nil_r. by rewrite insert_id. }
  rewrite Hold. simpl default.
  set (n := Z.min (Z.min (o_write env (w_clock w))
                     (Z.of_nat (length (slice buf pos (lim - pos)))))
                  MAX_RW_COUNT).
  assert (Hsl : Z.of_nat (length (slice buf pos (lim - pos))) <= lim - pos).
  { unfold slice. rewrite length_take. lia. }
  assert (Hn : 0 <= n <= lim - pos) by (unfold MAX_RW_COUNT in n; lia).
  assert (Htake : take (Z.to_nat n) (slice buf pos (lim - pos))
                  = slice buf pos n) by (apply take_slice; lia).
  destruct (Z.ltb_spec n 0); [lia|].
  destruct (Z.ltb_spec 0 n) as [Hp|Hz].
  - edestruct (IH (pos + n)) as (k & Hk & ->);
      [simpl; apply lookup_insert_eq | lia |].
    exists (n + k). split; [lia|]. simpl.
    rewrite insert_insert_eq. f_equal.
    rewrite <- app_assoc. f_equal. rewrite Htake.
    rewrite (slice_split buf pos n (n + k)) by lia.
    do 2 f_equal. lia.
  - exists 0. split; [lia|]. simpl. replace n with 0 by lia.
    by rewrite take_0.
Qed.

(** When every write fails, [write_tile] leaves the file it created
    empty. *)
Lemma write_tile_no_space x y z buf sz w :
  opens_ok env -> (forall t, o_write env t < 0) ->
  w_fs (snd (write_tile xyz_to_path env x y z buf sz w)) =
  <[xyz_to_path x y z := []]> (w_fs w).
Proof.
  intros Ho Hw. unfold write_tile, sys_open_wr. rewrite Ho.
  unfold write_fuel. rewrite write_loop_S.
  destruct (Z.ltb_spec 0 sz); [|done].
  cbv zeta. unfold sys_write. simpl w_clock.
  destruct (Z.ltb_spec (o_write env (S (w_clock w))) 0) as [_|Hge];
    [|specialize (Hw (S (w_clock w))); lia].
  change (-1 <? 0) with true. done.
Qed.

(** X15: in any environment [write_tile] touches the file of its tile
    only, and leaves there either what was there (when the file could not
    be opened) or an initial part of the [sz] bytes it was given: never
    other bytes, never more.  Where no call fails it is all [sz] bytes. *)
Theorem write_tile_prefix x y z (buf : bytes) sz w :
  let path := xyz_to_path x y z in
  let fs' := w_fs (snd (write_tile xyz_to_path env x y z buf sz w)) in
  (forall p, p <> path -> fs' !! p = w_fs w !! p) /\
  (fs' !! path = w_fs w !! path \/
   exists k, 0 <= k <= Z.max 0 sz /\ fs' !! path = Some (slice buf 0 k)) /\
  (opens_ok env -> writes_ok env -> 0 <= sz <= Z.of_nat (length buf) ->
   fs' !! path = Some (slice buf 0 sz)).
Proof.
  intros path fs'. split; [|split].
  - intros p Hp. by apply write_tile_frame.
  - unfold fs', write_tile, sys_open_wr. fold path.
    destruct (o_open env (w_clock w)); [|by left].
    right.
    destruct (write_loop_prefix (write_fuel sz) path buf 0 sz
                (set_fs (<[path := []]> (w_fs w)) (tick w)) [])
      as (k & Hk & Hfs); [simpl; apply lookup_insert_eq | lia |].
    exists k. split; [lia|].
    destruct (write_loop env (write_fuel sz) path buf 0 sz _) as [[|] w2];
      simpl in *; rewrite Hfs; apply lookup_insert_eq.
  - intros Ho Hw Hsz. unfold fs'.
    rewrite (write_tile_ok env x y z buf sz w xyz_to_path Ho Hw Hsz).
    apply lookup_insert_eq.
Qed.

End WritingResults.

Section UnpackingResults.

Variable METATILE : Z.
Variable xyz_to_meta : Z -> Z -> Z -> string * Z.
Variable xyz_to_path : Z -> Z -> Z -> string.
Variable path_to_xyz : string -> option (Z * Z * Z).
Variable env : oracle.

Local Abbreviation read_from_meta' := (read_from_meta METATILE xyz_to_meta env).
Local Abbreviation unpack_loop' :=
  (unpack_loop METATILE xyz_to_meta xyz_to_path env).
Local Abbreviation process_unpack' :=
  (process_unpack METATILE xyz_to_meta xyz_to_path path_to_xyz env).
Local Abbreviation process_meta' :=
  (process_meta METATILE xyz_to_meta xyz_to_path env).
Local Abbreviation hsz := (header_size METATILE).

(** Without the container no sub-tile is read and none is written. *)
Lemma unpack_loop_absent x y z cs buf w meta :
  (forall c, c ∈ cs -> fst (xyz_to_meta (x + fst c) (y + snd c) z) = meta) ->
  w_fs w !! meta = None ->
  w_fs (snd (unpack_loop' x y z cs buf w)) = w_fs w.
Proof.
  intros Hsame. revert buf w.
  induction cs as [|[ox oy] cs IH]; intros buf w Hfs; [done|].
  rewrite unpack_loop_cons.
  assert (Hpath := Hsame (ox, oy) ltac:(left)). simpl in Hpath.
  unfold read_from_meta, sys_open_rd.
  destruct (xyz_to_meta (x + ox) (y + oy) z) as [path slot].
  simpl in Hpath. subst path. rewrite Hfs.
  change (-1 <=? 0) with true. cbv beta iota zeta.
  rewrite IH; [done | | done].
  intros c Hc. apply Hsame. by right.
Qed.

(** The container path is free after [process_unpack], once the staging
    buffer was allocated and [unlink] was not refused. *)
Lemma process_unpack_frees_container name x y z w :
  path_to_xyz name = Some (x, y, z) ->
  mallocs_ok env -> unlinks_ok env ->
  w_fs (snd (process_unpack' name w)) !! fst (xyz_to_meta x y z) = None.
Proof.
  intros Hname Hm Hu. unfold process_unpack. rewrite Hname.
  unfold sys_malloc. rewrite Hm.
  destruct (unpack_loop' x y z (sub_tiles METATILE z) [] (tick w)) as [b w1].
  assert (Hl := sys_unlink_ok env (fst (xyz_to_meta x y z)) w1
                  (fst (xyz_to_meta x y z)) Hu).
  rewrite decide_True in Hl by done.
  destruct (sys_unlink env (fst (xyz_to_meta x y z)) w1) as [ok w2].
  simpl in Hl. by destruct ok.
Qed.

(** [process_unpack] without a container to expand. *)
Lemma process_unpack_nothing name x y z w :
  path_to_xyz name = Some (x, y, z) ->
  (forall c, c ∈ sub_tiles METATILE z ->
             fst (xyz_to_meta (x + fst c) (y + snd c) z)
             = fst (xyz_to_meta x y z)) ->
  w_fs w !! fst (xyz_to_meta x y z) = None ->
  w_fs (snd (process_unpack' name w)) = w_fs w.
Proof.
  intros Hname Hsame Habsent. unfold process_unpack. rewrite Hname.
  unfold sys_malloc. destruct (o_malloc env (w_clock w)); [|done].
  assert (Hl := unpack_loop_absent x y z (sub_tiles METATILE z) [] (tick w)
                  _ Hsame Habsent).
  destruct (unpack_loop' x y z (sub_tiles METATILE z) [] (tick w)) as [b w1].
  simpl in Hl. unfold sys_unlink. rewrite Hl, Habsent. done.
Qed.

(** X16: [process_unpack] changes no file when its staging buffer cannot
    be allocated, in which case the container is kept, and when there is
    no container at the block's path: then every sub-tile read fails, no
    tile is written and the failing [unlink] is only reported. *)
Theorem process_unpack_leaves_files name x y z w :
  path_to_xyz name = Some (x, y, z) ->
  o_malloc env (w_clock w) = false \/
  ((forall c, c ∈ sub_tiles METATILE z ->
              fst (xyz_to_meta (x + fst c) (y + snd c) z)
              = fst (xyz_to_meta x y z)) /\
   w_fs w !! fst (xyz_to_meta x y z) = None) ->
  w_fs (snd (process_unpack' name w)) = w_fs w.
Proof.
  intros Hname [Hmalloc|[Hsame Habsent]].
  - unfold process_unpack. rewrite Hname. unfold sys_malloc.
    by rewrite Hmalloc.
  - by apply (process_unpack_nothing name x y z).
Qed.

(** X17: expanding twice is expanding once: the first run removes the
    container, whatever it could read from it, so the second run finds
    nothing to expand and changes no file. *)
Theorem process_unpack_twice name x y z w :
  path_to_xyz name = Some (x, y, z) ->
  mallocs_ok env -> unlinks_ok env ->
  (forall c, c ∈ sub_tiles METATILE z ->
             fst (xyz_to_meta (x + fst c) (y + snd c) z)
             = fst (xyz_to_meta x y z)) ->
  w_fs (snd (process_unpack' name (snd (process_unpack' name w)))) =
  w_fs (snd (process_unpack' name w)).
Proof.
  intros Hname Hm Hu Hsame.
  apply (process_unpack_nothing name x y z); [done | done |].
  by apply process_unpack_frees_container.
Qed.

(** X18: [process_unpack] on any container with a valid header, written
    by [process_meta] or not: every tile the container holds at the slot
    of a sub-tile is written to the standalone path of that sub-tile, as
    much of it as the staging buffer takes, and the container is
    removed. *)
Theorem process_unpack_writes_tiles name x y z w ds data :
  let cs := sub_tiles METATILE z in
  let meta := fst (xyz_to_meta x y z) in
  path_to_xyz name = Some (x, y, z) ->
  mallocs_ok env -> opens_ok env -> reads_ok env -> writes_ok env ->
  unlinks_ok env ->
  w_fs w !! meta = Some data ->
  header_valid METATILE data ->
  NoDup (tile_paths xyz_to_path x y z cs) ->
  Forall2 (fun c d =>
             fst (xyz_to_meta (x + fst c) (y + snd c) z) = meta /\
             xyz_to_path (x + fst c) (y + snd c) z <> meta /\
             holds_tile data (snd (xyz_to_meta (x + fst c) (y + snd c) z)) d /\
             0 < Z.of_nat (length d) < 2 ^ 31) cs ds ->
  let fs' := w_fs (snd (process_unpack' name w)) in
  fs' !! meta = None /\
  (forall k c d, cs !! k = Some c -> ds !! k = Some d ->
     fs' !! xyz_to_path (x + fst c) (y + snd c) z = Some (unpacked d) /\
     (Z.of_nat (length d) <= UNPACK_BUF_LEN -> unpacked d = d)).
Proof.
  intros cs meta Hname Hm Ho Hr Hw Hu Hfs Hv Hnd Hall fs'.
  assert (Hok := process_unpack_ok METATILE xyz_to_meta xyz_to_path
                   path_to_xyz env name x y z w ds data Hname Hm Ho Hr Hw Hu
                   Hfs Hv Hall).
  fold cs meta fs' in Hok. split.
  - rewrite Hok. apply lookup_delete_eq.
  - intros k c d Hc Hd. split; [|apply unpacked_small].
    destruct (Forall2_lookup_lr _ _ _ _ _ _ Hall Hc Hd) as (_ & Hne & _).
    rewrite Hok, lookup_delete_ne by done.
    apply (unpacked_fs_at _ _ _ k); [done | | done].
    unfold tile_paths. by rewrite list_lookup_fmap, Hc.
Qed.

(** The loop of [process_unpack] when every write fails: each sub-tile
    the container holds ends as an empty file. *)
Lemma unpack_loop_no_space x y z cs ds (buf : bytes) w meta data p :
  opens_ok env -> reads_ok env -> (forall t, o_write env t < 0) ->
  w_fs w !! meta = Some data ->
  header_valid METATILE data ->
  Forall2 (fun c d =>
             fst (xyz_to_meta (x + fst c) (y + snd c) z) = meta /\
             xyz_to_path (x + fst c) (y + snd c) z <> meta /\
             holds_tile data (snd (xyz_to_meta (x + fst c) (y + snd c) z)) d /\
             0 < Z.of_nat (length d) < 2 ^ 31) cs ds ->
  w_fs (snd (unpack_loop' x y z cs buf w)) !! p =
  if decide (p ∈ tile_paths xyz_to_path x y z cs) then Some []
  else w_fs w !! p.
Proof.
  intros Ho Hr Hw Hfs Hv Hall. revert buf w Hfs.
  induction Hall as [|[ox oy] d cs ds (Hpath & Hne & Hhold & Hd) Hall IH];
    intros buf w Hfs.
  { destruct (decide (p ∈ tile_paths xyz_to_path x y z [])) as [Hin|_];
      [by apply elem_of_nil in Hin | done]. }
  simpl in Hpath, Hne, Hhold.
  rewrite unpack_loop_cons.
  destruct (xyz_to_meta (x + ox) (y + oy) z) as [path slot] eqn:Hxyz.
  simpl in Hpath, Hhold. subst path.
  destruct (read_tile_ok METATILE xyz_to_meta env (x + ox) (y + oy) z
              (to_size_t UNPACK_BUF_LEN) w meta slot data d Ho Hr Hxyz Hfs Hv
              Hhold (proj1 (to_size_t_range _)) (proj2 Hd)) as [Hres Hfs1].
  destruct (read_from_meta' (x + ox) (y + oy) z (to_size_t UNPACK_BUF_LEN) w)
    as [[len out] w1].
  simpl in Hres, Hfs1. injection Hres as -> ->.
  cbv zeta.
  rewrite to_size_t_small by (unfold UNPACK_BUF_LEN; lia).
  destruct (Z.leb_spec (Z.min UNPACK_BUF_LEN (Z.of_nat (length d))) 0);
    [unfold UNPACK_BUF_LEN in *; lia|].
  set (w2 := snd (write_tile xyz_to_path env (x + ox) (y + oy) z _ _ w1)).
  assert (Hfs2 : w_fs w2 = <[xyz_to_path (x + ox) (y + oy) z := []]> (w_fs w)).
  { unfold w2. rewrite write_tile_no_space by done. by rewrite Hfs1. }
  rewrite IH by (rewrite Hfs2, lookup_insert_ne; done).
  rewrite Hfs2. unfold tile_paths. simpl.
  fold (tile_paths xyz_to_path x y z cs).
  destruct (decide (p ∈ tile_paths xyz_to_path x y z cs)) as [Hin|Hnin].
  - rewrite decide_True; [done|]. by right.
  - destruct (decide (p = xyz_to_path (x + ox) (y + oy) z)) as [->|Hp].
    + rewrite decide_True by left. apply lookup_insert_eq.
    + rewrite decide_False.
      * by rewrite lookup_insert_ne.
      * intros [?|?]%elem_of_cons; done.
Qed.

(** X19: [process_unpack] does not learn of failed writes.  When every
    write fails, each sub-tile the container holds is left as an empty
    file, which [open] created, and the container is removed all the
    same: its tiles are lost. *)
Theorem process_unpack_no_space name x y z w ds data p :
  let cs := sub_tiles METATILE z in
  let meta := fst (xyz_to_meta x y z) in
  path_to_xyz name = Some (x, y, z) ->
  mallocs_ok env -> opens_ok env -> reads_ok env -> unlinks_ok env ->
  (forall t, o_write env t < 0) ->
  w_fs w !! meta = Some data ->
  header_valid METATILE data ->
  Forall2 (fun c d =>
             fst (xyz_to_meta (x + fst c) (y + snd c) z) = meta /\
             xyz_to_path (x + fst c) (y + snd c) z <> meta /\
             holds_tile data (snd (xyz_to_meta (x + fst c) (y + snd c) z)) d /\
             0 < Z.of_nat (length d) < 2 ^ 31) cs ds ->
  w_fs (snd (process_unpack' name w)) !! p =
  if decide (p = meta) then None
  else if decide (p ∈ tile_paths xyz_to_path x y z cs) then Some []
       else w_fs w !! p.
Proof.
  intros cs meta Hname Hm Ho Hr Hu Hw Hfs Hv Hall.
  unfold process_unpack. rewrite Hname. unfold sys_malloc. rewrite Hm.
  assert (Hl := unpack_loop_no_space x y z cs ds [] (tick w) meta data p
                  Ho Hr Hw Hfs Hv Hall).
  fold cs meta.
  destruct (unpack_loop' x y z cs [] (tick w)) as [b w1]. simpl in Hl.
  assert (Hk := sys_unlink_ok env meta w1 p Hu).
  destruct (sys_unlink env meta w1) as [ok w2]. simpl in Hk.
  replace (w_fs (snd (tt, if ok then w2 else emit (PerrorUnlink meta) w2)))
    with (w_fs w2) by (by destruct ok).
  rewrite Hk. destruct (decide (p = meta)); [done|]. exact Hl.
Qed.

(** X20: the round trip from the container's side.  From a container as
    [process_meta] writes it, whose tiles each fit the staging buffer of
    [process_unpack], with none of the standalone tiles present,
    expanding the block and packing it again restores the file system:
    the same container, byte for byte, and no standalone tile. *)
Theorem unpack_pack_roundtrip name x y z w ds :
  let cs := sub_tiles METATILE z in
  let meta := fst (xyz_to_meta x y z) in
  path_to_xyz name = Some (x, y, z) ->
  mallocs_ok env -> opens_ok env -> reads_ok env -> writes_ok env ->
  unlinks_ok env ->
  hsz <= HEADER_BUF ->
  (forall c, c ∈ cs -> fst (xyz_to_meta (x + fst c) (y + snd c) z) = meta) ->
  slots_in_table METATILE (tile_slots xyz_to_meta x y z cs) ->
  NoDup (tile_slots xyz_to_meta x y z cs) ->
  NoDup (tile_paths xyz_to_path x y z cs) ->
  meta ∉ tile_paths xyz_to_path x y z cs ->
  length ds = length cs ->
  Forall (fun d => d <> [] /\ Z.of_nat (length d) <= UNPACK_BUF_LEN) ds ->
  hsz + total_len ds <= PACK_BUF_LEN ->
  w_fs w !! meta
    = Some (container_bytes METATILE (tile_slots xyz_to_meta x y z cs) ds x y z) ->
  (forall p, p ∈ tile_paths xyz_to_path x y z cs -> w_fs w !! p = None) ->
  w_fs (snd (process_meta' x y z (snd (process_unpack' name w)))) = w_fs w.
Proof.
  intros cs meta Hname Hm Ho Hr Hw Hu Hhdr Hsame Hslots Hnd Hndp Hmeta Hlen
    Hds Hfit Hfs Hfree.
  assert (Hls : length ds = length (tile_slots xyz_to_meta x y z cs))
    by (unfold tile_slots; by rewrite length_map).
  destruct (packed_container_holds METATILE _ ds x y z Hhdr Hslots Hnd Hls Hfit)
    as [Hvalid Hholds].
  set (data := container_bytes METATILE (tile_slots xyz_to_meta x y z cs) ds
                 x y z) in *.
  rewrite Forall_forall in Hds.
  assert (Hall : Forall2 (fun c d =>
             fst (xyz_to_meta (x + fst c) (y + snd c) z) = meta /\
             xyz_to_path (x + fst c) (y + snd c) z <> meta /\
             holds_tile data (snd (xyz_to_meta (x + fst c) (y + snd c) z)) d /\
             0 < Z.of_nat (length d) < 2 ^ 31) cs ds).
  { apply Forall2_same_length_lookup_2; [done|].
    intros k c d Hc Hd.
    assert (Hin : c ∈ cs) by (by eapply list_elem_of_lookup_2).
    destruct (Hds d) as [Hne Hsmall]; [by eapply list_elem_of_lookup_2|].
    split; [by apply Hsame|]. split.
    { intros Heq. apply Hmeta. rewrite <- Heq. unfold tile_paths.
      apply list_elem_of_fmap. by exists c. }
    split.
    { apply (Hholds k); [|done].
      unfold tile_slots. by rewrite list_lookup_fmap, Hc. }
    unfold UNPACK_BUF_LEN in Hsmall.
    destruct d; [done|]. simpl length in *. lia. }
  set (w1 := snd (process_unpack' name w)).
  assert (Hfs1 : w_fs w1
                 = delete meta (unpacked_fs (tile_paths xyz_to_path x y z cs) ds
                                  (w_fs w))).
  { unfold w1. by eapply process_unpack_ok. }
  assert (Hall1 : Forall2 (fun c d =>
             w_fs w1 !! xyz_to_path (x + fst c) (y + snd c) z = Some d
             /\ d <> []) cs ds).
  { apply Forall2_same_length_lookup_2; [done|].
    intros k c d Hc Hd.
    destruct (Hds d) as [Hne Hsmall]; [by eapply list_elem_of_lookup_2|].
    destruct (Forall2_lookup_lr _ _ _ _ _ _ Hall Hc Hd) as (_ & Hpm & _).
    split; [|done].
    rewrite Hfs1, lookup_delete_ne by done.
    rewrite (unpacked_fs_at _ _ _ k _ d); [by rewrite unpacked_small | done | | done].
    unfold tile_paths. by rewrite list_lookup_fmap, Hc. }
  apply map_eq. intros p.
  rewrite (process_meta_ok METATILE xyz_to_meta xyz_to_path env x y z w1 ds p)
    by done.
  fold cs meta data.
  destruct (decide (p ∈ tile_paths xyz_to_path x y z cs)) as [Hin|Hnin].
  { symmetry. by apply Hfree. }
  destruct (decide (p = meta)) as [->|Hne]; [by rewrite Hfs|].
  rewrite Hfs1, lookup_delete_ne by done.
  by apply unpacked_fs_frame.
Qed.

End UnpackingResults.

(** ** Packing tiles that do not fit the work buffer *)

Lemma stored_fits offset fulls :
  offset + total_len fulls <= PACK_BUF_LEN -> stored offset fulls = fulls.
Proof.
  revert offset. induction fulls as [|f fulls IH]; intros offset Hfit; [done|].
  simpl in *. assert (Htl := total_len_nonneg fulls).
  rewrite Z.min_r by lia. rewrite slice_all by lia.
  f_equal. apply IH. lia.
Qed.

Section PackingOversize.

Variable METATILE : Z.
Variable xyz_to_meta : Z -> Z -> Z -> string * Z.
Variable xyz_to_path : Z -> Z -> Z -> string.
Variable env : oracle.

Local Abbreviation read_from_file' := (read_from_file xyz_to_path env).
Local Abbreviation pack_loop' := (pack_loop xyz_to_meta xyz_to_path env).
Local Abbreviation process_meta' :=
  (process_meta METATILE xyz_to_meta xyz_to_path env).
Local Abbreviation hsz := (header_size METATILE).
Local Abbreviation buf0 := (repeat Byte.x00 (Z.to_nat hsz)).

(** Without a failing call the sub-tile loop gathers of every file what
    still fits, as long as that is at least one byte. *)
Lemma pack_loop_stores x y z cs fulls (buf : bytes) offset w :
  opens_ok env -> reads_ok env ->
  Forall2 (fun c f => w_fs w !! xyz_to_path (x + fst c) (y + snd c) z = Some f)
          cs fulls ->
  Z.of_nat (length buf) = offset -> hsz <= offset <= PACK_BUF_LEN ->
  Forall (fun d => d <> []) (stored offset fulls) ->
  slots_in_table METATILE (tile_slots xyz_to_meta x y z cs) ->
  fst (pack_loop' x y z cs buf offset w) =
  Some (assemble (tile_slots xyz_to_meta x y z cs) (stored offset fulls)
          buf offset,
        offset + total_len (stored offset fulls)) /\
  offset + total_len (stored offset fulls) <= PACK_BUF_LEN.
Proof.
  intros Ho Hr. revert fulls buf offset w.
  induction cs as [|[ox oy] cs IH];
    intros fulls buf offset w Hall Hlen Hoff Hne Hslots.
  { apply Forall2_nil_inv_l in Hall as ->. simpl. split; [|lia].
    do 2 f_equal. lia. }
  apply Forall2_cons_inv_l in Hall as (f & fulls' & Hf & Hall & ->).
  simpl in Hf. simpl stored in *.
  set (n := Z.min (PACK_BUF_LEN - offset) (Z.of_nat (length f))) in *.
  set (d := slice f 0 n) in *.
  apply Forall_cons in Hne as [Hd Hne].
  assert (Hn : 0 <= n) by (unfold n; lia).
  assert (Hdl : Z.of_nat (length d) = n) by (apply length_slice; lia).
  assert (Hpos : 0 < n) by (destruct d; [done | simpl in Hdl; lia]).
  assert (Hh : 0 <= hsz)
    by (unfold header_size, sizeof_meta_layout, sizeof_entry; nia).
  rewrite pack_loop_cons.
  assert (Hc := read_from_file_cases xyz_to_path env (x + ox) (y + oy) z
                  (to_size_t (PACK_BUF_LEN - offset)) w
                  (to_size_t_range _)).
  destruct (read_from_file' (x + ox) (y + oy) z _ w) as [[len out] w1].
  destruct Hc as [Hfs Hc]. cbv zeta.
  rewrite pack_buf_room in Hc by lia. rewrite Hf in Hc.
  destruct Hc as [Hc|[Hc|Hc]]; [no_fault | no_fault |]. cbv zeta in Hc.
  fold n in Hc. fold d in Hc. destruct Hc as [-> ->].
  rewrite to_int_small by (unfold PACK_BUF_LEN in *; lia).
  destruct (Z.leb_spec n 0); [lia|].
  rewrite blit_at_end by lia.
  inversion Hslots as [|s ss Hs Hss]; subst s ss. simpl in Hs.
  rewrite Hdl in *.
  destruct (IH fulls' (put_int (put_int (buf ++ d)
              (off_index_offset (snd (xyz_to_meta (x + ox) (y + oy) z))) offset)
              (off_index_size (snd (xyz_to_meta (x + ox) (y + oy) z))) n)
              (offset + n) w1) as [Hrun Hle].
  - eapply Forall2_impl; [apply Hall|]. intros c f'. simpl. by rewrite Hfs.
  - rewrite <- Hdl.
    apply (assemble_step_length METATILE); first [done | lia].
  - unfold n. lia.
  - done.
  - done.
  - rewrite Hrun. simpl. rewrite Hdl. split; [|lia].
    do 2 f_equal. lia.
Qed.

(** What [process_meta] leaves behind once its sub-tile loop completed
    with the buffer [buf] and no later call fails. *)
Lemma process_meta_after_loop x y z w (buf : bytes) offset p :
  mallocs_ok env -> opens_ok env -> writes_ok env -> unlinks_ok env ->
  fst (pack_loop' x y z (sub_tiles METATILE z) buf0 hsz (tick w))
    = Some (buf, offset) ->
  Z.of_nat (length buf) = offset -> sizeof_meta_layout <= offset ->
  w_fs (snd (process_meta' x y z w)) !! p =
  if decide (p ∈ tile_paths xyz_to_path x y z (sub_tiles METATILE z)) then None
  else if decide (p = fst (xyz_to_meta x y z))
       then Some (stamp_header METATILE x y z buf)
       else w_fs w !! p.
Proof.
  intros Hm Ho Hw Hu Hrun Hlen Hoff.
  unfold process_meta, sys_malloc. rewrite Hm.
  assert (Hfs := pack_loop_fs xyz_to_meta xyz_to_path env x y z
                   (sub_tiles METATILE z) buf0 hsz (tick w)).
  destruct (pack_loop' x y z (sub_tiles METATILE z) buf0 hsz (tick w))
    as [res w1]. simpl in Hfs, Hrun. subst res.
  set (data := stamp_header METATILE x y z buf).
  assert (Hld : Z.of_nat (length data) = offset).
  { unfold data. rewrite length_stamp_header; [done | lia]. }
  unfold sys_open_wr. rewrite Ho.
  set (meta := fst (xyz_to_meta x y z)).
  unfold sizeof_meta_layout in Hoff.
  edestruct (write_loop_ok env (write_fuel offset) meta data 0 offset)
    as (w3 & -> & Hfs3 & _);
    [done | simpl; apply lookup_insert_eq | lia | lia
    | unfold write_fuel; lia |].
  simpl in Hfs3. rewrite insert_insert_eq in Hfs3.
  rewrite Z.sub_0_r, slice_all in Hfs3 by lia. simpl app in Hfs3.
  cbv beta iota. simpl snd.
  rewrite unlink_loop_ok by done. simpl w_fs. rewrite Hfs3, Hfs.
  destruct (decide (p ∈ _)); [done|].
  destruct (decide (p = meta)) as [->|Hne].
  - apply lookup_insert_eq.
  - by rewrite lookup_insert_ne.
Qed.

(** X21: what a fault-free [process_meta] leaves behind, whatever the
    sizes of the tiles.  Each sub-tile is read with the room left in the
    10 MiB work buffer as its capacity, so the container receives of each
    file what still fits; as long as that is at least one byte per tile,
    the container is written with these parts, never larger than the
    buffer, and every standalone tile of the block is removed, also one
    that was stored only in part.  Tiles that fit together are stored
    whole. *)
Theorem process_meta_stores_what_fits x y z w fulls :
  let cs := sub_tiles METATILE z in
  let meta := fst (xyz_to_meta x y z) in
  let ds := stored hsz fulls in
  mallocs_ok env -> opens_ok env -> reads_ok env -> writes_ok env ->
  unlinks_ok env ->
  hsz <= PACK_BUF_LEN ->
  slots_in_table METATILE (tile_slots xyz_to_meta x y z cs) ->
  meta ∉ tile_paths xyz_to_path x y z cs ->
  Forall2 (fun c f => w_fs w !! xyz_to_path (x + fst c) (y + snd c) z = Some f)
          cs fulls ->
  Forall (fun d => d <> []) ds ->
  let fs' := w_fs (snd (process_meta' x y z w)) in
  fs' !! meta
    = Some (container_bytes METATILE (tile_slots xyz_to_meta x y z cs) ds x y z) /\
  Z.of_nat (length (container_bytes METATILE
                      (tile_slots xyz_to_meta x y z cs) ds x y z))
    = hsz + total_len ds /\
  hsz + total_len ds <= PACK_BUF_LEN /\
  (forall p, p ∈ tile_paths xyz_to_path x y z cs -> fs' !! p = None) /\
  (hsz + total_len fulls <= PACK_BUF_LEN -> ds = fulls).
Proof.
  intros cs meta ds Hm Ho Hr Hw Hu Hroom Hslots Hmeta Hall Hne fs'.
  assert (Hh := header_size_ge METATILE).
  assert (Hb0 : Z.of_nat (length buf0) = hsz).
  { unfold sizeof_meta_layout in Hh. rewrite repeat_length. lia. }
  destruct (pack_loop_stores x y z cs fulls buf0 hsz (tick w) Ho Hr)
    as [Hrun Hle];
    [exact Hall | exact Hb0 | lia | exact Hne | exact Hslots |].
  fold ds in Hrun, Hle.
  assert (Htl := total_len_nonneg ds).
  assert (Hlds : length ds = length (tile_slots xyz_to_meta x y z cs)).
  { unfold tile_slots. rewrite length_map.
    apply Forall2_length in Hall. rewrite Hall. unfold ds.
    clear. generalize hsz. induction fulls as [|f fulls IH]; intros o; [done|].
    simpl. by rewrite IH. }
  assert (Hla : Z.of_nat (length (assemble (tile_slots xyz_to_meta x y z cs)
                                    ds buf0 hsz)) = hsz + total_len ds).
  { apply (length_assemble METATILE); first [done | lia]. }
  assert (Hafter := fun p => process_meta_after_loop x y z w _ _ p
                               Hm Ho Hw Hu Hrun Hla ltac:(lia)).
  fold cs meta fs' in Hafter.
  fold (container_bytes METATILE (tile_slots xyz_to_meta x y z cs) ds x y z)
    in Hafter.
  split; [|split; [|split; [|split]]].
  - rewrite Hafter. rewrite decide_False by done. by rewrite decide_True.
  - unfold container_bytes. rewrite length_stamp_header; [done | lia].
  - done.
  - intros p Hp. rewrite Hafter. by rewrite decide_True.
  - apply stored_fits.
Qed.

End PackingOversize.

(** ** The further properties at the closed instance *)

Lemma demo_container_holds : holds_tile (demo_container 532 3) 0 demo_tile.
Proof.
  split; [apply demo_container_entry|].
  split; [closed_arith|]. split; vm_compute; reflexivity.
Qed.

Lemma demo_tiles_present :
  Forall2 (fun c d => w_fs (world0 demo_fs)
                        !! xyz_to_path8 (0 + fst c) (0 + snd c) 0 = Some d
                      /\ d <> [])
          (sub_tiles METATILE8 0) [demo_tile].
Proof. constructor; [|constructor]. split; [reflexivity | discriminate]. Qed.

Lemma demo_tiles_fit : header_size METATILE8 + total_len [demo_tile] <= PACK_BUF_LEN.
Proof. closed_arith. Qed.

Lemma demo_tiles_held :
  Forall2 (fun c d =>
             fst (xyz_to_meta8 (0 + fst c) (0 + snd c) 0) = fst (xyz_to_meta8 0 0 0) /\
             xyz_to_path8 (0 + fst c) (0 + snd c) 0 <> fst (xyz_to_meta8 0 0 0) /\
             holds_tile (demo_container 532 3)
               (snd (xyz_to_meta8 (0 + fst c) (0 + snd c) 0)) d /\
             0 < Z.of_nat (length d) < 2 ^ 31)
          (sub_tiles METATILE8 0) [demo_tile].
Proof.
  constructor; [|constructor].
  split; [reflexivity|]. split; [discriminate|].
  split; [apply demo_container_holds | closed_arith].
Qed.

(** X1 at a capacity of two bytes for the tile of three. *)
Lemma read_from_file_prefix_witness :
  fst (read_from_file8 0 0 0 2 (world0 demo_fs)) = (2, [Byte.x01; Byte.x02]).
Proof.
  destruct (read_from_file_prefix xyz_to_path8 quiet 0 0 0 2 (world0 demo_fs)
              demo_tile quiet_opens quiet_reads eq_refl ltac:(closed_arith))
    as (Hres & _ & _).
  exact Hres.
Defined.

(** X2 at a capacity of exactly the three bytes of the tile. *)
Lemma read_from_file_truncation_report_witness :
  w_log (snd (read_from_file8 0 0 0 3 (world0 demo_fs)))
  = [FileTruncated (xyz_to_path8 0 0 0) 3].
Proof.
  exact (read_from_file_truncation_report xyz_to_path8 quiet 0 0 0 3
           (world0 demo_fs) demo_tile quiet_opens quiet_reads eq_refl
           ltac:(closed_arith)).
Defined.

(** X3 at a slot that records ten bytes from offset 533 of a container of
    535 bytes: the two bytes left are returned. *)
Lemma read_from_meta_payload_witness :
  fst (read_from_meta8 0 0 0 1024 (world0 (meta_fs (demo_container 533 10))))
  = (2, [Byte.x02; Byte.x03]).
Proof.
  destruct (read_from_meta_payload METATILE8 xyz_to_meta8 quiet 0 0 0 1024
              (world0 (meta_fs (demo_container 533 10)))
              (fst (xyz_to_meta8 0 0 0)) 0 (demo_container 533 10)
              quiet_opens quiet_reads eq_refl) as [Hres _].
  - apply lookup_singleton_eq.
  - apply demo_container_valid.
  - apply demo_container_entry.
  - closed_arith.
  - closed_arith.
  - closed_arith.
  - unfold read_from_meta8. rewrite Hres. vm_compute. reflexivity.
Defined.

(** X4 at a file of three bytes in the place of the container. *)
Lemma read_from_meta_header_checks_witness :
  fst (read_from_meta8 0 0 0 16 (world0 (meta_fs demo_tile))) = (-3, []).
Proof.
  destruct (read_from_meta_header_checks METATILE8 xyz_to_meta8 quiet 0 0 0 16
              (world0 (meta_fs demo_tile)) (fst (xyz_to_meta8 0 0 0)) 0
              demo_tile quiet_opens quiet_reads eq_refl) as (Hshort & _ & _).
  - apply lookup_singleton_eq.
  - lia.
  - apply Hshort. closed_arith.
Defined.

(** X6 at a container whose slot 0 records size 0, next to the standalone
    tile: 0 bytes are returned. *)
Lemma tile_read_container_first_witness :
  fst (tile_read8 0 0 0 16 (world0 (both_fs (demo_container 532 0)))) = (0, []).
Proof.
  destruct (tile_read_container_first METATILE8 xyz_to_meta8 xyz_to_path8 quiet
              0 0 0 16 (world0 (both_fs (demo_container 532 0)))
              (fst (xyz_to_meta8 0 0 0)) 0 (demo_container 532 0) eq_refl)
    as [_ Hquiet].
  - apply lookup_insert_eq.
  - apply demo_container_valid.
  - apply demo_container_entry.
  - closed_arith.
  - closed_arith.
  - destruct (Hquiet quiet_opens quiet_reads) as [_ Hres].
    unfold tile_read8. rewrite Hres. vm_compute. reflexivity.
Defined.

(** X7 where only the standalone tile exists. *)
Lemma tile_read_standalone_witness :
  fst (tile_read8 0 0 0 16 (world0 demo_fs)) = (3, demo_tile).
Proof.
  destruct (tile_read_standalone METATILE8 xyz_to_meta8 xyz_to_path8 quiet
              0 0 0 16 (world0 demo_fs) quiet_opens quiet_reads eq_refl
              ltac:(closed_arith)) as [Hfile _].
  exact (Hfile demo_tile eq_refl).
Defined.

(** X21 at the tile of zoom 0: stored whole, its file is removed. *)
Lemma process_meta_stores_what_fits_witness :
  w_fs (snd (process_meta8 0 0 0 (world0 demo_fs))) !! xyz_to_path8 0 0 0 = None.
Proof.
  destruct (process_meta_stores_what_fits METATILE8 xyz_to_meta8 xyz_to_path8
              quiet 0 0 0 (world0 demo_fs) [demo_tile]
              quiet_mallocs quiet_opens quiet_reads quiet_writes quiet_unlinks)
    as (_ & _ & _ & Hgone & _).
  - closed_arith.
  - exact block0_slots.
  - exact block0_container_apart.
  - constructor; [|constructor]. reflexivity.
  - constructor; [|constructor]. discriminate.
  - apply Hgone. rewrite block0_tiles. left.
Defined.

(** X9 at the tile of zoom 0: packed, it is read back from the container. *)
Lemma tile_read_after_pack_witness :
  fst (tile_read8 0 0 0 16 (snd (process_meta8 0 0 0 (world0 demo_fs))))
  = (3, demo_tile).
Proof.
  destruct (tile_read_after_pack METATILE8 xyz_to_meta8 xyz_to_path8 quiet
              0 0 0 (world0 demo_fs) [demo_tile] 0%nat (0, 0) demo_tile 16
              quiet_mallocs quiet_opens quiet_reads quiet_writes quiet_unlinks
              header8_fits block0_same_container block0_slots
              block0_slots_distinct block0_container_apart
              demo_tiles_present demo_tiles_fit eq_refl eq_refl
              ltac:(closed_arith)) as [Hafter _].
  exact Hafter.
Defined.

(** X10 where [open] is refused once the tile was read. *)
Lemma process_meta_refused_witness :
  w_fs (snd (process_meta METATILE8 xyz_to_meta8 xyz_to_path8 locked_dir
               0 0 0 (world0 demo_fs))) = demo_fs.
Proof.
  apply (process_meta_refused METATILE8 xyz_to_meta8 xyz_to_path8 locked_dir
           0 0 0 (world0 demo_fs)).
  right. vm_compute. reflexivity.
Defined.

(** X11 at the tile of zoom 0 on a full disk. *)
Lemma process_meta_write_error_keeps_tiles_witness :
  w_fs (snd (process_meta METATILE8 xyz_to_meta8 xyz_to_path8 no_space
               0 0 0 (world0 demo_fs)))
  = <[fst (xyz_to_meta8 0 0 0) := []]> demo_fs.
Proof.
  apply (process_meta_write_error_keeps_tiles METATILE8 xyz_to_meta8
           xyz_to_path8 no_space 0 0 0 (world0 demo_fs) [demo_tile]).
  - intros t. reflexivity.
  - intros t. reflexivity.
  - intros t. simpl. unfold MAX_RW_COUNT. lia.
  - intros t. simpl. lia.
  - exact demo_tiles_present.
  - exact demo_tiles_fit.
  - exact block0_slots.
Defined.

(** X12 at the tile of zoom 0 when no write takes a byte: the tile is
    gone. *)
Lemma process_meta_zero_write_drops_tiles_witness :
  w_fs (snd (process_meta METATILE8 xyz_to_meta8 xyz_to_path8 stalled
               0 0 0 (world0 demo_fs))) !! xyz_to_path8 0 0 0 = None.
Proof.
  rewrite (process_meta_zero_write_drops_tiles METATILE8 xyz_to_meta8
             xyz_to_path8 stalled 0 0 0 (world0 demo_fs) [demo_tile]).
  - rewrite decide_True; [done|]. rewrite block0_tiles. left.
  - intros t. reflexivity.
  - intros t. reflexivity.
  - intros t. simpl. unfold MAX_RW_COUNT. lia.
  - intros t. reflexivity.
  - intros t. reflexivity.
  - exact demo_tiles_present.
  - exact demo_tiles_fit.
  - exact block0_slots.
Defined.

(** X13 at the tile of zoom 0: 535 bytes gathered. *)
Lemma pack_loop_within_buffer_witness :
  header_size METATILE8 <= 535 <= PACK_BUF_LEN.
Proof.
  set (run := pack_loop xyz_to_meta8 xyz_to_path8 quiet 0 0 0
                (sub_tiles METATILE8 0)
                (repeat Byte.x00 (Z.to_nat (header_size METATILE8)))
                (header_size METATILE8) (world0 demo_fs)).
  assert (Hrun : run = (Some (assemble [0] [demo_tile]
                                (repeat Byte.x00 (Z.to_nat (header_size METATILE8)))
                                (header_size METATILE8), 535), snd run))
    by (vm_compute; reflexivity).
  apply (pack_loop_within_buffer METATILE8 xyz_to_meta8 xyz_to_path8 quiet
           0 0 0 (world0 demo_fs) _ 535 (snd run)
           ltac:(closed_arith) block0_slots Hrun).
Defined.

(** X14 at the name of the tile of zoom 0. *)
Lemma process_pack_twice_witness :
  w_fs (snd (process_pack8 "/0/0/0.png"
               (snd (process_pack8 "/0/0/0.png" (world0 demo_fs)))))
  = w_fs (snd (process_pack8 "/0/0/0.png" (world0 demo_fs))).
Proof.
  apply (process_pack_twice METATILE8 xyz_to_meta8 xyz_to_path8 path_to_xyz8
           quiet "/0/0/0.png" 0 0 0 (world0 demo_fs) [demo_tile]
           eq_refl eq_refl
           quiet_mallocs quiet_opens quiet_reads quiet_writes quiet_unlinks
           demo_tiles_present demo_tiles_fit block0_slots).
Defined.

(** X16 at an empty directory. *)
Lemma process_unpack_leaves_files_witness :
  w_fs (snd (process_unpack8 "/0/0/0.meta" (world0 ∅))) = ∅.
Proof.
  apply (process_unpack_leaves_files METATILE8 xyz_to_meta8 xyz_to_path8
           path_to_xyz8 quiet "/0/0/0.meta" 0 0 0 (world0 ∅) eq_refl).
  right. split; [exact block0_same_container | reflexivity].
Defined.

(** X17 at the container of the tile of zoom 0. *)
Lemma process_unpack_twice_witness :
  w_fs (snd (process_unpack8 "/0/0/0.meta"
               (snd (process_unpack8 "/0/0/0.meta"
                       (world0 (meta_fs (demo_container 532 3)))))))
  = w_fs (snd (process_unpack8 "/0/0/0.meta"
                 (world0 (meta_fs (demo_container 532 3))))).
Proof.
  apply (process_unpack_twice METATILE8 xyz_to_meta8 xyz_to_path8 path_to_xyz8
           quiet "/0/0/0.meta" 0 0 0 _ eq_refl quiet_mallocs quiet_unlinks
           block0_same_container).
Defined.

(** X18 at the container of the tile of zoom 0: the tile is written out. *)
Lemma process_unpack_writes_tiles_witness :
  w_fs (snd (process_unpack8 "/0/0/0.meta"
               (world0 (meta_fs (demo_container 532 3)))))
    !! xyz_to_path8 0 0 0 = Some demo_tile.
Proof.
  destruct (process_unpack_writes_tiles METATILE8 xyz_to_meta8 xyz_to_path8
              path_to_xyz8 quiet "/0/0/0.meta" 0 0 0
              (world0 (meta_fs (demo_container 532 3))) [demo_tile]
              (demo_container 532 3) eq_refl
              quiet_mallocs quiet_opens quiet_reads quiet_writes quiet_unlinks)
    as [_ Htiles].
  - apply lookup_singleton_eq.
  - apply demo_container_valid.
  - rewrite block0_tiles. apply NoDup_singleton.
  - exact demo_tiles_held.
  - destruct (Htiles 0%nat (0, 0) demo_tile eq_refl eq_refl) as [Hfile _].
    exact Hfile.
Defined.

(** X19 at the container of the tile of zoom 0 on a full disk: the tile
    is left empty. *)
Lemma process_unpack_no_space_witness :
  w_fs (snd (process_unpack METATILE8 xyz_to_meta8 xyz_to_path8 path_to_xyz8
               no_space "/0/0/0.meta"
               (world0 (meta_fs (demo_container 532 3)))))
    !! xyz_to_path8 0 0 0 = Some [].
Proof.
  rewrite (process_unpack_no_space METATILE8 xyz_to_meta8 xyz_to_path8
             path_to_xyz8 no_space "/0/0/0.meta" 0 0 0
             (world0 (meta_fs (demo_container 532 3))) [demo_tile]
             (demo_container 532 3)).
  - rewrite decide_False by discriminate.
    rewrite decide_True; [done|]. rewrite block0_tiles. left.
  - reflexivity.
  - intros t. reflexivity.
  - intros t. reflexivity.
  - intros t. simpl. unfold MAX_RW_COUNT. lia.
  - intros t. reflexivity.
  - intros t. simpl. lia.
  - apply lookup_singleton_eq.
  - apply demo_container_valid.
  - exact demo_tiles_held.
Defined.

(** X20 at the container [process_meta] writes for the tile of zoom 0. *)
Lemma unpack_pack_roundtrip_witness :
  let data := container_bytes METATILE8 [0] [demo_tile] 0 0 0 in
  w_fs (snd (process_meta8 0 0 0
               (snd (process_unpack8 "/0/0/0.meta" (world0 (meta_fs data))))))
  = meta_fs data.
Proof.
  apply (unpack_pack_roundtrip METATILE8 xyz_to_meta8 xyz_to_path8 path_to_xyz8
           quiet "/0/0/0.meta" 0 0 0
           (world0 (meta_fs (container_bytes METATILE8 [0] [demo_tile] 0 0 0)))
           [demo_tile] eq_refl
           quiet_mallocs quiet_opens quiet_reads quiet_writes quiet_unlinks
           header8_fits block0_same_container block0_slots
           block0_slots_distinct).
  - rewrite block0_tiles. apply NoDup_singleton.
  - exact block0_container_apart.
  - reflexivity.
  - constructor; [|constructor]. split; [discriminate | closed_arith].
  - exact demo_tiles_fit.
  - apply lookup_singleton_eq.
  - rewrite block0_tiles. intros p ->%list_elem_of_singleton. reflexivity.
Defined.

(** X8 at the tile of zoom 0 on a disk that cannot be read. *)
Lemma read_fault_codes_witness :
  fst (read_from_file xyz_to_path8 bad_sectors 0 0 0 16 (world0 demo_fs))
  = (-2, []).
Proof.
  destruct (read_fault_codes METATILE8 xyz_to_meta8 xyz_to_path8 bad_sectors
              0 0 0 16 (world0 demo_fs)) as [_ Hfile].
  - intros t. reflexivity.
  - intros t. simpl. lia.
  - apply (Hfile demo_tile); [reflexivity | lia].
Defined.
